(** * Space-weather monitor: a shallow embedding of the checker pipeline

    The development follows the TypeScript sources file by file:

    - [Js]          the fragment of the JavaScript runtime the code relies on
                    (number comparisons, [Math.floor]/[Math.round],
                    [Array.prototype.slice], object spread, JSON cloning);
    - [Host]        what the runtime provides and the code does not define
                    (parsing and printing of dates, printing of numbers);
    - [Types]       [src/lib/types.ts];
    - [Config]      [src/scripts/config.ts];
    - [Donki]       the mapping of the DONKI feed ([lib/donki]);
    - [Alerts]      [src/scripts/alerts.ts];
    - [State]       [src/scripts/state.ts];
    - [AlertsRoute] the alerts endpoint ([src/app/api/alerts/route.ts]);
    - [CheckerHealth] the age of the last run in the health display;
    - [Notify]      [src/scripts/notify.ts];
    - [Checker]     the body of [main] in [src/scripts/checker.ts];
    - [Predictions] the prediction store ([lib/predictions]);
    - [Route]       the handlers of the predictions endpoint;
    - [Verify]      the verification pass ([scripts/verify-predictions]).

    Conventions.  A JavaScript [number] that is a measurement is a rational
    [Q] (the feeds are filtered for NaN before they reach the pipeline);
    instants are integers, milliseconds since the epoch, as [Date.now()]
    returns them; ISO timestamps stay strings and are read with
    [getTime], which is total: every timestamp denotes a date.  Every clock
    read of one run of a function is taken at the same instant, which is
    passed in as [now].  File operations succeed.

    The embedding is followed by the vocabulary of the statements, by
    concrete inputs, and by the properties, one section per subject. *)

From Stdlib Require Import ZArith QArith Qround String Ascii List Lia.
From Stdlib Require Import DecimalString DecimalZ.
From stdpp Require Import base option list strings gmap.

Set Warnings "-register-all".

Local Open Scope string_scope.
Local Open Scope Z_scope.

(* ===================================================================== *)
(** ** The JavaScript fragment                                            *)
(* ===================================================================== *)

Module Js.

(** Comparisons of numbers, named after the operators. *)
Definition geb (a b : Q) : bool := Qle_bool b a.          (* a >= b *)
Definition leb (a b : Q) : bool := Qle_bool a b.          (* a <= b *)
Definition ltb (a b : Q) : bool := negb (Qle_bool b a).   (* a <  b *)
Definition gtb (a b : Q) : bool := negb (Qle_bool a b).   (* a >  b *)

(** Truthiness of the values the code tests with [x ? .. : ..], [!x]
    and [x || y]. *)
Definition truthyNum (o : option Q) : bool :=
  match o with Some q => negb (Qeq_bool q 0) | None => false end.

Definition truthyStr (o : option string) : bool :=
  match o with Some s => negb (String.eqb s "") | None => false end.

(** [Math.floor] and [Math.round] (round half up). *)
Definition Math_floor (q : Q) : Z := Qfloor q.
Definition Math_round (q : Q) : Z := Qfloor (q + (1 # 2)).

(** An integer inside a template literal. *)
Definition intToString (z : Z) : string := NilZero.string_of_int (Z.to_int z).

(** [xs.slice(start)] for an integer [start]: a negative [start] counts
    from the end, and is clamped. *)
Definition slice_from {A} (start : Z) (xs : list A) : list A :=
  let len := Z.of_nat (length xs) in
  let k := if start <? 0 then Z.max (len + start) 0 else Z.min start len in
  drop (Z.to_nat k) xs.

(** *** Strings

    A string is held as the UTF-8 bytes of its characters, a lone
    surrogate as the three bytes of its code point.  The positions of a
    JavaScript string count UTF-16 code units: a character of one, two or
    three bytes is one unit, a character of four bytes is two. *)

(** The number of bytes of the character that starts with the byte [c]. *)
Definition utf8_length (c : ascii) : nat :=
  let n := N_of_ascii c in
  if (n <? 192)%N then 1%nat
  else if (n <? 224)%N then 2%nat
  else if (n <? 240)%N then 3%nat
  else 4%nat.

Fixpoint bytes_take (n : nat) (s : string) : string :=
  match n, s with
  | S n', String c s' => String c (bytes_take n' s')
  | _, _ => EmptyString
  end.

Fixpoint bytes_drop (n : nat) (s : string) : string :=
  match n, s with
  | S n', String _ s' => bytes_drop n' s'
  | _, _ => s
  end.

(** The first code unit of a character of four bytes: its high
    surrogate, [0xD800 + ((cp - 0x10000) >> 10)]. *)
Definition highSurrogate (ch : string) : string :=
  match ch with
  | String b0 (String b1 (String b2 (String b3 _))) =>
      let cp :=
        ((N_of_ascii b0 mod 8) * 262144 + (N_of_ascii b1 mod 64) * 4096
         + (N_of_ascii b2 mod 64) * 64 + N_of_ascii b3 mod 64)%N in
      let hi := (55296 + (cp - 65536) / 1024)%N in
      String (ascii_of_N 237)
        (String (ascii_of_N (128 + (hi / 64) mod 64))
           (String (ascii_of_N (128 + hi mod 64)) EmptyString))
  | _ => ch
  end.

(** [s.slice(0, n)] on a string, [0 <= n]: the first [n] code units.  A
    cut between the two units of a character leaves its high surrogate. *)
Fixpoint str_take (n : nat) (s : string) : string :=
  match n with
  | O => EmptyString
  | S n' =>
      match s with
      | EmptyString => EmptyString
      | String c _ =>
          let k := utf8_length c in
          let ch := bytes_take k s in
          let rest := bytes_drop k s in
          if (k =? 4)%nat then
            match n' with
            | O => highSurrogate ch
            | S n'' => ch +:+ str_take n'' rest
            end
          else ch +:+ str_take n' rest
      end
  end.

(** [s.charAt(0)]: the first character as a string, or the empty string. *)
Definition charAt0 (s : string) : string :=
  match s with
  | String c _ => String c EmptyString
  | EmptyString => EmptyString
  end.

(** [s.startsWith(p)]. *)
Definition startsWith (p s : string) : bool := String.prefix p s.

(** [c.toUpperCase()] on one ASCII character; used only to state what the
    evaluator does not do. *)
Definition toUpperAscii (c : ascii) : ascii :=
  let n := nat_of_ascii c in
  if (97 <=? n)%nat && (n <=? 122)%nat then ascii_of_nat (n - 32) else c.

Definition toUpperCase0 (s : string) : string :=
  match s with
  | String c _ => String (toUpperAscii c) EmptyString
  | EmptyString => EmptyString
  end.

(** *** Values

    The values that can sit in the state object and in a JSON document.
    An object is its list of own properties in insertion order. *)
Inductive val : Type :=
| VUndefined
| VNull
| VBool (b : bool)
| VNum (q : Q)
| VStr (s : string)
| VArr (xs : list val)
| VObj (props : list (string * val)).

(** [o.k]: the first property named [k], [undefined] when there is none
    or when [o] is a primitive or an array. *)
Fixpoint lookupProp (k : string) (ps : list (string * val)) : val :=
  match ps with
  | [] => VUndefined
  | (k', v) :: ps' => if String.eqb k' k then v else lookupProp k ps'
  end.

Definition getProp (o : val) (k : string) : val :=
  match o with
  | VObj ps => lookupProp k ps
  | _ => VUndefined
  end.

(** [o[k] = v] on a property list: overwrite in place, else append. *)
Fixpoint setProp (k : string) (v : val) (ps : list (string * val))
  : list (string * val) :=
  match ps with
  | [] => [(k, v)]
  | (k', v') :: ps' =>
      if String.eqb k' k then (k, v) :: ps' else (k', v') :: setProp k v ps'
  end.

Fixpoint indexed (i : nat) (xs : list val) : list (string * val) :=
  match xs with
  | [] => []
  | x :: xs' => (intToString (Z.of_nat i), x) :: indexed (S i) xs'
  end.

Fixpoint chars (i : nat) (s : string) : list (string * val) :=
  match s with
  | EmptyString => []
  | String c s' =>
      (intToString (Z.of_nat i), VStr (String c EmptyString)) :: chars (S i) s'
  end.

(** The own enumerable properties that [{...src}] copies. *)
Definition ownProps (src : val) : list (string * val) :=
  match src with
  | VObj ps => ps
  | VArr xs => indexed 0 xs
  | VStr s => chars 0 s
  | _ => []
  end.

(** [{...base, ...src}] where [base] is given by its properties. *)
Definition spread (base : list (string * val)) (src : val)
  : list (string * val) :=
  fold_left (fun acc kv => setProp (fst kv) (snd kv) acc) (ownProps src) base.

(** [JSON.parse(JSON.stringify(v))] on values: a property whose value is
    [undefined] is left out, an [undefined] array element becomes [null],
    everything else is copied.  [None] is the [undefined] that
    [JSON.stringify(undefined)] returns. *)
Fixpoint serialize (v : val) : option val :=
  match v with
  | VUndefined => None
  | VNull => Some VNull
  | VBool b => Some (VBool b)
  | VNum q => Some (VNum q)
  | VStr s => Some (VStr s)
  | VArr xs =>
      Some (VArr ((fix elems (l : list val) : list val :=
                     match l with
                     | [] => []
                     | x :: l' =>
                         match serialize x with
                         | Some x' => x'
                         | None => VNull
                         end :: elems l'
                     end) xs))
  | VObj ps =>
      Some (VObj ((fix members (l : list (string * val)) : list (string * val) :=
                     match l with
                     | [] => []
                     | (k, x) :: l' =>
                         match serialize x with
                         | Some x' => (k, x') :: members l'
                         | None => members l'
                         end
                     end) ps))
  end.

(** The text of a file, as far as the code looks at it: either the text
    that [JSON.stringify] writes for a document (which [JSON.parse] reads
    back as that document), or text that [JSON.parse] rejects. *)
Inductive text : Type :=
| Json (doc : val)
| Garbled (raw : string).

Definition JSON_stringify (v : val) : option text := Json <$> serialize v.

Definition JSON_parse (t : text) : option val :=
  match t with
  | Json doc => Some doc
  | Garbled _ => None
  end.

End Js.

(* ===================================================================== *)
(** ** The host                                                           *)
(* ===================================================================== *)

(** What the program asks of [Date], of number printing and of string
    trimming.  [getTime s] is [new Date(s).getTime()], [toISOString t] is
    [new Date(t).toISOString()]. *)
Class Host : Type := {
  getTime : string -> Z;
  toISOString : Z -> string;
  numToString : Q -> string;          (* `${x}` *)
  toFixed1 : Q -> string;             (* x.toFixed(1) *)
  formatTime : string -> string;      (* toLocaleString('en-US', ...) *)
  toLocaleTimeString : Z -> string;
  toLocaleDateString : string -> string;
  trim : string -> string;
  getTime_toISOString : forall t, getTime (toISOString t) = t;
  toISOString_nonempty : forall t, toISOString t <> "";
}.

(* ===================================================================== *)
(** ** Data: [src/lib/types.ts]                                           *)
(* ===================================================================== *)

(** Fields that no modelled function reads (instrument lists, raw forecast
    text, the SEP/IPS/MPC event lists) are left out of the snapshot. *)
Module Types.

Record CME : Type := {
  cme_id : string;
  cme_activityID : string;
  cme_startTime : string;
  cme_sourceLocation : option string;
  cme_activeRegionNum : option Q;
  cme_speed : option Q;
  cme_halfAngle : option Q;
  cme_isEarthDirected : bool;
  cme_predictedArrival : option string;
  cme_predictedKp : option Q;
  cme_note : option string;
}.

Record SolarFlare : Type := {
  flare_id : string;
  flare_beginTime : string;
  flare_peakTime : option string;
  flare_endTime : option string;
  flare_classType : string;
  flare_sourceLocation : option string;
  flare_activeRegionNum : option Q;
}.

Record GeomagneticStorm : Type := {
  storm_id : string;
  storm_startTime : string;
  storm_kpIndex : Q;
  storm_gScale : string;
}.

Record HighSpeedStream : Type := {
  hss_id : string;
  hss_eventTime : string;
}.

Record SolarWind : Type := {
  sw_timestamp : string;
  sw_speed : Q;
  sw_density : Q;
  sw_temperature : Q;
}.

Record MagneticField : Type := {
  mf_timestamp : string;
  mf_bx : Q;
  mf_by : Q;
  mf_bz : Q;
  mf_bt : Q;
}.

Record NOAAAlert : Type := {
  noaa_productId : string;
  noaa_issueTime : string;
  noaa_message : string;
}.

Record SpaceWeatherSnapshot : Type := {
  snap_timestamp : string;
  snap_fetchedAt : string;
  snap_kp : Q;
  snap_solarWind : option SolarWind;
  snap_magneticField : option MagneticField;
  snap_earthDirectedCMEs : list CME;
  snap_recentFlares : list SolarFlare;
  snap_recentStorms : list GeomagneticStorm;
  snap_recentHSS : list HighSpeedStream;
  snap_activeAlerts : list NOAAAlert;
}.

Record ActiveRegion : Type := {
  region_regionNumber : Q;
  region_location : string;
  region_magneticClass : option string;
  region_flareProb_M : Q;
  region_flareProb_X : Q;
}.

Inductive AlertUrgency : Type := critical | high | moderate | info.

Definition urgency_eqb (a b : AlertUrgency) : bool :=
  match a, b with
  | critical, critical | high, high | moderate, moderate | info, info => true
  | _, _ => false
  end.

Definition urgencyName (u : AlertUrgency) : string :=
  match u with
  | critical => "critical"
  | high => "high"
  | moderate => "moderate"
  | info => "info"
  end.

Record SpaceWeatherAlert : Type := {
  alert_id : string;
  alert_type : string;
  alert_urgency : AlertUrgency;
  alert_title : string;
  alert_body : string;
  alert_timestamp : string;
  alert_sourceEventId : option string;
}.

Record DataHealthEntry : Type := {
  dh_source : string;
  dh_ok : bool;
  dh_lastSuccess : string;
  dh_lastError : option string;
}.

Record KnownCME : Type := {
  known_id : string;
  known_predictedKp : option Q;
  known_predictedArrival : option string;
}.

Record CheckerState : Type := {
  schemaVersion : Q;
  lastRunAt : string;
  lastKp : Q;
  lastBz : Q;
  lastWindSpeed : Q;
  lastWindDensity : Q;
  kpWasAbove5 : bool;
  kpWasAbove7 : bool;
  bzWasBelow10 : bool;
  bzWasBelow15 : bool;
  windWasAbove600 : bool;
  windWasAbove700 : bool;
  densityWasAbove20 : bool;
  knownCMEs : list KnownCME;
  knownFlareIds : list string;
  knownHSSIds : list string;
  knownRegionNumbers : list Q;
  knownAlertProductIds : list string;
  lastCooldowns : gmap string string;
  dataHealth : list DataHealthEntry;
  alertsSent : list SpaceWeatherAlert;
}.

End Types.

(* ===================================================================== *)
(** ** Configuration: [src/scripts/config.ts]                             *)
(* ===================================================================== *)

Module Config.
Import Types.

Record QuietHours : Type := {
  qh_enabled : bool;
  qh_start : Z;
  qh_end : Z;
}.

Record Config : Type := {
  cmeRevision_kpJump : Q;
  activeRegion_mFlareProb : Q;
  activeRegion_xFlareProb : Q;
  cooldowns : gmap string Z;                    (* minutes *)
  channels : AlertUrgency -> list string;
  quietHours : QuietHours;
  activeRegionAlerts_enabled : bool;
  impact_kp : gmap Z string;
  impact_bz : gmap string string;
  impact_windSpeed : gmap Z string;
  impact_flare : gmap string string;
  maxAlertHistory : Z;
  lockTimeout : Z;                              (* milliseconds *)
}.

Definition CONFIG : Config := {|
  cmeRevision_kpJump := 2;
  activeRegion_mFlareProb := 30;
  activeRegion_xFlareProb := 10;
  cooldowns :=
    list_to_map
      [ ("kp-threshold", 180); ("kp-elevated", 360); ("bz-threshold", 60);
        ("wind-speed", 60); ("wind-density", 120); ("flare-m", 60);
        ("flare-x", 0); ("cme-earth", 0); ("cme-revision", 60);
        ("hss-arrival", 240); ("active-region", 360); ("all-clear", 60);
        ("data-stale", 360) ];
  channels := fun u =>
    match u with
    | critical => ["signal"; "desktop"]
    | high => ["signal"; "desktop"]
    | moderate => ["desktop"]
    | info => ["desktop"]
    end;
  quietHours := {| qh_enabled := true; qh_start := 23; qh_end := 7 |};
  activeRegionAlerts_enabled := true;
  impact_kp :=
    list_to_map
      [ (4, "Elevated geomagnetic activity. Aurora possible at very high latitudes.");
        (5, "G1 minor storm. Aurora visible at high latitudes, weak power grid fluctuations possible.");
        (6, "G2 moderate storm. Aurora visible at mid-high latitudes, HF radio intermittent.");
        (7, "G3 strong storm. Aurora visible at mid-latitudes, power grid irregularities, satellite drag.");
        (8, "G4 severe storm. Aurora widespread, possible power grid damage, satellite charging.");
        (9, "G5 extreme storm. Widespread aurora, power grid blackouts possible, satellite damage risk.") ];
  impact_bz :=
    list_to_map
      [ ("-10", "Moderately geoeffective. Energy transfer into magnetosphere increasing.");
        ("-15", "Strongly geoeffective. Sustained coupling likely to drive geomagnetic storming.");
        ("-20", "Extremely geoeffective. Major storm conditions likely.") ];
  impact_windSpeed :=
    list_to_map
      [ (600, "Elevated solar wind. May indicate coronal hole stream or CME approach.");
        (700, "High-speed solar wind. Likely CME shock front or strong coronal hole stream.") ];
  impact_flare :=
    list_to_map
      [ ("M", "M-class flare. Brief HF radio blackout on sunlit side of Earth.");
        ("X", "X-class flare. Wide-area HF radio blackout, possible navigation errors.") ];
  maxAlertHistory := 100;
  lockTimeout := 10 * 60 * 1000;
|}.

(** [table[k] || ''] and [`${table[k]}`]. *)
Definition orEmpty (o : option string) : string :=
  match o with Some s => if String.eqb s "" then "" else s | None => "" end.

Definition interpolate (o : option string) : string :=
  match o with Some s => s | None => "undefined" end.

End Config.

(* ===================================================================== *)
(** ** The DONKI client: [lib/donki]                                      *)
(* ===================================================================== *)

(** The mapping of the records of the feed to the types of the monitor.
    Each [fetch...] below is the function of that name applied to the
    array that [fetchDONKI] resolved to. *)
Module Donki.
Import Types Js.

(** [x || 0] on a number that may be [null]. *)
Definition orZero (o : option Q) : Q :=
  match o with Some q => if Qeq_bool q 0 then 0%Q else q | None => 0%Q end.

(** [x || null] on a number and on a string that may be [null]. *)
Definition numOrNull (o : option Q) : option Q :=
  if truthyNum o then o else None.

Definition strOrNull (o : option string) : option string :=
  if truthyStr o then o else None.

(** [Math.max(...xs, last)]. *)
Definition Math_max (xs : list Q) (last : Q) : Q :=
  fold_right (fun x m => if ltb m x then x else m) last xs.

(** [s.toLowerCase()] on the ASCII letters, and [s.includes(needle)]. *)
Definition toLowerAscii (c : ascii) : ascii :=
  let n := nat_of_ascii c in
  if (65 <=? n)%nat && (n <=? 90)%nat then ascii_of_nat (n + 32) else c.

Fixpoint toLowerCase (s : string) : string :=
  match s with
  | EmptyString => EmptyString
  | String c s' => String (toLowerAscii c) (toLowerCase s')
  end.

Fixpoint includes (needle s : string) : bool :=
  String.prefix needle s
  || match s with
     | String _ s' => includes needle s'
     | EmptyString => false
     end.

(** *** CMEs *)

Record Enlil : Type := {
  estimatedShockArrivalTime : option string;
  kp_18 : option Q;
  kp_90 : option Q;
  kp_135 : option Q;
  kp_180 : option Q;
  isEarthGB : bool;
}.

Record CMEAnalysis : Type := {
  an_speed : option Q;
  an_halfAngle : option Q;
  isMostAccurate : bool;
  enlilList : option (list Enlil);
}.

Record DONKICMERaw : Type := {
  raw_activityID : string;
  raw_startTime : string;
  raw_sourceLocation : option string;
  raw_activeRegionNum : option Q;
  raw_note : string;
  cmeAnalyses : option (list CMEAnalysis);
}.

(** The analysis [fetchCMEs] reads: the most accurate one, else the
    first. *)
Definition analysisOf (cme : DONKICMERaw) : option CMEAnalysis :=
  match cmeAnalyses cme with
  | None => None
  | Some l =>
      match find isMostAccurate l with
      | Some a => Some a
      | None => head l
      end
  end.

(** The ENLIL run for Earth of that analysis. *)
Definition enlilOf (cme : DONKICMERaw) : option Enlil :=
  match analysisOf cme with
  | None => None
  | Some a =>
      match enlilList a with
      | None => None
      | Some l => find isEarthGB l
      end
  end.

(** The body of the [map] of [fetchCMEs]. *)
Definition cmeOfRaw (cme : DONKICMERaw) : CME :=
  let analysis := analysisOf cme in
  let enlil := enlilOf cme in
  let noteLC := toLowerCase (raw_note cme) in
  let isHalo := includes "halo" noteLC in
  let mentionsEarth :=
    includes "earth" noteLC || includes "geomagnetic" noteLC
    || includes "geoeffective" noteLC in
  let isWide := gtb (orZero (analysis ≫= an_halfAngle)) 60 in
  let hasEnlilEarth :=
    match enlil with Some e => isEarthGB e | None => false end in
  {| cme_id := raw_activityID cme;
     cme_activityID := raw_activityID cme;
     cme_startTime := raw_startTime cme;
     cme_sourceLocation := raw_sourceLocation cme;
     cme_activeRegionNum := raw_activeRegionNum cme;
     cme_speed := numOrNull (analysis ≫= an_speed);
     cme_halfAngle := numOrNull (analysis ≫= an_halfAngle);
     cme_isEarthDirected := hasEnlilEarth || isHalo || mentionsEarth || isWide;
     cme_predictedArrival := strOrNull (enlil ≫= estimatedShockArrivalTime);
     cme_predictedKp :=
       match enlil with
       | Some e =>
           Some (Math_max [orZero (kp_18 e); orZero (kp_90 e); orZero (kp_135 e)]
                          (orZero (kp_180 e)))
       | None => None
       end;
     cme_note := strOrNull (Some (raw_note cme)) |}.

Definition fetchCMEs (raw : list DONKICMERaw) : list CME := cmeOfRaw <$> raw.

(** *** Flares *)

Record DONKIFlareRaw : Type := {
  flrID : string;
  raw_beginTime : string;
  raw_peakTime : option string;
  raw_endTime : option string;
  raw_classType : string;
  raw_flareSourceLocation : option string;
  raw_flareActiveRegionNum : option Q;
}.

Definition fetchFlares (raw : list DONKIFlareRaw) : list SolarFlare :=
  (fun flare =>
     {| flare_id := flrID flare;
        flare_beginTime := raw_beginTime flare;
        flare_peakTime := raw_peakTime flare;
        flare_endTime := raw_endTime flare;
        flare_classType := raw_classType flare;
        flare_sourceLocation := raw_flareSourceLocation flare;
        flare_activeRegionNum := raw_flareActiveRegionNum flare |}) <$> raw.

(** *** Geomagnetic storms *)

Record KpObservation : Type := {
  observedTime : string;
  kpIndex : Q;
  kp_source : string;
}.

Record DONKIGSTRaw : Type := {
  gstID : string;
  raw_stormStartTime : string;
  allKpIndex : list KpObservation;
}.

(** [kpToGScale]. *)
Definition kpToGScale (kp : Q) : string :=
  if geb kp 9 then "G5"
  else if geb kp 8 then "G4"
  else if geb kp 7 then "G3"
  else if geb kp 6 then "G2"
  else if geb kp 5 then "G1"
  else "G0".

Definition fetchGeomagneticStorms (raw : list DONKIGSTRaw) : list GeomagneticStorm :=
  (fun storm =>
     let maxKp := Math_max (kpIndex <$> allKpIndex storm) 0 in
     {| storm_id := gstID storm;
        storm_startTime := raw_stormStartTime storm;
        storm_kpIndex := maxKp;
        storm_gScale := kpToGScale maxKp |}) <$> raw.

(** *** High-speed streams *)

Record DONKIHSSRaw : Type := {
  hssID : string;
  raw_eventTime : string;
}.

Definition fetchHSS (raw : list DONKIHSSRaw) : list HighSpeedStream :=
  (fun hss => {| hss_id := hssID hss; hss_eventTime := raw_eventTime hss |}) <$> raw.

(** *** [fetchAllDONKI]

    The lists that [main] reads of what [fetchAllDONKI] resolves to. *)
Record DonkiData : Type := {
  donki_cmes : list CME;
  donki_earthDirectedCMEs : list CME;
  donki_flares : list SolarFlare;
  donki_storms : list GeomagneticStorm;
  donki_hss : list HighSpeedStream;
}.

Definition fetchAllDONKI (cmes : list DONKICMERaw) (flares : list DONKIFlareRaw)
           (storms : list DONKIGSTRaw) (hss : list DONKIHSSRaw) : DonkiData :=
  let cmes' := fetchCMEs cmes in
  {| donki_cmes := cmes';
     donki_earthDirectedCMEs := List.filter cme_isEarthDirected cmes';
     donki_flares := fetchFlares flares;
     donki_storms := fetchGeomagneticStorms storms;
     donki_hss := fetchHSS hss |}.

End Donki.

(* ===================================================================== *)
(** ** Alert evaluation: [src/scripts/alerts.ts]                          *)
(* ===================================================================== *)

Module Alerts.
Import Types Config Js.

Section Evaluate.
Context `{Host}.
Variable cfg : Config.
Variable nowMs : Z.                      (* the instant of the tick *)
Variable snapshot : SpaceWeatherSnapshot.
Variable activeRegions : list ActiveRegion.
Variable prevState : CheckerState.

(** [formatETA]. *)
Definition formatETA (arrivalTime : string) : string :=
  let diffMs := getTime arrivalTime - nowMs in
  let hours := Math_round (inject_Z diffMs / 3600000)%Q in
  if hours <? 0 then "already past predicted arrival"
  else if hours <? 1 then "imminent"
  else if hours <? 24 then "~" +:+ intToString hours +:+ "h"
  else
    let days := Math_round (inject_Z hours / 24)%Q in
    "~" +:+ intToString days +:+ "d".

Definition kpImpact (kp : Q) : string :=
  orEmpty (impact_kp cfg !! Z.min (Math_floor kp) 9).

(** 1. Earth-directed CMEs: the body of the first loop, for one CME. *)
Definition cmeAlerts (cme : CME) : list SpaceWeatherAlert :=
  let now := toISOString nowMs in
  match find (fun k => String.eqb (known_id k) (cme_id cme)) (knownCMEs prevState) with
  | None =>
      let predictedKp := default 0%Q (cme_predictedKp cme) in
      let urgency := if geb predictedKp 7 then critical else high in
      let speed :=
        if truthyNum (cme_speed cme)
        then " at " +:+ numToString (default 0%Q (cme_speed cme)) +:+ " km/s"
        else "" in
      let eta :=
        if truthyStr (cme_predictedArrival cme)
        then ", ETA " +:+ formatETA (default "" (cme_predictedArrival cme))
        else "" in
      let impact :=
        if geb predictedKp 5 then " " +:+ kpImpact predictedKp else "" in
      [ {| alert_id := "cme-earth-" +:+ cme_id cme;
           alert_type := "cme-earth";
           alert_urgency := urgency;
           alert_title :=
             "Earth-Directed CME" +:+
             (if geb predictedKp 5
              then " (Kp " +:+ numToString predictedKp +:+ " predicted)"
              else "");
           alert_body :=
             "CME erupted " +:+ formatTime (cme_startTime cme) +:+ speed +:+ eta
             +:+ "." +:+ impact;
           alert_timestamp := now;
           alert_sourceEventId := Some (cme_id cme) |} ]
  | Some known =>
      let oldKp := default 0%Q (known_predictedKp known) in
      let newKp := default 0%Q (cme_predictedKp cme) in
      let kpJump := (newKp - oldKp)%Q in
      if geb kpJump (cmeRevision_kpJump cfg) && geb newKp 5 then
        let urgency := if geb newKp 7 then critical else high in
        [ {| alert_id := "cme-revision-" +:+ cme_id cme +:+ "-" +:+ now;
             alert_type := "cme-revision";
             alert_urgency := urgency;
             alert_title :=
               "CME Forecast Upgraded: Kp " +:+ numToString oldKp +:+ " → "
               +:+ numToString newKp;
             alert_body :=
               "Earth-directed CME now predicted to cause Kp " +:+ numToString newKp
               +:+ " (was " +:+ numToString oldKp +:+ "). " +:+ kpImpact newKp;
             alert_timestamp := now;
             alert_sourceEventId := Some (cme_id cme) |} ]
      else []
  end.

(** 2. Solar flares: the body of the second loop, for one flare. *)
Definition flareAlerts (flare : SolarFlare) : list SpaceWeatherAlert :=
  let now := toISOString nowMs in
  if existsb (String.eqb (flare_id flare)) (knownFlareIds prevState) then []
  else
    let cls := flare_classType flare in
    let letter := charAt0 cls in
    let picked : option (AlertUrgency * string) :=
      if String.eqb letter "X" then Some (critical, "flare-x")
      else if String.eqb letter "M" then Some (high, "flare-m")
      else None in
    match picked with
    | None => []                          (* skip C-class and below *)
    | Some (urgency, alertType) =>
        let region :=
          if truthyNum (flare_activeRegionNum flare)
          then " from region " +:+ numToString (default 0%Q (flare_activeRegionNum flare))
          else "" in
        let impact := orEmpty (impact_flare cfg !! letter) in
        [ {| alert_id := "flare-" +:+ flare_id flare;
             alert_type := alertType;
             alert_urgency := urgency;
             alert_title := cls +:+ " Solar Flare";
             alert_body :=
               cls +:+ " flare detected" +:+ region +:+ " at "
               +:+ formatTime (flare_beginTime flare) +:+ ". " +:+ impact;
             alert_timestamp := now;
             alert_sourceEventId := Some (flare_id flare) |} ]
    end.

(** 3. High-speed streams. *)
Definition hssAlerts (hss : HighSpeedStream) : list SpaceWeatherAlert :=
  let now := toISOString nowMs in
  if existsb (String.eqb (hss_id hss)) (knownHSSIds prevState) then []
  else
    [ {| alert_id := "hss-" +:+ hss_id hss;
         alert_type := "hss-arrival";
         alert_urgency := moderate;
         alert_title := "Coronal Hole Stream Arriving";
         alert_body :=
           "High-speed stream detected at " +:+ formatTime (hss_eventTime hss)
           +:+ ". " +:+ interpolate (impact_windSpeed cfg !! 600);
         alert_timestamp := now;
         alert_sourceEventId := Some (hss_id hss) |} ].

(** 4. Kp threshold crossings. *)
Definition kpAlerts : list SpaceWeatherAlert :=
  let now := toISOString nowMs in
  let kp := snap_kp snapshot in
  let prevKp := lastKp prevState in
  if geb kp 7 && ltb prevKp 7 then
    let kpInt := Z.min (Math_floor kp) 9 in
    [ {| alert_id := "kp-cross-7-" +:+ now;
         alert_type := "kp-threshold";
         alert_urgency := critical;
         alert_title :=
           "Kp " +:+ numToString kp +:+ " — G" +:+ intToString (Z.min (kpInt - 4) 5)
           +:+ " Storm";
         alert_body :=
           "Kp index jumped to " +:+ numToString kp +:+ " (was " +:+ numToString prevKp
           +:+ "). " +:+ orEmpty (impact_kp cfg !! kpInt);
         alert_timestamp := now;
         alert_sourceEventId := None |} ]
  else if geb kp 5 && ltb prevKp 5 then
    [ {| alert_id := "kp-cross-5-" +:+ now;
         alert_type := "kp-threshold";
         alert_urgency := high;
         alert_title := "Kp " +:+ numToString kp +:+ " — G1 Storm Threshold";
         alert_body :=
           "Kp index rose to " +:+ numToString kp +:+ " (was " +:+ numToString prevKp
           +:+ "). " +:+ interpolate (impact_kp cfg !! 5);
         alert_timestamp := now;
         alert_sourceEventId := None |} ]
  else if geb kp 4 && ltb prevKp 4 then
    [ {| alert_id := "kp-cross-4-" +:+ now;
         alert_type := "kp-elevated";
         alert_urgency := info;
         alert_title := "Kp Elevated to " +:+ numToString kp;
         alert_body := interpolate (impact_kp cfg !! 4);
         alert_timestamp := now;
         alert_sourceEventId := None |} ]
  else [].

Definition currentBz : Q :=
  match snap_magneticField snapshot with Some m => mf_bz m | None => 0%Q end.

Definition currentWindSpeed : Q :=
  match snap_solarWind snapshot with Some w => sw_speed w | None => 0%Q end.

Definition currentDensity : Q :=
  match snap_solarWind snapshot with Some w => sw_density w | None => 0%Q end.

(** 5. Bz threshold crossings (southward). *)
Definition bzAlerts : list SpaceWeatherAlert :=
  let now := toISOString nowMs in
  let bz := currentBz in
  let prevBz := lastBz prevState in
  if leb bz (-15) && gtb prevBz (-15) then
    [ {| alert_id := "bz-cross-15-" +:+ now;
         alert_type := "bz-threshold";
         alert_urgency := high;
         alert_title := "Strong Southward Bz: " +:+ toFixed1 bz +:+ " nT";
         alert_body :=
           "Magnetic field Bz dropped to " +:+ toFixed1 bz +:+ " nT. "
           +:+ interpolate (impact_bz cfg !! "-15");
         alert_timestamp := now;
         alert_sourceEventId := None |} ]
  else if leb bz (-10) && gtb prevBz (-10) then
    [ {| alert_id := "bz-cross-10-" +:+ now;
         alert_type := "bz-threshold";
         alert_urgency := moderate;
         alert_title := "Southward Bz: " +:+ toFixed1 bz +:+ " nT";
         alert_body :=
           "Magnetic field Bz dropped to " +:+ toFixed1 bz +:+ " nT. "
           +:+ interpolate (impact_bz cfg !! "-10");
         alert_timestamp := now;
         alert_sourceEventId := None |} ]
  else [].

(** 6. Solar wind speed crossings. *)
Definition windSpeedAlerts : list SpaceWeatherAlert :=
  let now := toISOString nowMs in
  let windSpeed := currentWindSpeed in
  let prevSpeed := lastWindSpeed prevState in
  if geb windSpeed 700 && ltb prevSpeed 700 then
    [ {| alert_id := "wind-speed-700-" +:+ now;
         alert_type := "wind-speed";
         alert_urgency := high;
         alert_title := "Solar Wind " +:+ intToString (Math_round windSpeed) +:+ " km/s";
         alert_body :=
           "Solar wind speed surged to " +:+ intToString (Math_round windSpeed)
           +:+ " km/s (was " +:+ intToString (Math_round prevSpeed) +:+ "). "
           +:+ interpolate (impact_windSpeed cfg !! 700);
         alert_timestamp := now;
         alert_sourceEventId := None |} ]
  else if geb windSpeed 600 && ltb prevSpeed 600 then
    [ {| alert_id := "wind-speed-600-" +:+ now;
         alert_type := "wind-speed";
         alert_urgency := moderate;
         alert_title :=
           "Solar Wind Elevated: " +:+ intToString (Math_round windSpeed) +:+ " km/s";
         alert_body :=
           "Solar wind speed rose to " +:+ intToString (Math_round windSpeed)
           +:+ " km/s. " +:+ interpolate (impact_windSpeed cfg !! 600);
         alert_timestamp := now;
         alert_sourceEventId := None |} ]
  else [].

(** 7. Solar wind density spike. *)
Definition densityAlerts : list SpaceWeatherAlert :=
  let now := toISOString nowMs in
  let density := currentDensity in
  let prevDensity := lastWindDensity prevState in
  if geb density 20 && ltb prevDensity 20 then
    [ {| alert_id := "wind-density-20-" +:+ now;
         alert_type := "wind-density";
         alert_urgency := moderate;
         alert_title := "Density Spike: " +:+ toFixed1 density +:+ " p/cm³";
         alert_body :=
           "Solar wind density jumped to " +:+ toFixed1 density +:+ " p/cm³ (was "
           +:+ toFixed1 prevDensity
           +:+ "). May indicate incoming CME or shock front.";
         alert_timestamp := now;
         alert_sourceEventId := None |} ]
  else [].

(** 8. New active regions with a high flare probability. *)
Definition regionAlerts (region : ActiveRegion) : list SpaceWeatherAlert :=
  let now := toISOString nowMs in
  if existsb (Qeq_bool (region_regionNumber region)) (knownRegionNumbers prevState)
  then []
  else if ltb (region_flareProb_M region) (activeRegion_mFlareProb cfg)
          && ltb (region_flareProb_X region) (activeRegion_xFlareProb cfg)
  then []
  else
    let magClass :=
      if truthyStr (region_magneticClass region)
      then default "" (region_magneticClass region) else "unknown" in
    [ {| alert_id := "region-new-" +:+ numToString (region_regionNumber region);
         alert_type := "active-region";
         alert_urgency := info;
         alert_title := "New Active Region " +:+ numToString (region_regionNumber region);
         alert_body :=
           magClass +:+ " class at " +:+ region_location region +:+ ". M-flare: "
           +:+ numToString (region_flareProb_M region) +:+ "%, X-flare: "
           +:+ numToString (region_flareProb_X region) +:+ "%.";
         alert_timestamp := now;
         alert_sourceEventId := None |} ].

(** 9. All-clear notifications.  The branch for a drop from Kp 7+ to
    below 5 has an empty body in the source and adds nothing. *)
Definition allClearAlerts : list SpaceWeatherAlert :=
  let now := toISOString nowMs in
  let kp := snap_kp snapshot in
  let bz := currentBz in
  let windSpeed := currentWindSpeed in
  (if kpWasAbove5 prevState && ltb kp 5 then
     [ {| alert_id := "all-clear-kp5-" +:+ now;
          alert_type := "all-clear";
          alert_urgency := moderate;
          alert_title := "Kp Returning to Normal: " +:+ numToString kp;
          alert_body :=
            "Geomagnetic storm conditions subsiding. Kp dropped back to "
            +:+ numToString kp +:+ ".";
          alert_timestamp := now;
          alert_sourceEventId := None |} ]
   else [])
  ++
  (if bzWasBelow15 prevState && gtb bz (-10) then
     [ {| alert_id := "all-clear-bz15-" +:+ now;
          alert_type := "all-clear";
          alert_urgency := moderate;
          alert_title := "Bz Recovering: " +:+ toFixed1 bz +:+ " nT";
          alert_body :=
            "Magnetic field returning northward. Strong geoeffective conditions easing.";
          alert_timestamp := now;
          alert_sourceEventId := None |} ]
   else [])
  ++
  (if windWasAbove700 prevState && ltb windSpeed 600 then
     [ {| alert_id := "all-clear-wind700-" +:+ now;
          alert_type := "all-clear";
          alert_urgency := moderate;
          alert_title :=
            "Solar Wind Easing: " +:+ intToString (Math_round windSpeed) +:+ " km/s";
          alert_body := "High-speed solar wind conditions subsiding.";
          alert_timestamp := now;
          alert_sourceEventId := None |} ]
   else []).

(** [evaluateAlerts]: the nine rules push onto one array, in this order. *)
Definition evaluateAlerts : list SpaceWeatherAlert :=
  flat_map cmeAlerts (snap_earthDirectedCMEs snapshot)
  ++ flat_map flareAlerts (snap_recentFlares snapshot)
  ++ flat_map hssAlerts (snap_recentHSS snapshot)
  ++ kpAlerts
  ++ bzAlerts
  ++ windSpeedAlerts
  ++ densityAlerts
  ++ (if activeRegionAlerts_enabled cfg
      then flat_map regionAlerts activeRegions else [])
  ++ allClearAlerts.

End Evaluate.

End Alerts.

(* ===================================================================== *)
(** ** State persistence and the lockfile: [src/scripts/state.ts]         *)
(* ===================================================================== *)

Module State.
Import Types Config Js.

(** The files the checker touches, by path relative to the project root.
    Writes, renames and unlinks succeed. *)
Definition STATE_PATH : string := "scripts/state/checker-state.json".
Definition LOCK_PATH : string := "scripts/state/checker.lock".
Definition tmpPath (pid : Z) : string :=
  "scripts/state/.checker-state-" +:+ intToString pid +:+ ".tmp".

Definition renameSync (src dst : string) (fs : gmap string text) : gmap string text :=
  match fs !! src with
  | Some t => <[dst := t]> (delete src fs)
  | None => fs
  end.

(** *** The state object in memory

    [toJS] is the object that [main] holds: the layout of each record is
    the one of the object literal that builds it in the source
    ([updateHealth] always sets [lastError], to [undefined] on success).
    [stateObject] leaves the layout of a health entry open, since a
    serialized entry has another one. *)
Definition nullable {A} (f : A -> val) (o : option A) : val :=
  match o with Some x => f x | None => VNull end.

Definition alertToJS (a : SpaceWeatherAlert) : val :=
  VObj ([ ("id", VStr (alert_id a));
          ("type", VStr (alert_type a));
          ("urgency", VStr (urgencyName (alert_urgency a)));
          ("title", VStr (alert_title a));
          ("body", VStr (alert_body a));
          ("timestamp", VStr (alert_timestamp a)) ]
        ++ match alert_sourceEventId a with
           | Some e => [ ("sourceEventId", VStr e) ]
           | None => []
           end).

Definition healthToJS (d : DataHealthEntry) : val :=
  VObj [ ("source", VStr (dh_source d));
         ("ok", VBool (dh_ok d));
         ("lastSuccess", VStr (dh_lastSuccess d));
         ("lastError", match dh_lastError d with
                       | Some e => VStr e
                       | None => VUndefined
                       end) ].

Definition knownCMEToJS (k : KnownCME) : val :=
  VObj [ ("id", VStr (known_id k));
         ("predictedKp", nullable VNum (known_predictedKp k));
         ("predictedArrival", nullable VStr (known_predictedArrival k)) ].

Definition recordToJS (m : gmap string string) : val :=
  VObj ((fun kv => (fst kv, VStr (snd kv))) <$> map_to_list m).

Definition stateObject (health : DataHealthEntry -> val) (s : CheckerState) : val :=
  VObj [ ("schemaVersion", VNum (schemaVersion s));
         ("lastRunAt", VStr (lastRunAt s));
         ("lastKp", VNum (lastKp s));
         ("lastBz", VNum (lastBz s));
         ("lastWindSpeed", VNum (lastWindSpeed s));
         ("lastWindDensity", VNum (lastWindDensity s));
         ("kpWasAbove5", VBool (kpWasAbove5 s));
         ("kpWasAbove7", VBool (kpWasAbove7 s));
         ("bzWasBelow10", VBool (bzWasBelow10 s));
         ("bzWasBelow15", VBool (bzWasBelow15 s));
         ("windWasAbove600", VBool (windWasAbove600 s));
         ("windWasAbove700", VBool (windWasAbove700 s));
         ("densityWasAbove20", VBool (densityWasAbove20 s));
         ("knownCMEs", VArr (knownCMEToJS <$> knownCMEs s));
         ("knownFlareIds", VArr (VStr <$> knownFlareIds s));
         ("knownHSSIds", VArr (VStr <$> knownHSSIds s));
         ("knownRegionNumbers", VArr (VNum <$> knownRegionNumbers s));
         ("knownAlertProductIds", VArr (VStr <$> knownAlertProductIds s));
         ("lastCooldowns", recordToJS (lastCooldowns s));
         ("dataHealth", VArr (health <$> dataHealth s));
         ("alertsSent", VArr (alertToJS <$> alertsSent s)) ].

Definition toJS (s : CheckerState) : val := stateObject healthToJS s.

(** *** Reading an object at its declared type

    TypeScript trusts the shape of what [loadState] returns; [fromJS]
    reads each field through [getProp] at the type [CheckerState]
    declares, and is [None] on an object of another shape.  An optional
    field is absent when the property is missing or [undefined]. *)
Definition asStr (v : val) : option string :=
  match v with VStr s => Some s | _ => None end.
Definition asNum (v : val) : option Q :=
  match v with VNum q => Some q | _ => None end.
Definition asBool (v : val) : option bool :=
  match v with VBool b => Some b | _ => None end.
Definition asNullable {A} (f : val -> option A) (v : val) : option (option A) :=
  match v with VNull => Some None | _ => Some <$> f v end.
Definition asOptional {A} (f : val -> option A) (v : val) : option (option A) :=
  match v with VUndefined => Some None | _ => Some <$> f v end.
Definition asArray {A} (f : val -> option A) (v : val) : option (list A) :=
  match v with VArr xs => mapM f xs | _ => None end.
Definition asRecord (v : val) : option (gmap string string) :=
  match v with
  | VObj ps =>
      list_to_map <$> mapM (fun kv => pair (fst kv) <$> asStr (snd kv)) ps
  | _ => None
  end.

Definition asUrgency (v : val) : option AlertUrgency :=
  match v with
  | VStr s =>
      if String.eqb s "critical" then Some critical
      else if String.eqb s "high" then Some high
      else if String.eqb s "moderate" then Some moderate
      else if String.eqb s "info" then Some info
      else None
  | _ => None
  end.

Definition alertFromJS (v : val) : option SpaceWeatherAlert :=
  match v with
  | VObj _ =>
      i ← asStr (getProp v "id");
      ty ← asStr (getProp v "type");
      u ← asUrgency (getProp v "urgency");
      t ← asStr (getProp v "title");
      b ← asStr (getProp v "body");
      ts ← asStr (getProp v "timestamp");
      e ← asOptional asStr (getProp v "sourceEventId");
      Some {| alert_id := i; alert_type := ty; alert_urgency := u;
              alert_title := t; alert_body := b; alert_timestamp := ts;
              alert_sourceEventId := e |}
  | _ => None
  end.

Definition healthFromJS (v : val) : option DataHealthEntry :=
  match v with
  | VObj _ =>
      src ← asStr (getProp v "source");
      ok ← asBool (getProp v "ok");
      ls ← asStr (getProp v "lastSuccess");
      le ← asOptional asStr (getProp v "lastError");
      Some {| dh_source := src; dh_ok := ok; dh_lastSuccess := ls;
              dh_lastError := le |}
  | _ => None
  end.

Definition knownCMEFromJS (v : val) : option KnownCME :=
  match v with
  | VObj _ =>
      i ← asStr (getProp v "id");
      kp ← asNullable asNum (getProp v "predictedKp");
      arr ← asNullable asStr (getProp v "predictedArrival");
      Some {| known_id := i; known_predictedKp := kp;
              known_predictedArrival := arr |}
  | _ => None
  end.

Definition fromJS (v : val) : option CheckerState :=
  match v with
  | VObj _ =>
      f1 ← asNum (getProp v "schemaVersion");
      f2 ← asStr (getProp v "lastRunAt");
      f3 ← asNum (getProp v "lastKp");
      f4 ← asNum (getProp v "lastBz");
      f5 ← asNum (getProp v "lastWindSpeed");
      f6 ← asNum (getProp v "lastWindDensity");
      f7 ← asBool (getProp v "kpWasAbove5");
      f8 ← asBool (getProp v "kpWasAbove7");
      f9 ← asBool (getProp v "bzWasBelow10");
      f10 ← asBool (getProp v "bzWasBelow15");
      f11 ← asBool (getProp v "windWasAbove600");
      f12 ← asBool (getProp v "windWasAbove700");
      f13 ← asBool (getProp v "densityWasAbove20");
      f14 ← asArray knownCMEFromJS (getProp v "knownCMEs");
      f15 ← asArray asStr (getProp v "knownFlareIds");
      f16 ← asArray asStr (getProp v "knownHSSIds");
      f17 ← asArray asNum (getProp v "knownRegionNumbers");
      f18 ← asArray asStr (getProp v "knownAlertProductIds");
      f19 ← asRecord (getProp v "lastCooldowns");
      f20 ← asArray healthFromJS (getProp v "dataHealth");
      f21 ← asArray alertFromJS (getProp v "alertsSent");
      Some {| schemaVersion := f1; lastRunAt := f2; lastKp := f3; lastBz := f4;
              lastWindSpeed := f5; lastWindDensity := f6; kpWasAbove5 := f7;
              kpWasAbove7 := f8; bzWasBelow10 := f9; bzWasBelow15 := f10;
              windWasAbove600 := f11; windWasAbove700 := f12;
              densityWasAbove20 := f13; knownCMEs := f14; knownFlareIds := f15;
              knownHSSIds := f16; knownRegionNumbers := f17;
              knownAlertProductIds := f18; lastCooldowns := f19;
              dataHealth := f20; alertsSent := f21 |}
  | _ => None
  end.

(** Field updates of the state record. *)
Definition with_alertsSent (xs : list SpaceWeatherAlert) (s : CheckerState)
  : CheckerState :=
  {| schemaVersion := schemaVersion s; lastRunAt := lastRunAt s;
     lastKp := lastKp s; lastBz := lastBz s;
     lastWindSpeed := lastWindSpeed s; lastWindDensity := lastWindDensity s;
     kpWasAbove5 := kpWasAbove5 s; kpWasAbove7 := kpWasAbove7 s;
     bzWasBelow10 := bzWasBelow10 s; bzWasBelow15 := bzWasBelow15 s;
     windWasAbove600 := windWasAbove600 s; windWasAbove700 := windWasAbove700 s;
     densityWasAbove20 := densityWasAbove20 s; knownCMEs := knownCMEs s;
     knownFlareIds := knownFlareIds s; knownHSSIds := knownHSSIds s;
     knownRegionNumbers := knownRegionNumbers s;
     knownAlertProductIds := knownAlertProductIds s;
     lastCooldowns := lastCooldowns s; dataHealth := dataHealth s;
     alertsSent := xs |}.

Definition with_lastCooldowns (m : gmap string string) (s : CheckerState)
  : CheckerState :=
  {| schemaVersion := schemaVersion s; lastRunAt := lastRunAt s;
     lastKp := lastKp s; lastBz := lastBz s;
     lastWindSpeed := lastWindSpeed s; lastWindDensity := lastWindDensity s;
     kpWasAbove5 := kpWasAbove5 s; kpWasAbove7 := kpWasAbove7 s;
     bzWasBelow10 := bzWasBelow10 s; bzWasBelow15 := bzWasBelow15 s;
     windWasAbove600 := windWasAbove600 s; windWasAbove700 := windWasAbove700 s;
     densityWasAbove20 := densityWasAbove20 s; knownCMEs := knownCMEs s;
     knownFlareIds := knownFlareIds s; knownHSSIds := knownHSSIds s;
     knownRegionNumbers := knownRegionNumbers s;
     knownAlertProductIds := knownAlertProductIds s;
     lastCooldowns := m; dataHealth := dataHealth s;
     alertsSent := alertsSent s |}.

Section WithHost.
Context `{Host}.

(** [DEFAULT_STATE], by its properties. *)
Definition DEFAULT_STATE : list (string * val) :=
  [ ("schemaVersion", VNum 1);
    ("lastRunAt", VStr (toISOString 0));
    ("lastKp", VNum 0);
    ("lastBz", VNum 0);
    ("lastWindSpeed", VNum 0);
    ("lastWindDensity", VNum 0);
    ("kpWasAbove5", VBool false);
    ("kpWasAbove7", VBool false);
    ("bzWasBelow10", VBool false);
    ("bzWasBelow15", VBool false);
    ("windWasAbove600", VBool false);
    ("windWasAbove700", VBool false);
    ("densityWasAbove20", VBool false);
    ("knownCMEs", VArr []);
    ("knownFlareIds", VArr []);
    ("knownHSSIds", VArr []);
    ("knownRegionNumbers", VArr []);
    ("knownAlertProductIds", VArr []);
    ("lastCooldowns", VObj []);
    ("dataHealth", VArr []);
    ("alertsSent", VArr []) ].

(** [loadState]: defaults when the file is missing or does not parse,
    else the parsed document spread over the defaults. *)
Definition loadState (fs : gmap string text) : val :=
  match fs !! STATE_PATH with
  | None => VObj DEFAULT_STATE
  | Some raw =>
      match JSON_parse raw with
      | Some parsed => VObj (spread DEFAULT_STATE parsed)
      | None => VObj DEFAULT_STATE
      end
  end.

(** [saveState]: cap the history (the assignment is visible to the
    caller, so the capped state is returned), serialize, check that the
    text parses, write the temporary file and rename it over the
    target. *)
Definition saveState (cfg : Config) (pid : Z) (state : CheckerState)
           (fs : gmap string text) : CheckerState * gmap string text :=
  let state' :=
    with_alertsSent (slice_from (- maxAlertHistory cfg) (alertsSent state)) state in
  match JSON_stringify (toJS state') with
  | None => (state', fs)
  | Some json =>
      match JSON_parse json with
      | None => (state', fs)
      | Some _ =>
          (state', renameSync (tmpPath pid) STATE_PATH (<[tmpPath pid := json]> fs))
      end
  end.

(** *** Lockfile *)

(** [acquireLock]; [isProcessAlive] is the answer of the operating
    system to signal 0.  A lock whose [pid] is not a number makes
    [process.kill] throw, which reads as a dead holder; a timestamp
    that is not a string gives an age that is not below the timeout. *)
Definition lockIsLive (cfg : Config) (isProcessAlive : Z -> bool) (nowMs : Z)
           (lock : val) : bool :=
  match lock with
  | VObj _ =>
      match getProp lock "pid" with
      | VNum q =>
          if Qeq_bool q (inject_Z (Qfloor q)) && isProcessAlive (Qfloor q) then
            match getProp lock "timestamp" with
            | VStr ts => nowMs - getTime ts <? lockTimeout cfg
            | _ => false
            end
          else false
      | _ => false
      end
  | _ => false
  end.

Definition acquireLock (cfg : Config) (isProcessAlive : Z -> bool)
           (pid : Z) (hostname : string) (nowMs : Z) (fs : gmap string text)
  : bool * gmap string text :=
  let lockInfo :=
    VObj [ ("pid", VNum (inject_Z pid));
           ("timestamp", VStr (toISOString nowMs));
           ("hostname", VStr hostname) ] in
  let held :=
    match fs !! LOCK_PATH with
    | None => false
    | Some raw =>
        match JSON_parse raw with
        | Some lock => lockIsLive cfg isProcessAlive nowMs lock
        | None => false
        end
    end in
  if held then (false, fs)
  else
    match JSON_stringify lockInfo with
    | Some t => (true, <[LOCK_PATH := t]> fs)
    | None => (true, fs)
    end.

(** *** Cooldowns *)

(** [isCoolingDown]. *)
Definition isCoolingDown (cfg : Config) (nowMs : Z) (alertType : string)
           (state : CheckerState) : bool :=
  match cooldowns cfg !! alertType with
  | None => false
  | Some cooldownMinutes =>
      if cooldownMinutes =? 0 then false
      else
        match lastCooldowns state !! alertType with
        | None => false
        | Some lastSent =>
            if String.eqb lastSent "" then false
            else
              let elapsed := nowMs - getTime lastSent in
              elapsed <? cooldownMinutes * 60 * 1000
        end
  end.

(** [recordCooldown]. *)
Definition recordCooldown (nowMs : Z) (alertType : string) (state : CheckerState)
  : CheckerState :=
  with_lastCooldowns (<[alertType := toISOString nowMs]> (lastCooldowns state)) state.

End WithHost.

(** [releaseLock]: unlink only a lockfile that parses and names our pid.
    Reading [pid] off [null] throws, and the exception is swallowed. *)
Definition releaseLock (pid : Z) (fs : gmap string text) : gmap string text :=
  match fs !! LOCK_PATH with
  | None => fs
  | Some raw =>
      match JSON_parse raw with
      | None => fs
      | Some VNull => fs
      | Some lock =>
          match getProp lock "pid" with
          | VNum q => if Qeq_bool q (inject_Z pid) then delete LOCK_PATH fs else fs
          | _ => fs
          end
      end
  end.

End State.

(* ===================================================================== *)
(** ** The alerts endpoint: [src/app/api/alerts/route.ts]                 *)
(* ===================================================================== *)

(** The dashboard reads the state file of the checker as it is, without
    the defaults. *)
Module AlertsRoute.
Import Js.

(** [NextResponse.json(body, { status })]: the status and the document
    the client parses. *)
Definition NextResponse_json (body : val) (status : Z) : Z * option val :=
  (status, serialize body).

(** [GET].  Reading [alertsSent] off [null], or calling [slice] and
    [reverse] on a value that is not an array, throws; the [catch]
    answers 500. *)
Definition GET (fs : gmap string text) : Z * option val :=
  let failed :=
    NextResponse_json (VObj [ ("error", VStr "Failed to read checker state") ]) 500 in
  match fs !! State.STATE_PATH with
  | None =>
      NextResponse_json
        (VObj [ ("alerts", VArr []); ("health", VNull); ("lastRun", VNull);
                ("checkerActive", VBool false) ]) 200
  | Some raw =>
      match JSON_parse raw with
      | None => failed
      | Some VNull => failed
      | Some state =>
          match getProp state "alertsSent" with
          | VArr xs =>
              NextResponse_json
                (VObj [ ("alerts", VArr (rev (slice_from (-50) xs)));
                        ("health", getProp state "dataHealth");
                        ("lastRun", getProp state "lastRunAt");
                        ("checkerActive", VBool true);
                        ("currentValues",
                         VObj [ ("kp", getProp state "lastKp");
                                ("bz", getProp state "lastBz");
                                ("windSpeed", getProp state "lastWindSpeed");
                                ("windDensity", getProp state "lastWindDensity") ]) ])
                200
          | _ => failed
          end
      end
  end.

End AlertsRoute.

(* ===================================================================== *)
(** ** The health display: [CheckerHealth]                                *)
(* ===================================================================== *)

(** What the component computes of the answer of the alerts endpoint: the
    age of the last run and its label. *)
Module CheckerHealth.
Import Js.

Section WithHost.
Context `{Host}.
Variable nowMs : Z.                      (* [Date.now()] *)

(** [getAgeMinutes]. *)
Definition getAgeMinutes (iso : string) : Q :=
  (inject_Z (nowMs - getTime iso) / (1000 * 60))%Q.

(** [formatAge]. *)
Definition formatAge (iso : string) : string :=
  let mins := Math_floor (getAgeMinutes iso) in
  if mins <? 1 then "just now"
  else if mins <? 60 then intToString mins +:+ "m ago"
  else
    let hours := Math_floor (inject_Z mins / 60)%Q in
    if hours <? 24 then intToString hours +:+ "h ago"
    else intToString (Math_floor (inject_Z hours / 24)%Q) +:+ "d ago".

(** [isStale], of the [lastRun] of the answer; [json.lastRun || null]
    makes an empty one [null]. *)
Definition isStale (lastRun : option string) : bool :=
  match (if truthyStr lastRun then lastRun else None) with
  | Some iso => gtb (getAgeMinutes iso) 20
  | None => false
  end.

(** The label after "Last check:". *)
Definition lastCheck (lastRun : option string) : string :=
  match (if truthyStr lastRun then lastRun else None) with
  | Some iso => formatAge iso
  | None => "never"
  end.

End WithHost.

End CheckerHealth.

(* ===================================================================== *)
(** ** Dispatch: [src/scripts/notify.ts]                                  *)
(* ===================================================================== *)

Module Notify.
Import Types Config Js.

(** A call of one of the two transports.  Whether the transport then
    succeeds is not visible to the caller: both swallow their failures. *)
Inductive Send : Type :=
| sendSignalMessage (alert : SpaceWeatherAlert)
| sendDesktopNotification (alert : SpaceWeatherAlert).

(** [isQuietHours], at local hour [hour]. *)
Definition isQuietHours (cfg : Config) (hour : Z) : bool :=
  if negb (qh_enabled (quietHours cfg)) then false
  else
    let start := qh_start (quietHours cfg) in
    let end_ := qh_end (quietHours cfg) in
    if start >? end_ then (hour >=? start) || (hour <? end_)
    else (hour >=? start) && (hour <? end_).

(** The [switch] over a channel id. *)
Definition sendVia (alert : SpaceWeatherAlert) (channel : string) : list Send :=
  if String.eqb channel "signal" then [sendSignalMessage alert]
  else if String.eqb channel "desktop" then [sendDesktopNotification alert]
  else [].

(** [dispatchAlert]: [None] is the early return of a suppressed alert,
    [Some sends] the transport calls made for a routed one. *)
Definition dispatchAlert (cfg : Config) (hour : Z) (alert : SpaceWeatherAlert)
  : option (list Send) :=
  if negb (urgency_eqb (alert_urgency alert) critical) && isQuietHours cfg hour
  then None
  else Some (flat_map (sendVia alert) (channels cfg (alert_urgency alert))).

Fixpoint join (sep : string) (xs : list string) : string :=
  match xs with
  | [] => ""
  | [x] => x
  | x :: xs' => x +:+ sep +:+ join sep xs'
  end.

(** [dispatchAlerts]: what was passed to [dispatchAlert], with its
    outcome, in call order. *)
Definition dispatchAlerts `{Host} (cfg : Config) (hour nowMs : Z)
           (alerts : list SpaceWeatherAlert)
  : list (SpaceWeatherAlert * option (list Send)) :=
  let infoAlerts := List.filter (fun a => urgency_eqb (alert_urgency a) info) alerts in
  let otherAlerts :=
    List.filter (fun a => negb (urgency_eqb (alert_urgency a) info)) alerts in
  ((fun a => (a, dispatchAlert cfg hour a)) <$> otherAlerts)
  ++ match infoAlerts with
     | [] => []
     | [a] => [(a, dispatchAlert cfg hour a)]
     | _ =>
         let batch :=
           {| alert_id := "info-batch-" +:+ intToString nowMs;
              alert_type := "info-batch";
              alert_urgency := info;
              alert_title :=
                intToString (Z.of_nat (length infoAlerts)) +:+ " Space Weather Updates";
              alert_body := join " · " (alert_title <$> infoAlerts);
              alert_timestamp := toISOString nowMs;
              alert_sourceEventId := None |} in
         [(batch, dispatchAlert cfg hour batch)]
     end.

(** *** The command lines of the two transports

    What [sendDesktopNotification] and [sendSignalMessage] hand to
    [execSync].  Strings are sequences of UTF-8 bytes; the characters the
    escaping looks for are ASCII. *)

Definition backslash : ascii := "092"%char.
Definition dquote : ascii := "034"%char.
Definition squote : ascii := "039"%char.
Definition newline : ascii := "010"%char.

(** [s.replace(/c/g, by)] for a pattern of one character [c]. *)
Fixpoint replaceAll (c : ascii) (by_ : string) (s : string) : string :=
  match s with
  | EmptyString => EmptyString
  | String x s' =>
      if Ascii.eqb x c then by_ +:+ replaceAll c by_ s'
      else String x (replaceAll c by_ s')
  end.

(** [escapeOsa]: every backslash doubled, then a backslash put before
    every double quote. *)
Definition escapeOsa (s : string) : string :=
  replaceAll dquote (String backslash (String dquote EmptyString))
    (replaceAll backslash (String backslash (String backslash EmptyString)) s).

(** [escapeShellArg]: the argument in single quotes, each single quote of
    its own written as quote, backslash, quote, quote. *)
Definition escapeShellArg (s : string) : string :=
  String squote
    (replaceAll squote
       (String squote (String backslash (String squote (String squote EmptyString))))
       s
     +:+ String squote EmptyString).

(** The title of the desktop notification: the prefix of the urgency is
    put before the title of the alert as it is. *)
Definition desktopTitle (alert : SpaceWeatherAlert) : string :=
  let prefix :=
    match alert_urgency alert with
    | critical => "🔴 CRITICAL"
    | high => "🟠 "
    | moderate => ""
    | info => ""
    end in
  if negb (String.eqb prefix "") then prefix +:+ alert_title alert
  else alert_title alert.

Definition sound (u : AlertUrgency) : string :=
  match u with
  | critical => "Sosumi"
  | high => "Submarine"
  | moderate => "Pop"
  | info => "Tink"
  end.

(** The AppleScript of [sendDesktopNotification] and the command that
    runs it. *)
Definition desktopScript (alert : SpaceWeatherAlert) : string :=
  "display notification " +:+ String dquote (escapeOsa (alert_body alert))
  +:+ String dquote " with title " +:+ String dquote (escapeOsa (desktopTitle alert))
  +:+ String dquote " subtitle " +:+ String dquote "Space Weather"
  +:+ String dquote " sound name " +:+ String dquote (sound (alert_urgency alert))
  +:+ String dquote EmptyString.

Definition desktopCommand (alert : SpaceWeatherAlert) : string :=
  "osascript -e " +:+ String squote (desktopScript alert) +:+ String squote EmptyString.

(** [CONFIG.signalCli]. *)
Definition signalCli : string := "/opt/homebrew/bin/signal-cli".

Definition signalMessage (alert : SpaceWeatherAlert) : string :=
  let emoji :=
    match alert_urgency alert with
    | critical => "🔴"
    | high => "🟠"
    | moderate => "🟡"
    | info => "🔵"
    end in
  emoji +:+ " " +:+ alert_title alert +:+ String newline (alert_body alert).

(** The command of [sendSignalMessage]; [None] when [SIGNAL_ACCOUNT] or
    [SIGNAL_RECIPIENT] is not set (or empty), where nothing is run. *)
Definition signalCommand (account recipient : option string)
           (alert : SpaceWeatherAlert) : option string :=
  if negb (truthyStr account) || negb (truthyStr recipient) then None
  else
    Some (signalCli +:+ " -a " +:+ default "" account +:+ " send -m "
          +:+ escapeShellArg (signalMessage alert) +:+ " "
          +:+ default "" recipient).

End Notify.

(* ===================================================================== *)
(** ** One run of the checker: [main] in [src/scripts/checker.ts]         *)
(* ===================================================================== *)

(** The part of [main] between the assembly of the snapshot and the call
    of [saveState]: evaluation, cooldown filter, dispatch, state update,
    save.  The snapshot, the region list and the health entries of the run
    are inputs. *)
Module Checker.
Import Types Config Js State Notify.

Record TickInput : Type := {
  in_now : Z;                                   (* the instant of the run *)
  in_hour : Z;                                  (* its local hour *)
  in_snapshot : SpaceWeatherSnapshot;
  in_activeRegions : list ActiveRegion;
  in_dataHealth : list DataHealthEntry;
}.

Record TickOutput : Type := {
  out_sent : list SpaceWeatherAlert;            (* [alertsToSend] *)
  out_dispatch : list (SpaceWeatherAlert * option (list Send));
  out_state : CheckerState;                     (* the state after [saveState] *)
  out_fs : gmap string text;
}.

Section WithHost.
Context `{Host}.
Variable cfg : Config.

(** The cooldown filter over the evaluator's candidates. *)
Definition alertsToSend (i : TickInput) (state : CheckerState)
  : list SpaceWeatherAlert :=
  List.filter
    (fun alert => negb (isCoolingDown cfg (in_now i) (alert_type alert) state))
    (Alerts.evaluateAlerts cfg (in_now i) (in_snapshot i) (in_activeRegions i) state).

(** The state as [main] leaves it just before [saveState]. *)
Definition updateState (i : TickInput) (state : CheckerState) : CheckerState :=
  let snapshot := in_snapshot i in
  let toSend := alertsToSend i state in
  let state1 :=
    fold_left (fun st alert => recordCooldown (in_now i) (alert_type alert) st)
              toSend state in
  let bz0 := Alerts.currentBz snapshot in
  let speed0 := Alerts.currentWindSpeed snapshot in
  let density0 := Alerts.currentDensity snapshot in
  {| schemaVersion := schemaVersion state1;
     lastRunAt := toISOString (in_now i);
     lastKp := snap_kp snapshot;
     lastBz := match snap_magneticField snapshot with
               | Some m => mf_bz m | None => lastBz state1 end;
     lastWindSpeed := match snap_solarWind snapshot with
                      | Some w => sw_speed w | None => lastWindSpeed state1 end;
     lastWindDensity := match snap_solarWind snapshot with
                        | Some w => sw_density w | None => lastWindDensity state1 end;
     kpWasAbove5 := geb (snap_kp snapshot) 5;
     kpWasAbove7 := geb (snap_kp snapshot) 7;
     bzWasBelow10 := leb bz0 (-10);
     bzWasBelow15 := leb bz0 (-15);
     windWasAbove600 := geb speed0 600;
     windWasAbove700 := geb speed0 700;
     densityWasAbove20 := geb density0 20;
     knownCMEs :=
       (fun c => {| known_id := cme_id c;
                    known_predictedKp := cme_predictedKp c;
                    known_predictedArrival := cme_predictedArrival c |})
         <$> snap_earthDirectedCMEs snapshot;
     knownFlareIds := flare_id <$> snap_recentFlares snapshot;
     knownHSSIds := hss_id <$> snap_recentHSS snapshot;
     knownRegionNumbers := region_regionNumber <$> in_activeRegions i;
     knownAlertProductIds := noaa_productId <$> snap_activeAlerts snapshot;
     lastCooldowns := lastCooldowns state1;
     dataHealth := in_dataHealth i;
     alertsSent := alertsSent state1 ++ toSend |}.

Definition tick (pid : Z) (i : TickInput) (state : CheckerState)
           (fs : gmap string text) : TickOutput :=
  let toSend := alertsToSend i state in
  let dispatched :=
    if (0 <? length toSend)%nat
    then dispatchAlerts cfg (in_hour i) (in_now i) toSend else [] in
  let '(saved, fs') := saveState cfg pid (updateState i state) fs in
  {| out_sent := toSend; out_dispatch := dispatched;
     out_state := saved; out_fs := fs' |}.

(** Successive runs of the process over one file system: each run
    loads the state file the previous one left.  The result lists, per
    run, its instant and the alerts that passed the filter; it is
    [None] when a state file does not have the shape of a
    [CheckerState]. *)
Fixpoint runs (pid : Z) (inputs : list TickInput) (fs : gmap string text)
  : option (list (Z * list SpaceWeatherAlert)) :=
  match inputs with
  | [] => Some []
  | i :: rest =>
      state ← fromJS (loadState fs);
      let out := tick pid i state fs in
      log ← runs pid rest (out_fs out);
      Some ((in_now i, out_sent out) :: log)
  end.

End WithHost.

(** *** From the fetches to the inputs of a run

    The first part of the [try] block of [main]: the five fetches, the
    health entries and the best-effort snapshot. *)

Record FetchResult (T : Type) : Type := {
  fr_data : option T;
  fr_ok : bool;
  fr_error : option string;
}.
Arguments fr_data {T} _.
Arguments fr_ok {T} _.
Arguments fr_error {T} _.

(** [resilientFetch], on what [fn] does: [inr data] when it resolves to
    [data] (which may be [null]), [inl message] when it throws. *)
Definition resilientFetch {T} (outcome : string + option T) : FetchResult T :=
  match outcome with
  | inr data => {| fr_data := data; fr_ok := true; fr_error := None |}
  | inl message => {| fr_data := None; fr_ok := false; fr_error := Some message |}
  end.

(** What [main] reads of the value [fetchAllSWPC] resolves to. *)
Record SwpcData : Type := {
  swpc_kp : Q;
  swpc_solarWind : option SolarWind;
  swpc_magneticField : option MagneticField;
  swpc_alerts : list NOAAAlert;
}.

(** What the five fetches of a run do. *)
Record Fetches : Type := {
  fetchAllSWPC : string + option SwpcData;
  fetchAllDONKI : string + option Donki.DonkiData;
  fetchActiveRegions : string + option (list ActiveRegion);
  fetchRealtimeWind : string + option SolarWind;
  fetchRealtimeMag : string + option MagneticField;
}.

Section Inputs.
Context `{Host}.

(** [updateHealth]. *)
Definition updateHealth (nowMs : Z) (source : string) (ok : bool)
           (error : option string) (existing : list DataHealthEntry)
  : DataHealthEntry :=
  let prev := find (fun d => String.eqb (dh_source d) source) existing in
  {| dh_source := source;
     dh_ok := ok;
     dh_lastSuccess :=
       if ok then toISOString nowMs
       else match prev with
            | Some p => dh_lastSuccess p
            | None => toISOString 0
            end;
     dh_lastError := if ok then None else error |}.

(** The array [dataHealth] of [main]. *)
Definition mainDataHealth (nowMs : Z) (f : Fetches) (state : CheckerState)
  : list DataHealthEntry :=
  let swpc := resilientFetch (fetchAllSWPC f) in
  let donki := resilientFetch (fetchAllDONKI f) in
  let regions := resilientFetch (fetchActiveRegions f) in
  let rtWind := resilientFetch (fetchRealtimeWind f) in
  let rtMag := resilientFetch (fetchRealtimeMag f) in
  [ updateHealth nowMs "swpc" (fr_ok swpc) (fr_error swpc) (dataHealth state);
    updateHealth nowMs "donki" (fr_ok donki) (fr_error donki) (dataHealth state);
    updateHealth nowMs "swpc-regions" (fr_ok regions) (fr_error regions)
      (dataHealth state);
    updateHealth nowMs "swpc-realtime-wind" (fr_ok rtWind) (fr_error rtWind)
      (dataHealth state);
    updateHealth nowMs "swpc-realtime-mag" (fr_ok rtMag) (fr_error rtMag)
      (dataHealth state) ].

(** The object [snapshot] of [main]. *)
Definition mainSnapshot (nowMs : Z) (f : Fetches) (state : CheckerState)
  : SpaceWeatherSnapshot :=
  let swpc := fr_data (resilientFetch (fetchAllSWPC f)) in
  let donki := fr_data (resilientFetch (fetchAllDONKI f)) in
  let rtWind := fr_data (resilientFetch (fetchRealtimeWind f)) in
  let rtMag := fr_data (resilientFetch (fetchRealtimeMag f)) in
  {| snap_timestamp := toISOString nowMs;
     snap_fetchedAt := toISOString nowMs;
     snap_kp := match swpc with Some d => swpc_kp d | None => lastKp state end;
     snap_solarWind :=
       match rtWind with
       | Some w => Some w
       | None => swpc ≫= swpc_solarWind
       end;
     snap_magneticField :=
       match rtMag with
       | Some m => Some m
       | None => swpc ≫= swpc_magneticField
       end;
     snap_earthDirectedCMEs :=
       match donki with Some d => Donki.donki_earthDirectedCMEs d | None => [] end;
     snap_recentFlares :=
       match donki with Some d => Donki.donki_flares d | None => [] end;
     snap_recentStorms :=
       match donki with Some d => Donki.donki_storms d | None => [] end;
     snap_recentHSS :=
       match donki with Some d => Donki.donki_hss d | None => [] end;
     snap_activeAlerts := match swpc with Some d => swpc_alerts d | None => [] end |}.

(** The array [activeRegions] of [main]. *)
Definition mainActiveRegions (f : Fetches) : list ActiveRegion :=
  default [] (fr_data (resilientFetch (fetchActiveRegions f))).

(** The inputs of the evaluation, at local hour [hour]. *)
Definition mainInput (nowMs hour : Z) (f : Fetches) (state : CheckerState)
  : TickInput :=
  {| in_now := nowMs; in_hour := hour;
     in_snapshot := mainSnapshot nowMs f state;
     in_activeRegions := mainActiveRegions f;
     in_dataHealth := mainDataHealth nowMs f state |}.

End Inputs.

End Checker.

(* ===================================================================== *)
(** ** The prediction store: [lib/predictions]                            *)
(* ===================================================================== *)

Module Predictions.
Import Js.

Inductive Status : Type := pending | hit | miss.

Inductive EventType : Type := ev_flare | ev_kp | ev_cme | ev_bz | ev_wind.

(** The string of the source's union type, as it enters a key. *)
Definition eventTypeName (t : EventType) : string :=
  match t with
  | ev_flare => "flare"
  | ev_kp => "kp"
  | ev_cme => "cme"
  | ev_bz => "bz"
  | ev_wind => "wind"
  end.

Record MatchedEvent : Type := {
  ev_type : EventType;
  ev_description : string;
  ev_timestamp : string;
}.

Record Prediction : Type := {
  pred_id : string;
  pred_timestamp : string;
  pred_note : option string;
  pred_status : Status;
  pred_verifiedAt : option string;
  pred_windowHours : Z;
  pred_windowEnd : string;
  pred_matchedEvents : list MatchedEvent;
}.

(** Window and cooldown are whole hours, as in the defaults. *)
Record PredictionConfig : Type := {
  verificationWindowHours : Z;
  baseRate : option Q;
  baseRateComputedAt : option string;
  baseRateSampleWindows : Z;
  cooldownHours : Z;
  maxPredictions : Z;
}.

Record PredictionState : Type := {
  pschemaVersion : Z;
  predictions : list Prediction;
  config : PredictionConfig;
}.

Definition DEFAULT_CONFIG : PredictionConfig := {|
  verificationWindowHours := 48;
  baseRate := None;
  baseRateComputedAt := None;
  baseRateSampleWindows := 0;
  cooldownHours := 6;
  maxPredictions := 500;
|}.

Definition DEFAULT_STATE : PredictionState := {|
  pschemaVersion := 1;
  predictions := [];
  config := DEFAULT_CONFIG;
|}.

Definition with_predictions (ps : list Prediction) (s : PredictionState)
  : PredictionState :=
  {| pschemaVersion := pschemaVersion s; predictions := ps; config := config s |}.

(** [savePredictions]: the cap on the list, then the write; the result is
    the state that is written (and that the caller's object now holds). *)
Definition savePredictions (state : PredictionState) : PredictionState :=
  if Z.of_nat (length (predictions state)) >? maxPredictions (config state)
  then with_predictions
         (slice_from (- maxPredictions (config state)) (predictions state)) state
  else state.

(** [isWithinCooldown]. *)
Definition isWithinCooldown `{Host} (nowMs : Z) (state : PredictionState) : bool :=
  match last (predictions state) with
  | None => false
  | Some last_ =>
      let elapsed := nowMs - getTime (pred_timestamp last_) in
      elapsed <? cooldownHours (config state) * 60 * 60 * 1000
  end.

(** *** The scorecard *)

Record Scorecard : Type := {
  totalPredictions : Z;
  sc_pending : Z;
  hits : Z;
  misses : Z;
  hitRate : option Q;
  sc_baseRate : option Q;
  pValue : option Q;
  totalDaysTracked : Z;
}.

Definition status_eqb (a b : Status) : bool :=
  match a, b with
  | pending, pending | hit, hit | miss, miss => true
  | _, _ => false
  end.

(** [xs.filter(p).length]. *)
Definition count {A} (p : A -> bool) (xs : list A) : Z :=
  Z.of_nat (length (List.filter p xs)).

Section Scorecard.
Context `{Host}.

(** [binomialPValue] adds up terms computed with [Math.log] and
    [Math.exp] in floating point; its values are those of the runtime. *)
Variable binomialPValue : Z -> Z -> Q -> Q.

(** [computeScorecard]. *)
Definition computeScorecard (nowMs : Z) (state : PredictionState) : Scorecard :=
  let verified :=
    List.filter (fun p => negb (status_eqb (pred_status p) pending))
                (predictions state) in
  let hits := count (fun p => status_eqb (pred_status p) hit) verified in
  let misses := count (fun p => status_eqb (pred_status p) miss) verified in
  let n := hits + misses in
  let hitRate := if n >? 0 then Some (inject_Z hits / inject_Z n)%Q else None in
  let totalDaysTracked :=
    match predictions state with
    | first :: _ =>
        Math_floor (inject_Z (nowMs - getTime (pred_timestamp first))
                    / inject_Z (1000 * 60 * 60 * 24))%Q
    | [] => 0
    end in
  let pValue :=
    if n >? 0 then binomialPValue hits n <$> baseRate (config state) else None in
  {| totalPredictions := Z.of_nat (length (predictions state));
     sc_pending := count (fun p => status_eqb (pred_status p) pending) (predictions state);
     hits := hits;
     misses := misses;
     hitRate := hitRate;
     sc_baseRate := baseRate (config state);
     pValue := pValue;
     totalDaysTracked := totalDaysTracked |}.

End Scorecard.

(** *** Reading the store (the local file backend)

    The stored document is read as it is: [parseState] spreads it over
    the defaults, and the [config] of the document over the default
    configuration.

    [DEFAULT_STATE] is one object of the module.  [structuredClone]
    copies it, but the state that [parseState] builds from a document
    without a [predictions] key holds the very array of [DEFAULT_STATE]:
    what is pushed into such a state is pushed into the defaults of every
    later call.  Below, [shared] is the content of that array at the time
    of the call; it is empty when the module is loaded. *)

Definition PREDICTIONS_PATH : string := "scripts/state/predictions.json".

Definition DEFAULT_CONFIG_JS : list (string * val) :=
  [ ("verificationWindowHours", VNum 48);
    ("baseRate", VNull);
    ("baseRateComputedAt", VNull);
    ("baseRateSampleWindows", VNum 0);
    ("cooldownHours", VNum 6);
    ("maxPredictions", VNum 500) ].

Definition DEFAULT_STATE_JS (shared : list val) : list (string * val) :=
  [ ("schemaVersion", VNum 1);
    ("predictions", VArr shared);
    ("config", VObj DEFAULT_CONFIG_JS) ].

(** Truthiness of a value, for [x || y]. *)
Definition truthy (v : val) : bool :=
  match v with
  | VUndefined | VNull => false
  | VBool b => b
  | VNum q => negb (Qeq_bool q 0)
  | VStr s => negb (String.eqb s "")
  | VArr _ | VObj _ => true
  end.

(** A state as [loadPredictions] returns it, with whether its
    [predictions] is the array of [DEFAULT_STATE] itself. *)
Record Loaded : Type := {
  ld_state : val;
  ld_shares : bool;
}.

(** [parseState]; [None] when reading [parsed.config] throws.  The spread
    copies the reference to the array of [DEFAULT_STATE], which stays in
    the result unless [parsed] has a [predictions] of its own. *)
Definition parseState (shared : list val) (parsed : val) : option Loaded :=
  match parsed with
  | VUndefined | VNull => None
  | _ =>
      let cfg := getProp parsed "config" in
      Some {| ld_state :=
                VObj (setProp "config"
                        (VObj (spread DEFAULT_CONFIG_JS
                                 (if truthy cfg then cfg else VObj [])))
                        (spread (DEFAULT_STATE_JS shared) parsed));
              ld_shares :=
                negb (existsb (String.eqb "predictions") (fst <$> ownProps parsed)) |}
  end.

(** [structuredClone(DEFAULT_STATE)]: a copy, sharing nothing. *)
Definition cloneDefaults (shared : list val) : Loaded :=
  {| ld_state := VObj (DEFAULT_STATE_JS shared); ld_shares := false |}.

(** [loadPredictions] from the local file. *)
Definition loadPredictions (shared : list val) (fs : gmap string text) : Loaded :=
  match fs !! PREDICTIONS_PATH with
  | None => cloneDefaults shared
  | Some raw =>
      match JSON_parse raw ≫= parseState shared with
      | Some loaded => loaded
      | None => cloneDefaults shared
      end
  end.

(** [state.predictions.push(prediction)], as [POST] does it on the state
    it loaded: the state after it, and the content of the array of
    [DEFAULT_STATE] after it.  [None] when [state.predictions] is no
    array and the call throws. *)
Definition pushPrediction (prediction : val) (loaded : Loaded) (shared : list val)
  : option (Loaded * list val) :=
  match ld_state loaded with
  | VObj props =>
      match lookupProp "predictions" props with
      | VArr xs =>
          Some ({| ld_state :=
                     VObj (setProp "predictions" (VArr (xs ++ [prediction])) props);
                   ld_shares := ld_shares loaded |},
                if ld_shares loaded then (shared ++ [prediction])%list else shared)
      | _ => None
      end
  | _ => None
  end.

End Predictions.

(* ===================================================================== *)
(** ** The predictions endpoint: POST                                     *)
(* ===================================================================== *)

Module Route.
Import Js Predictions.

(** What the handler reads of a request: the [Authorization] header and
    the value that [request.json()] resolves to, [None] when it rejects
    because the body is no JSON text. *)
Record Request : Type := {
  req_authorization : option string;
  req_json : option val;
}.

(** The body of an answer of the handler; [Uncaught] when the handler
    throws and the answer is the one of the framework. *)
Inductive Body : Type :=
| ErrorBody (error : string) (message cooldownEnds : option string)
| PredictionBody (ok : bool) (prediction : Prediction)
| Uncaught.

Record Response : Type := {
  status : Z;
  body : Body;
}.

(** [isAuthorized]; [token] is [process.env.PREDICT_TOKEN]. *)
Definition isAuthorized (token : option string) (request : Request) : bool :=
  if negb (truthyStr token) then true
  else
    match req_authorization request with
    | Some auth => String.eqb auth ("Bearer " +:+ default "" token)
    | None => false
    end.

(** [typeof body.note === 'string' ? body.note.trim().slice(0, 200) : null].
    Reading [note] off [null] throws: the outer [None].  Every other JSON
    value can be read, and has no [note] unless it is an object. *)
Definition noteOf `{Host} (body_ : val) : option (option string) :=
  match body_ with
  | VNull | VUndefined => None
  | _ =>
      Some match getProp body_ "note" with
           | VStr s => Some (str_take 200 (trim s))
           | _ => None
           end
  end.

(** [POST].  Besides the response, the state handed to [savePredictions]
    after the cap, or [None] when nothing is saved.  [uuid] is the value
    of [randomUUID()].  The body is read, and may throw, before the store
    is loaded. *)
Definition POST `{Host} (token : option string) (request : Request)
           (nowMs : Z) (uuid : string) (state : PredictionState)
  : Response * option PredictionState :=
  if negb (isAuthorized token request) then
    ({| status := 401; body := ErrorBody "Unauthorized" None None |}, None)
  else
    (* [await request.json().catch(() => ({}))] *)
    match noteOf (default (VObj []) (req_json request)) with
    | None => ({| status := 500; body := Uncaught |}, None)
    | Some note =>
        if isWithinCooldown nowMs state then
          match last (predictions state) with
          | Some last_ =>
              let cooldownEnds :=
                getTime (pred_timestamp last_)
                + cooldownHours (config state) * 60 * 60 * 1000 in
              ({| status := 429;
                  body :=
                    ErrorBody "cooldown"
                      (Some ("Too soon â€” wait until "
                             +:+ toLocaleTimeString cooldownEnds))
                      (Some (toISOString cooldownEnds)) |}, None)
          | None =>
              (* [last] is undefined: reading its timestamp throws *)
              ({| status := 500; body := Uncaught |}, None)
          end
        else
          let windowEnd :=
            nowMs + verificationWindowHours (config state) * 60 * 60 * 1000 in
          let prediction :=
            {| pred_id := uuid;
               pred_timestamp := toISOString nowMs;
               pred_note := if truthyStr note then note else None;
               pred_status := pending;
               pred_verifiedAt := None;
               pred_windowHours := verificationWindowHours (config state);
               pred_windowEnd := toISOString windowEnd;
               pred_matchedEvents := [] |} in
          let pushed := with_predictions (predictions state ++ [prediction]) state in
          ({| status := 200; body := PredictionBody true prediction |},
           Some (savePredictions pushed))
    end.

(** The body of the answer of [GET]. *)
Record Listing : Type := {
  l_predictions : list Prediction;
  l_scorecard : Scorecard;
  l_verificationWindowHours : Z;
  l_cooldownHours : Z;
  l_baseRate : option Q;
  l_baseRateComputedAt : option string;
}.

Inductive GetBody : Type :=
| GetError (error : string)
| GetListing (listing : Listing).

(** [GET], on the state that [loadPredictions] returned. *)
Definition GET `{Host} (binomialPValue : Z -> Z -> Q -> Q) (token : option string)
           (request : Request) (nowMs : Z) (state : PredictionState)
  : Z * GetBody :=
  if negb (isAuthorized token request) then (401, GetError "Unauthorized")
  else
    let scorecard := computeScorecard binomialPValue nowMs state in
    (200,
     GetListing
       {| l_predictions := rev (predictions state);
          l_scorecard := scorecard;
          l_verificationWindowHours := verificationWindowHours (config state);
          l_cooldownHours := cooldownHours (config state);
          l_baseRate := baseRate (config state);
          l_baseRateComputedAt := baseRateComputedAt (config state) |}).

End Route.

(* ===================================================================== *)
(** ** The verification pass: [scripts/verify-predictions]                *)
(* ===================================================================== *)

Module Verify.
Import Types Js Predictions.

Section WithHost.
Context `{Host}.

(** The [if]/[else if] chain over [alert.type]. *)
Definition classifyAlert (alert : SpaceWeatherAlert) : option EventType :=
  let ty := alert_type alert in
  if String.eqb ty "flare-m" || String.eqb ty "flare-x" then Some ev_flare
  else if String.eqb ty "kp-threshold" || String.eqb ty "kp-elevated" then Some ev_kp
  else if String.eqb ty "cme-earth" then Some ev_cme
  else if String.eqb ty "bz-threshold" then Some ev_bz
  else if String.eqb ty "wind-speed" then Some ev_wind
  else None.

(** The loops share [seen] and [events]. *)
Definition Acc : Type := gset string * list MatchedEvent.

Definition eventKey (t : EventType) (timestamp : string) : string :=
  eventTypeName t +:+ "-" +:+ timestamp.

(** [if (!seen.has(key)) { seen.add(key); events.push(event) }]. *)
Definition pushOnce (key : string) (event : MatchedEvent) (acc : Acc) : Acc :=
  if bool_decide (key ∈ acc.1) then acc
  else ({[ key ]} ∪ acc.1, (acc.2 ++ [event])%list).

(** [t < start || t > end], the test that skips an item. *)
Definition outside (start end_ t : Z) : bool := (t <? start) || (t >? end_).

Definition alertStep (start end_ : Z) (acc : Acc) (alert : SpaceWeatherAlert) : Acc :=
  if outside start end_ (getTime (alert_timestamp alert)) then acc
  else
    match classifyAlert alert with
    | Some ty =>
        let event := {| ev_type := ty; ev_description := alert_title alert;
                        ev_timestamp := alert_timestamp alert |} in
        pushOnce (eventKey (ev_type event) (ev_timestamp event)) event acc
    | None => acc
    end.

Definition flareStep (start end_ : Z) (acc : Acc) (flare : SolarFlare) : Acc :=
  if outside start end_ (getTime (flare_beginTime flare)) then acc
  else if startsWith "M" (flare_classType flare)
          || startsWith "X" (flare_classType flare) then
    pushOnce ("flare-" +:+ flare_beginTime flare)
             {| ev_type := ev_flare;
                ev_description := flare_classType flare +:+ " Flare";
                ev_timestamp := flare_beginTime flare |} acc
  else acc.

Definition stormStep (start end_ : Z) (acc : Acc) (storm : GeomagneticStorm) : Acc :=
  if outside start end_ (getTime (storm_startTime storm)) then acc
  else if geb (storm_kpIndex storm) 5 then
    pushOnce ("kp-" +:+ storm_startTime storm)
             {| ev_type := ev_kp;
                ev_description :=
                  "Kp " +:+ numToString (storm_kpIndex storm) +:+ " ("
                  +:+ storm_gScale storm +:+ ")";
                ev_timestamp := storm_startTime storm |} acc
  else acc.

Definition cmeStep (start end_ : Z) (acc : Acc) (cme : CME) : Acc :=
  if outside start end_ (getTime (cme_startTime cme)) then acc
  else
    pushOnce ("cme-" +:+ cme_startTime cme)
             {| ev_type := ev_cme;
                ev_description :=
                  "Earth-directed CME" +:+
                  (if truthyNum (cme_speed cme)
                   then " (" +:+ numToString (default 0%Q (cme_speed cme)) +:+ " km/s)"
                   else "");
                ev_timestamp := cme_startTime cme |} acc.

(** [findMatchingEvents]. *)
Definition findMatchingEvents (prediction : Prediction) (state : CheckerState)
           (snapshot : SpaceWeatherSnapshot) : list MatchedEvent :=
  let start := getTime (pred_timestamp prediction) in
  let end_ := getTime (pred_windowEnd prediction) in
  let acc0 : Acc := (∅, []) in
  let acc1 := fold_left (alertStep start end_) (alertsSent state) acc0 in
  let acc2 := fold_left (flareStep start end_) (snap_recentFlares snapshot) acc1 in
  let acc3 := fold_left (stormStep start end_) (snap_recentStorms snapshot) acc2 in
  let acc4 := fold_left (cmeStep start end_) (snap_earthDirectedCMEs snapshot) acc3 in
  acc4.2.

(** [notifyResult]: the alert handed to [sendSignalMessage]. *)
Definition notifyResult (nowMs : Z) (prediction : Prediction) : SpaceWeatherAlert :=
  let predDate := toLocaleDateString (pred_timestamp prediction) in
  let message :=
    match pred_status prediction, pred_matchedEvents prediction with
    | hit, topEvent :: others =>
        let extras :=
          if (1 <? length (pred_matchedEvents prediction))%nat
          then " (+" +:+ intToString (Z.of_nat (length others)) +:+ " more)"
          else "" in
        "Your prediction from " +:+ predDate +:+ ": HIT â€” "
        +:+ ev_description topEvent +:+ extras
    | hit, [] =>
        (* not reached: a hit has a matched event *)
        "Your prediction from " +:+ predDate +:+ ": HIT â€” undefined"
    | _, _ => "Your prediction from " +:+ predDate +:+ ": MISS â€” quiet window"
    end in
  let emoji := match pred_status prediction with hit => "ðŸŽ¯" | _ => "ðŸ¤·" end in
  {| alert_id := "predict-result-" +:+ pred_id prediction;
     alert_type := "prediction-result";
     alert_urgency := info;
     alert_title := emoji +:+ " Solar Sense";
     alert_body := message;
     alert_timestamp := toISOString nowMs;
     alert_sourceEventId := None |}.

(** The body of the loop of [verifyPendingPredictions] for one
    prediction: the prediction as the loop leaves it, and the
    notification if one is sent. *)
Definition verifyOne (nowMs : Z) (checkerState : CheckerState)
           (snapshot : SpaceWeatherSnapshot) (prediction : Prediction)
  : Prediction * option SpaceWeatherAlert :=
  match pred_status prediction with
  | pending =>
      if getTime (pred_windowEnd prediction) >? nowMs then (prediction, None)
      else
        let matched := findMatchingEvents prediction checkerState snapshot in
        let verified :=
          {| pred_id := pred_id prediction;
             pred_timestamp := pred_timestamp prediction;
             pred_note := pred_note prediction;
             pred_status := if (0 <? length matched)%nat then hit else miss;
             pred_verifiedAt := Some (toISOString nowMs);
             pred_windowHours := pred_windowHours prediction;
             pred_windowEnd := pred_windowEnd prediction;
             pred_matchedEvents := matched |} in
        (verified, Some (notifyResult nowMs verified))
  | _ => (prediction, None)
  end.

Record VerifyResult : Type := {
  vr_predictions : list Prediction;          (* the list after the loop *)
  vr_notifications : list SpaceWeatherAlert; (* calls of sendSignalMessage *)
  vr_saved : option PredictionState;         (* what savePredictions wrote *)
}.

(** [verifyPendingPredictions] on the loaded prediction state. *)
Definition verifyPendingPredictions (nowMs : Z) (checkerState : CheckerState)
           (snapshot : SpaceWeatherSnapshot) (predState : PredictionState)
  : VerifyResult :=
  let results := verifyOne nowMs checkerState snapshot <$> predictions predState in
  let changed := existsb (fun r => bool_decide (is_Some r.2)) results in
  let preds := fst <$> results in
  {| vr_predictions := preds;
     vr_notifications := omap snd results;
     vr_saved :=
       if changed then Some (savePredictions (with_predictions preds predState))
       else None |}.

End WithHost.

End Verify.

(* ===================================================================== *)
(** ** A host to run the model on                                         *)
(* ===================================================================== *)

(** The statements below hold for every [Host].  To evaluate the model on
    concrete inputs this host writes an instant as the decimal numeral of
    its milliseconds, prints a number as a decimal numeral (a fraction
    that does not terminate is cut after [digits] places), and leaves
    timestamps unformatted. *)
Module RefHost.
Import Js.

Definition getTime (s : string) : Z :=
  match NilZero.int_of_string s with
  | Some d => Z.of_int d
  | None => 0
  end.

Definition toISOString (t : Z) : string := intToString t.

Fixpoint fraction (digits : nat) (r d : Z) : string :=
  match digits with
  | O => ""
  | S n =>
      if r =? 0 then ""
      else intToString (10 * r / d) +:+ fraction n (10 * r mod d) d
  end.

Definition unsignedToString (q : Q) : string :=
  let n := Qnum q in
  let d := Zpos (Qden q) in
  let r := n mod d in
  intToString (n / d) +:+ (if r =? 0 then "" else "." +:+ fraction 17 r d).

Definition numToString (q : Q) : string :=
  if Qnum q <? 0 then "-" +:+ unsignedToString (Qopp q) else unsignedToString q.

Definition unsignedToFixed1 (q : Q) : string :=
  let tenths := Math_round (q * 10)%Q in
  intToString (tenths / 10) +:+ "." +:+ intToString (tenths mod 10).

Definition toFixed1 (q : Q) : string :=
  if Qnum q <? 0 then "-" +:+ unsignedToFixed1 (Qopp q) else unsignedToFixed1 q.

(** [trim]: the white space and the line terminators of ECMAScript, as
    UTF-8 bytes, taken off both ends. *)
Definition bytes (codes : list nat) : string :=
  fold_right (fun n s => String (ascii_of_nat n) s) EmptyString codes.

Definition whiteSpace : list string :=
  bytes <$>
    [ [9]; [10]; [11]; [12]; [13]; [32];                   (* TAB LF VT FF CR SP *)
      [194; 160];                                           (* U+00A0 *)
      [225; 154; 128];                                      (* U+1680 *)
      [226; 128; 128]; [226; 128; 129]; [226; 128; 130];    (* U+2000 .. *)
      [226; 128; 131]; [226; 128; 132]; [226; 128; 133];
      [226; 128; 134]; [226; 128; 135]; [226; 128; 136];
      [226; 128; 137]; [226; 128; 138];                     (* .. U+200A *)
      [226; 128; 168]; [226; 128; 169];                     (* U+2028 U+2029 *)
      [226; 128; 175];                                      (* U+202F *)
      [226; 129; 159];                                      (* U+205F *)
      [227; 128; 128];                                      (* U+3000 *)
      [239; 187; 191] ]%nat.                                (* U+FEFF *)

Fixpoint reverse (acc s : string) : string :=
  match s with
  | EmptyString => acc
  | String c s' => reverse (String c acc) s'
  end.

(** [s] without its prefix [p], when it has it. *)
Fixpoint dropPrefix (p s : string) : option string :=
  match p, s with
  | EmptyString, _ => Some s
  | String a p', String b s' => if Ascii.eqb a b then dropPrefix p' s' else None
  | String _ _, EmptyString => None
  end.

Fixpoint stripOne (spaces : list string) (s : string) : option string :=
  match spaces with
  | [] => None
  | sp :: rest =>
      match dropPrefix sp s with
      | Some s' => Some s'
      | None => stripOne rest s
      end
  end.

Fixpoint strip (fuel : nat) (spaces : list string) (s : string) : string :=
  match fuel with
  | O => s
  | S n =>
      match stripOne spaces s with
      | Some s' => strip n spaces s'
      | None => s
      end
  end.

Definition trimStart (s : string) : string := strip (String.length s) whiteSpace s.

Definition trimEnd (s : string) : string :=
  reverse EmptyString
    (strip (String.length s) (reverse EmptyString <$> whiteSpace)
       (reverse EmptyString s)).

Definition trim (s : string) : string := trimEnd (trimStart s).

Lemma to_int_proper (t : Z) :
  Z.to_int t <> Decimal.Pos Decimal.Nil /\ Z.to_int t <> Decimal.Neg Decimal.Nil.
Proof.
  destruct t as [|p|p]; cbn; split; try discriminate;
    intros [= E]; exact (DecimalPos.Unsigned.to_uint_nonnil p E).
Qed.

Lemma getTime_toISOString (t : Z) : getTime (toISOString t) = t.
Proof.
  unfold getTime, toISOString, intToString.
  destruct (to_int_proper t) as [Hp Hn].
  rewrite (NilZero.isi _ Hp Hn). apply DecimalZ.of_to.
Qed.

Lemma toISOString_nonempty (t : Z) : toISOString t <> "".
Proof.
  intros E. pose proof (getTime_toISOString t) as R.
  pose proof (getTime_toISOString (t + 1)) as R'.
  unfold toISOString, intToString in *.
  destruct (to_int_proper t) as [Hp Hn].
  pose proof (NilZero.isi _ Hp Hn) as P. rewrite E in P. discriminate P.
Qed.

Definition host : Host :=
  Build_Host getTime toISOString numToString toFixed1
             (fun iso => iso) intToString (fun iso => iso) trim
             getTime_toISOString toISOString_nonempty.

End RefHost.

(* ===================================================================== *)
(** * Vocabulary of the statements                                        *)
(* ===================================================================== *)

Import Types Config Predictions.

(** ** Alerts by type *)

(** The alert has one of the types [tys]. *)
Definition typeIn (tys : list string) (a : SpaceWeatherAlert) : bool :=
  existsb (String.eqb (alert_type a)) tys.

Definition cmeTypes : list string := ["cme-earth"; "cme-revision"].
Definition flareTypes : list string := ["flare-x"; "flare-m"].
Definition kpTypes : list string := ["kp-threshold"; "kp-elevated"].

(** What the flare rule would read if it converted the class letter to
    upper case, as the sentence on flare classes has it. *)
Definition claimedFlareLetter (classType : string) : string :=
  Js.toUpperCase0 classType.

(** ** Quiet hours *)

(** The quiet window in the words of the configuration: from [start]
    inclusive to [end] exclusive, wrapping past midnight when
    [start > end]. *)
Definition inQuietWindow (start end_ hour : Z) : Prop :=
  (start > end_ /\ (hour >= start \/ hour < end_))
  \/ (start <= end_ /\ hour >= start /\ hour < end_).

(** The transport calls that deliver [alert] to a list of channels, in
    the order of the list: one Signal message for each "signal", one
    desktop notification for each "desktop", and nothing for an id that
    names no transport. *)
Inductive deliversTo (alert : SpaceWeatherAlert)
  : list string -> list Notify.Send -> Prop :=
| deliver_none : deliversTo alert [] []
| deliver_signal channels sends :
    deliversTo alert channels sends ->
    deliversTo alert ("signal" :: channels) (Notify.sendSignalMessage alert :: sends)
| deliver_desktop channels sends :
    deliversTo alert channels sends ->
    deliversTo alert ("desktop" :: channels)
               (Notify.sendDesktopNotification alert :: sends)
| deliver_skip channel channels sends :
    channel <> "signal" -> channel <> "desktop" ->
    deliversTo alert channels sends ->
    deliversTo alert (channel :: channels) sends.

(** ** Persistence *)

(** A health entry as written: [lastError] is left out when it is
    [undefined]. *)
Definition healthDoc (d : DataHealthEntry) : Js.val :=
  Js.VObj ([ ("source", Js.VStr (dh_source d));
             ("ok", Js.VBool (dh_ok d));
             ("lastSuccess", Js.VStr (dh_lastSuccess d)) ]
           ++ match dh_lastError d with
              | Some e => [ ("lastError", Js.VStr e) ]
              | None => []
              end).

(** The keys of a state object, in the order of [DEFAULT_STATE]. *)
Definition stateKeys : list string :=
  [ "schemaVersion"; "lastRunAt"; "lastKp"; "lastBz"; "lastWindSpeed";
    "lastWindDensity"; "kpWasAbove5"; "kpWasAbove7"; "bzWasBelow10";
    "bzWasBelow15"; "windWasAbove600"; "windWasAbove700"; "densityWasAbove20";
    "knownCMEs"; "knownFlareIds"; "knownHSSIds"; "knownRegionNumbers";
    "knownAlertProductIds"; "lastCooldowns"; "dataHealth"; "alertsSent" ].

(** The lockfile exists, parses, and records the process id [pid]. *)
Definition lockNames (pid : Z) (fs : gmap string Js.text) : Prop :=
  exists raw lock q,
    fs !! State.LOCK_PATH = Some raw
    /\ Js.JSON_parse raw = Some lock
    /\ Js.getProp lock "pid" = Js.VNum q
    /\ (q == inject_Z pid)%Q.

(** ** Runs of the checker *)

Section RunsFrom.
Context `{Host}.
Variables (cfg : Config) (pid : Z).

(** Successive runs from a state in memory that the file system holds. *)
Fixpoint runsFrom (inputs : list Checker.TickInput) (state : CheckerState)
         (fs : gmap string Js.text) : list (Z * list SpaceWeatherAlert) :=
  match inputs with
  | [] => []
  | i :: rest =>
      let out := Checker.tick cfg pid i state fs in
      (Checker.in_now i, Checker.out_sent out)
      :: runsFrom rest (Checker.out_state out) (Checker.out_fs out)
  end.

(** [covers state emitted]: for every emission of a type with a positive
    cooldown, the state records an emission of that type that is not
    earlier. *)
Definition covers (state : CheckerState) (emitted : list (string * Z)) : Prop :=
  forall ty t c,
    In (ty, t) emitted -> cooldowns cfg !! ty = Some c -> 0 < c ->
    exists lastSent, lastCooldowns state !! ty = Some (toISOString lastSent)
                     /\ t <= lastSent.

End RunsFrom.

(** The same run at another local hour. *)
Definition withHour (hour : Z) (i : Checker.TickInput) : Checker.TickInput :=
  {| Checker.in_now := Checker.in_now i; Checker.in_hour := hour;
     Checker.in_snapshot := Checker.in_snapshot i;
     Checker.in_activeRegions := Checker.in_activeRegions i;
     Checker.in_dataHealth := Checker.in_dataHealth i |}.

(** ** Predictions *)


(** The JSON body of the request is [null] (or [undefined], which no JSON
    text denotes): reading a property off it throws. *)
Definition nullBody (request : Route.Request) : Prop :=
  Route.req_json request = Some Js.VNull
  \/ Route.req_json request = Some Js.VUndefined.

#[local] Instance EventType_eq_dec : EqDecision EventType.
Proof. solve_decision. Defined.

(** The alert types that count as an event for a prediction, each with
    the type of the event it stands for. *)
Definition significantAlerts : list (string * EventType) :=
  [ ("flare-m", ev_flare); ("flare-x", ev_flare);
    ("kp-threshold", ev_kp); ("kp-elevated", ev_kp);
    ("cme-earth", ev_cme); ("bz-threshold", ev_bz); ("wind-speed", ev_wind) ].

Section MatchedEventsOf.
Context `{Host}.
Variables (start end_ : Z).

(** [start <= t <= end]. *)
Definition within (t : Z) : bool := (start <=? t) && (t <=? end_).

(** The events each source contributes, before deduplication.  An alert
    contributes one when its time is inside the window and its type is
    one of the significant ones. *)
Definition alertEvent (alert : SpaceWeatherAlert) : option MatchedEvent :=
  if within (getTime (alert_timestamp alert)) then
    (fun entry => {| ev_type := entry.2; ev_description := alert_title alert;
                     ev_timestamp := alert_timestamp alert |})
      <$> find (fun entry => String.eqb (alert_type alert) entry.1) significantAlerts
  else None.

Definition flareEvent (flare : SolarFlare) : option MatchedEvent :=
  if within (getTime (flare_beginTime flare))
     && (Js.startsWith "M" (flare_classType flare)
         || Js.startsWith "X" (flare_classType flare))
  then Some {| ev_type := ev_flare;
               ev_description := flare_classType flare +:+ " Flare";
               ev_timestamp := flare_beginTime flare |}
  else None.

Definition stormEvent (storm : GeomagneticStorm) : option MatchedEvent :=
  if within (getTime (storm_startTime storm)) && Js.geb (storm_kpIndex storm) 5
  then Some {| ev_type := ev_kp;
               ev_description :=
                 "Kp " +:+ numToString (storm_kpIndex storm) +:+ " ("
                 +:+ storm_gScale storm +:+ ")";
               ev_timestamp := storm_startTime storm |}
  else None.

Definition cmeEvent (cme : CME) : option MatchedEvent :=
  if within (getTime (cme_startTime cme))
  then Some {| ev_type := ev_cme;
               ev_description :=
                 "Earth-directed CME" +:+
                 (if Js.truthyNum (cme_speed cme)
                  then " (" +:+ numToString (default 0%Q (cme_speed cme)) +:+ " km/s)"
                  else "");
               ev_timestamp := cme_startTime cme |}
  else None.

End MatchedEventsOf.

(** Remembering an event under the key of its type and timestamp. *)
Definition pushEvent (acc : Verify.Acc) (e : MatchedEvent) : Verify.Acc :=
  Verify.pushOnce (Verify.eventKey (ev_type e) (ev_timestamp e)) e acc.

(** Deduplication by the pair (type, timestamp), keeping the first event
    of every pair. *)
Fixpoint dedup (seen : list (EventType * string)) (events : list MatchedEvent)
  : list MatchedEvent :=
  match events with
  | [] => []
  | e :: rest =>
      let k := (ev_type e, ev_timestamp e) in
      if bool_decide (k ∈ seen) then dedup seen rest
      else e :: dedup (k :: seen) rest
  end.

Section Candidates.
Context `{Host}.

(** The matched events of a prediction before deduplication: the alerts
    sent of a significant type, the flares of class M or X, the storms
    with a Kp index of 5 or more and the Earth-directed CMEs, each with its
    time inside the window of the prediction. *)
Definition candidates (prediction : Prediction) (state : CheckerState)
           (snapshot : SpaceWeatherSnapshot) : list MatchedEvent :=
  let start := getTime (pred_timestamp prediction) in
  let end_ := getTime (pred_windowEnd prediction) in
  (omap (alertEvent start end_) (alertsSent state)
   ++ omap (flareEvent start end_) (snap_recentFlares snapshot)
   ++ omap (stormEvent start end_) (snap_recentStorms snapshot)
   ++ omap (cmeEvent start end_) (snap_earthDirectedCMEs snapshot))%list.

End Candidates.

(** A prediction that a pass at [nowMs] has to settle: it is pending and
    its window has ended. *)
Definition expiredb `{Host} (nowMs : Z) (p : Prediction) : bool :=
  status_eqb (pred_status p) pending && (getTime (pred_windowEnd p) <=? nowMs).

(** ** Alerts by reading *)

Definition bzTypes : list string := ["bz-threshold"].
Definition windTypes : list string := ["wind-speed"].
Definition densityTypes : list string := ["wind-density"].
Definition allClearTypes : list string := ["all-clear"].


(** The same data, fetched again at another time. *)
Definition refetched (timestamp : string) (s : SpaceWeatherSnapshot)
  : SpaceWeatherSnapshot :=
  {| snap_timestamp := timestamp; snap_fetchedAt := timestamp;
     snap_kp := snap_kp s; snap_solarWind := snap_solarWind s;
     snap_magneticField := snap_magneticField s;
     snap_earthDirectedCMEs := snap_earthDirectedCMEs s;
     snap_recentFlares := snap_recentFlares s;
     snap_recentStorms := snap_recentStorms s;
     snap_recentHSS := snap_recentHSS s;
     snap_activeAlerts := snap_activeAlerts s |}.

(** ** Quoting, as the readers of the commands see it *)

(** One word of a POSIX shell command line that is written with single
    quotes and backslashes, read from [s]: inside single quotes every
    character stands for itself up to the closing quote; outside them a
    backslash makes the next character stand for itself (but for a line
    break, which it removes) and a space ends the word.  The result is the
    word and what follows it.  The word is not read ([None]) when a quote
    is left open, and when any other character stands outside the quotes,
    where the shell has its operators and substitutions. *)
Fixpoint shWord (quoted : bool) (s : string) : option (string * string) :=
  match s with
  | EmptyString => if quoted then None else Some (EmptyString, EmptyString)
  | String c s' =>
      if quoted then
        if Ascii.eqb c Notify.squote then shWord false s'
        else (fun r => (String c r.1, r.2)) <$> shWord true s'
      else if Ascii.eqb c Notify.squote then shWord true s'
      else if Ascii.eqb c Notify.backslash then
        match s' with
        | String d s'' =>
            if Ascii.eqb d Notify.newline then None
            else (fun r => (String d r.1, r.2)) <$> shWord false s''
        | EmptyString => None
        end
      else if Ascii.eqb c " " then Some (EmptyString, s)
      else None
  end.

(** An AppleScript string literal, read from just after its opening
    quote: a backslash before a backslash or a double quote gives that
    character, a double quote ends the literal.  The result is the text of
    the literal and what follows its closing quote. *)
Fixpoint osaLiteral (s : string) : option (string * string) :=
  match s with
  | EmptyString => None
  | String c s' =>
      if Ascii.eqb c Notify.dquote then Some (EmptyString, s')
      else if Ascii.eqb c Notify.backslash then
        match s' with
        | String d s'' =>
            if Ascii.eqb d Notify.backslash || Ascii.eqb d Notify.dquote
            then (fun r => (String d r.1, r.2)) <$> osaLiteral s''
            else None
        | EmptyString => None
        end
      else (fun r => (String c r.1, r.2)) <$> osaLiteral s'
  end.

(** The character [c] occurs in [s]. *)
Fixpoint hasChar (c : ascii) (s : string) : bool :=
  match s with
  | EmptyString => false
  | String x s' => Ascii.eqb x c || hasChar c s'
  end.

(** ** The fetches of a run *)

(** SWPC cannot be reached and the real-time feeds give nothing. *)
Definition noReadings (f : Checker.Fetches) : Prop :=
  (exists message, Checker.fetchAllSWPC f = inl message)
  /\ Checker.fr_data (Checker.resilientFetch (Checker.fetchRealtimeWind f)) = None
  /\ Checker.fr_data (Checker.resilientFetch (Checker.fetchRealtimeMag f)) = None.

(** The sources of [main], and whether the fetch of a source went through
    in a run. *)
Definition healthSources : list string :=
  ["swpc"; "donki"; "swpc-regions"; "swpc-realtime-wind"; "swpc-realtime-mag"].

Definition resolved {T} (outcome : string + option T) : bool :=
  match outcome with inr _ => true | inl _ => false end.

Definition fetchOk (source : string) (f : Checker.Fetches) : bool :=
  if String.eqb source "swpc" then resolved (Checker.fetchAllSWPC f)
  else if String.eqb source "donki" then resolved (Checker.fetchAllDONKI f)
  else if String.eqb source "swpc-regions" then resolved (Checker.fetchActiveRegions f)
  else if String.eqb source "swpc-realtime-wind" then resolved (Checker.fetchRealtimeWind f)
  else if String.eqb source "swpc-realtime-mag" then resolved (Checker.fetchRealtimeMag f)
  else false.

(** One run of [main] after the other, from the fetches to the saved
    state: each run is given by its instant, its local hour and what its
    fetches do. *)
Fixpoint mainRuns `{Host} (cfg : Config) (pid : Z)
         (runs : list (Z * Z * Checker.Fetches)) (state : CheckerState)
         (fs : gmap string Js.text) : CheckerState :=
  match runs with
  | [] => state
  | (nowMs, hour, f) :: rest =>
      let out := Checker.tick cfg pid (Checker.mainInput nowMs hour f state) state fs in
      mainRuns cfg pid rest (Checker.out_state out) (Checker.out_fs out)
  end.

(** The [lastSuccess] on record for [source], as [updateHealth] reads
    it. *)
Definition lastSuccessOf `{Host} (source : string) (health : list DataHealthEntry)
  : string :=
  match find (fun d => String.eqb (dh_source d) source) health with
  | Some p => dh_lastSuccess p
  | None => toISOString 0
  end.

(** ** Documents and defaults *)

(** The state of a first run: the defaults at their type. *)
Definition freshState `{Host} : CheckerState := {|
  schemaVersion := 1; lastRunAt := toISOString 0;
  lastKp := 0; lastBz := 0; lastWindSpeed := 0; lastWindDensity := 0;
  kpWasAbove5 := false; kpWasAbove7 := false;
  bzWasBelow10 := false; bzWasBelow15 := false;
  windWasAbove600 := false; windWasAbove700 := false;
  densityWasAbove20 := false;
  knownCMEs := []; knownFlareIds := []; knownHSSIds := [];
  knownRegionNumbers := []; knownAlertProductIds := [];
  lastCooldowns := ∅; dataHealth := []; alertsSent := [] |}.

(** [k] is a key of the properties [ps]. *)
Definition hasKey (k : string) (ps : list (string * Js.val)) : bool :=
  existsb (String.eqb k) (fst <$> ps).

(* ===================================================================== *)
(** * Concrete runs                                                       *)
(* ===================================================================== *)

(** Inputs on which the statements below are instantiated, run on the
    reference host. *)
Module Scenario.

Definition emptyState : CheckerState := {|
  schemaVersion := 1; lastRunAt := "0";
  lastKp := 0; lastBz := 0; lastWindSpeed := 0; lastWindDensity := 0;
  kpWasAbove5 := false; kpWasAbove7 := false;
  bzWasBelow10 := false; bzWasBelow15 := false;
  windWasAbove600 := false; windWasAbove700 := false;
  densityWasAbove20 := false;
  knownCMEs := []; knownFlareIds := []; knownHSSIds := [];
  knownRegionNumbers := []; knownAlertProductIds := [];
  lastCooldowns := ∅; dataHealth := []; alertsSent := [] |}.

(** A quiet snapshot: Kp [kp], no solar wind data, the given events. *)
Definition snapshotOf (kp : Q) (cmes : list CME) (flares : list SolarFlare)
  : SpaceWeatherSnapshot := {|
  snap_timestamp := "0"; snap_fetchedAt := "0";
  snap_kp := kp; snap_solarWind := None; snap_magneticField := None;
  snap_earthDirectedCMEs := cmes; snap_recentFlares := flares;
  snap_recentStorms := []; snap_recentHSS := []; snap_activeAlerts := [] |}.

Definition cmeOf (id : string) (predictedKp : option Q) : CME := {|
  cme_id := id; cme_activityID := id; cme_startTime := "0";
  cme_sourceLocation := None; cme_activeRegionNum := None;
  cme_speed := None; cme_halfAngle := None; cme_isEarthDirected := true;
  cme_predictedArrival := None; cme_predictedKp := predictedKp;
  cme_note := None |}.

Definition flareOf (id classType beginTime : string) : SolarFlare := {|
  flare_id := id; flare_beginTime := beginTime; flare_peakTime := None;
  flare_endTime := None; flare_classType := classType;
  flare_sourceLocation := None; flare_activeRegionNum := None |}.

(** A state whose last Kp was 4. *)
Definition afterKp4 : CheckerState :=
  {| schemaVersion := 1; lastRunAt := "0";
     lastKp := 4; lastBz := 0; lastWindSpeed := 0; lastWindDensity := 0;
     kpWasAbove5 := false; kpWasAbove7 := false;
     bzWasBelow10 := false; bzWasBelow15 := false;
     windWasAbove600 := false; windWasAbove700 := false;
     densityWasAbove20 := false;
     knownCMEs := []; knownFlareIds := []; knownHSSIds := [];
     knownRegionNumbers := []; knownAlertProductIds := [];
     lastCooldowns := ∅; dataHealth := []; alertsSent := [] |}.

(** A state that knows CME X1 with a predicted Kp of 8. *)
Definition knowsX1 : CheckerState :=
  {| schemaVersion := 1; lastRunAt := "0";
     lastKp := 0; lastBz := 0; lastWindSpeed := 0; lastWindDensity := 0;
     kpWasAbove5 := false; kpWasAbove7 := false;
     bzWasBelow10 := false; bzWasBelow15 := false;
     windWasAbove600 := false; windWasAbove700 := false;
     densityWasAbove20 := false;
     knownCMEs := [ {| known_id := "X1"; known_predictedKp := Some 8%Q;
                       known_predictedArrival := None |} ];
     knownFlareIds := []; knownHSSIds := [];
     knownRegionNumbers := []; knownAlertProductIds := [];
     lastCooldowns := ∅; dataHealth := []; alertsSent := [] |}.

End Scenario.

Module CooldownScenario.

Definition inputAt (nowMs : Z) (kp : Q) (flares : list SolarFlare) : Checker.TickInput :=
  {| Checker.in_now := nowMs; Checker.in_hour := 12;
     Checker.in_snapshot := Scenario.snapshotOf kp [] flares;
     Checker.in_activeRegions := []; Checker.in_dataHealth := [] |}.

(** Kp 5.3 on a first run, Kp 3 half an hour later, Kp 5.4 two hundred
    minutes after the first run. *)
Definition stormTwice : list Checker.TickInput :=
  [ inputAt 1000 (53 # 10) [];
    inputAt (1000 + 30 * 60 * 1000) 3 [];
    inputAt (1000 + 200 * 60 * 1000) (54 # 10) [] ].

(** Kp 5.3 on a first run, Kp 3 half an hour later, Kp 5.4 after one more
    half hour. *)
Definition stormAgainSoon : list Checker.TickInput :=
  [ inputAt 1000 (53 # 10) [];
    inputAt (1000 + 30 * 60 * 1000) 3 [];
    inputAt (1000 + 60 * 60 * 1000) (54 # 10) [] ].

(** Two new M-class flares in the feed of one run. *)
Definition twoFlares : Checker.TickInput :=
  inputAt 1000 2 [ Scenario.flareOf "F1" "M1.0" "400";
                   Scenario.flareOf "F2" "M2.1" "500" ].

End CooldownScenario.

Module HistoryScenario.

(** Kp crosses 5 at two in the morning. *)
Definition nightStorm : Checker.TickInput :=
  {| Checker.in_now := 1000; Checker.in_hour := 2;
     Checker.in_snapshot := Scenario.snapshotOf (53 # 10) [] [];
     Checker.in_activeRegions := []; Checker.in_dataHealth := [] |}.

(** One hundred and one new X-class flares in the feed of one run. *)
Definition manyFlares : Checker.TickInput :=
  CooldownScenario.inputAt 1000 2
    (map (fun n => Scenario.flareOf ("F" +:+ Js.intToString (Z.of_nat n)) "X1.0" "500")
         (seq 0 101)).

End HistoryScenario.

Module SubmitScenario.

Definition bare : Route.Request :=
  {| Route.req_authorization := None;
     Route.req_json := Some (Js.VObj [ ("note", Js.VStr "  headache ") ]) |}.


Definition oneRecent : PredictionState :=
  with_predictions
    [ {| pred_id := "p0"; pred_timestamp := "500"; pred_note := None;
         pred_status := pending; pred_verifiedAt := None; pred_windowHours := 48;
         pred_windowEnd := "172800500"; pred_matchedEvents := [] |} ]
    DEFAULT_STATE.

End SubmitScenario.

Module VerifyScenario.

(** A prediction submitted at 1000 with a 48-hour window, and a feed with
    one M2.1 flare inside the window. *)
Definition submitted : Prediction :=
  {| pred_id := "p1"; pred_timestamp := "1000"; pred_note := None;
     pred_status := pending; pred_verifiedAt := None; pred_windowHours := 48;
     pred_windowEnd := "172801000"; pred_matchedEvents := [] |}.

Definition store : PredictionState := with_predictions [submitted] DEFAULT_STATE.

Definition feed : SpaceWeatherSnapshot :=
  Scenario.snapshotOf 2 [] [ Scenario.flareOf "F1" "M2.1" "5000000" ].

(** A feed without events, and a checker state that has sent an alert of
    the given type inside the window. *)
Definition quietFeed : SpaceWeatherSnapshot := Scenario.snapshotOf 2 [] [].

Definition sentAlert (type : string) : SpaceWeatherAlert :=
  {| alert_id := type +:+ "-6000000"; alert_type := type; alert_urgency := high;
     alert_title := "Sent"; alert_body := ""; alert_timestamp := "6000000";
     alert_sourceEventId := None |}.

Definition alerted (type : string) : CheckerState :=
  State.with_alertsSent [sentAlert type] Scenario.emptyState.

End VerifyScenario.

Module EndToEnd.

(** A quiet sky: Kp 2, Bz -1 nT, wind at 350 km/s, density 5, no events. *)
Definition quietSky : Checker.TickInput :=
  {| Checker.in_now := 1000; Checker.in_hour := 12;
     Checker.in_snapshot :=
       {| snap_timestamp := "1000"; snap_fetchedAt := "1000"; snap_kp := 2;
          snap_solarWind :=
            Some {| sw_timestamp := "900"; sw_speed := 350; sw_density := 5;
                    sw_temperature := 0 |};
          snap_magneticField :=
            Some {| mf_timestamp := "900"; mf_bx := 0; mf_by := 0; mf_bz := -1;
                    mf_bt := 1 |};
          snap_earthDirectedCMEs := []; snap_recentFlares := [];
          snap_recentStorms := []; snap_recentHSS := []; snap_activeAlerts := [] |};
     Checker.in_activeRegions := []; Checker.in_dataHealth := [] |}.

(** CME X1 with a predicted Kp of 8, arriving 18 hours after instant
    1000. *)
Definition cmeX1 : CME :=
  {| cme_id := "X1"; cme_activityID := "X1"; cme_startTime := "500";
     cme_sourceLocation := None; cme_activeRegionNum := None;
     cme_speed := None; cme_halfAngle := None; cme_isEarthDirected := true;
     cme_predictedArrival := Some "64801000"; cme_predictedKp := Some 8%Q;
     cme_note := None |}.

(** A storm, its recovery, and a quiet run after it. *)
Definition stormAndRecovery : list Checker.TickInput :=
  [ CooldownScenario.inputAt 1000 (53 # 10) [];
    CooldownScenario.inputAt 2000 (35 # 10) [];
    CooldownScenario.inputAt 3000 3 [] ].

End EndToEnd.

Module OutageScenario.

(** Every fetch of the run throws. *)
Definition allDown : Checker.Fetches :=
  {| Checker.fetchAllSWPC := inl "fetch failed";
     Checker.fetchAllDONKI := inl "fetch failed";
     Checker.fetchActiveRegions := inl "fetch failed";
     Checker.fetchRealtimeWind := inl "fetch failed";
     Checker.fetchRealtimeMag := inl "fetch failed" |}.

(** SWPC answers with Kp 3 and no solar wind reading, the real-time feeds
    have no valid entry, DONKI reports one X-class flare, and there are no
    regions. *)
Definition donkiOnly : Checker.Fetches :=
  {| Checker.fetchAllSWPC :=
       inr (Some {| Checker.swpc_kp := 3; Checker.swpc_solarWind := None;
                    Checker.swpc_magneticField := None; Checker.swpc_alerts := [] |});
     Checker.fetchAllDONKI :=
       inr (Some (Donki.fetchAllDONKI []
                    [ {| Donki.flrID := "F1"; Donki.raw_beginTime := "400";
                         Donki.raw_peakTime := None; Donki.raw_endTime := None;
                         Donki.raw_classType := "X1.2";
                         Donki.raw_flareSourceLocation := None;
                         Donki.raw_flareActiveRegionNum := None |} ] [] []));
     Checker.fetchActiveRegions := inr (Some []);
     Checker.fetchRealtimeWind := inr None;
     Checker.fetchRealtimeMag := inr None |}.

(** The state after a run in fast wind and strongly southward field. *)
Definition stormy : CheckerState :=
  {| schemaVersion := 1; lastRunAt := "0";
     lastKp := 6; lastBz := -18; lastWindSpeed := 750; lastWindDensity := 8;
     kpWasAbove5 := true; kpWasAbove7 := false;
     bzWasBelow10 := true; bzWasBelow15 := true;
     windWasAbove600 := true; windWasAbove700 := true;
     densityWasAbove20 := false;
     knownCMEs := []; knownFlareIds := ["F1"]; knownHSSIds := [];
     knownRegionNumbers := []; knownAlertProductIds := [];
     lastCooldowns := ∅; dataHealth := []; alertsSent := [] |}.

End OutageScenario.

Module DispatchScenario.

Definition alertOf (id : string) (urgency : AlertUrgency) (title : string)
  : SpaceWeatherAlert :=
  {| alert_id := id; alert_type := "kp-threshold"; alert_urgency := urgency;
     alert_title := title; alert_body := "Kp index rose.";
     alert_timestamp := "1000"; alert_sourceEventId := None |}.

(** Kp jumps from 4 to 7.3 at two in the morning. *)
Definition nightSevere : Checker.TickInput :=
  {| Checker.in_now := 1000; Checker.in_hour := 2;
     Checker.in_snapshot := Scenario.snapshotOf (73 # 10) [] [];
     Checker.in_activeRegions := []; Checker.in_dataHealth := [] |}.

End DispatchScenario.

Module StoreScenario.

(** A stored document of an older version: no [config.cooldownHours], no
    [schemaVersion]. *)
Definition olderDocument : list (string * Js.val) :=
  [ ("predictions", Js.VArr []);
    ("config", Js.VObj [ ("verificationWindowHours", Js.VNum 24) ]) ].

(** A stored document that holds a configuration only. *)
Definition configOnly : list (string * Js.val) :=
  [ ("config", Js.VObj [ ("verificationWindowHours", Js.VNum 24) ]) ].

(** A prediction as [POST] pushes it. *)
Definition pushed : Js.val :=
  Js.VObj [ ("id", Js.VStr "uuid-1"); ("timestamp", Js.VStr "1000");
            ("note", Js.VNull); ("status", Js.VStr "pending");
            ("verifiedAt", Js.VNull); ("windowHours", Js.VNum 24);
            ("windowEnd", Js.VStr "86401000"); ("matchedEvents", Js.VArr []) ].

End StoreScenario.

(* ===================================================================== *)
(** * Properties                                                          *)
(* ===================================================================== *)

(** ** Number comparisons *)

Lemma geb_true (a b : Q) : Js.geb a b = true <-> (b <= a)%Q.
Proof. unfold Js.geb. apply Qle_bool_iff. Qed.

Lemma geb_false (a b : Q) : Js.geb a b = false <-> ~ (b <= a)%Q.
Proof. rewrite <- geb_true. destruct (Js.geb a b); split; congruence. Qed.

Lemma leb_true (a b : Q) : Js.leb a b = true <-> (a <= b)%Q.
Proof. unfold Js.leb. apply Qle_bool_iff. Qed.

Lemma ltb_true (a b : Q) : Js.ltb a b = true <-> (a < b)%Q.
Proof.
  unfold Js.ltb. rewrite negb_true_iff.
  split.
  - intros E. apply Qnot_le_lt. intros L. apply Qle_bool_iff in L. congruence.
  - intros L. destruct (Qle_bool b a) eqn:E; [|reflexivity].
    apply Qle_bool_iff in E. exfalso. exact (Qlt_not_le _ _ L E).
Qed.

Lemma ltb_false (a b : Q) : Js.ltb a b = false <-> ~ (a < b)%Q.
Proof. rewrite <- ltb_true. destruct (Js.ltb a b); split; congruence. Qed.

(** ** Filtering a list of alerts by type *)

Lemma filter_keep {A} (p : A -> bool) (l : list A) :
  Forall (fun a => p a = true) l -> List.filter p l = l.
Proof.
  induction 1 as [|a l Ha _ IH]; simpl; [reflexivity|].
  rewrite Ha, IH. reflexivity.
Qed.

Lemma filter_drop {A} (p : A -> bool) (l : list A) :
  Forall (fun a => p a = false) l -> List.filter p l = [].
Proof.
  induction 1 as [|a l Ha _ IH]; simpl; [reflexivity|].
  rewrite Ha, IH. reflexivity.
Qed.

Lemma Forall_flat_map_intro {A B} (P : B -> Prop) (f : A -> list B) (l : list A) :
  (forall x, Forall P (f x)) -> Forall P (flat_map f l).
Proof.
  intros Hf. induction l as [|x l IH]; simpl; [constructor|].
  apply Forall_app. split; [apply Hf | exact IH].
Qed.

(** Every rule emits alerts of its own types only. *)
Section RuleTypes.
Context `{Host}.
Variables (cfg : Config) (nowMs : Z) (snapshot : SpaceWeatherSnapshot)
          (activeRegions : list ActiveRegion) (prevState : CheckerState).

Ltac rule_types :=
  repeat match goal with
         | |- context [if ?b then _ else _] => destruct b
         end;
  repeat (apply Forall_app; split);
  repeat first [apply Forall_nil | apply Forall_cons];
  simpl; auto.

Lemma cmeAlerts_types cme :
  Forall (fun a => alert_type a = "cme-earth" \/ alert_type a = "cme-revision")
         (Alerts.cmeAlerts cfg nowMs prevState cme).
Proof. unfold Alerts.cmeAlerts. destruct (find _ _); rule_types. Qed.

Lemma flareAlerts_types flare :
  Forall (fun a => alert_type a = "flare-x" \/ alert_type a = "flare-m")
         (Alerts.flareAlerts cfg nowMs prevState flare).
Proof. unfold Alerts.flareAlerts. rule_types. Qed.

Lemma hssAlerts_types hss :
  Forall (fun a => alert_type a = "hss-arrival")
         (Alerts.hssAlerts cfg nowMs prevState hss).
Proof. unfold Alerts.hssAlerts. rule_types. Qed.

Lemma kpAlerts_types :
  Forall (fun a => alert_type a = "kp-threshold" \/ alert_type a = "kp-elevated")
         (Alerts.kpAlerts cfg nowMs snapshot prevState).
Proof. unfold Alerts.kpAlerts. rule_types. Qed.

Lemma bzAlerts_types :
  Forall (fun a => alert_type a = "bz-threshold")
         (Alerts.bzAlerts cfg nowMs snapshot prevState).
Proof. unfold Alerts.bzAlerts. rule_types. Qed.

Lemma windSpeedAlerts_types :
  Forall (fun a => alert_type a = "wind-speed")
         (Alerts.windSpeedAlerts cfg nowMs snapshot prevState).
Proof. unfold Alerts.windSpeedAlerts. rule_types. Qed.

Lemma densityAlerts_types :
  Forall (fun a => alert_type a = "wind-density")
         (Alerts.densityAlerts nowMs snapshot prevState).
Proof. unfold Alerts.densityAlerts. rule_types. Qed.

Lemma regionAlerts_types region :
  Forall (fun a => alert_type a = "active-region")
         (Alerts.regionAlerts cfg nowMs prevState region).
Proof. unfold Alerts.regionAlerts. rule_types. Qed.

Lemma allClearAlerts_types :
  Forall (fun a => alert_type a = "all-clear")
         (Alerts.allClearAlerts nowMs snapshot prevState).
Proof. unfold Alerts.allClearAlerts. rule_types. Qed.

(** The alerts of the evaluator whose type is in [tys], rule by rule. *)
Lemma filter_evaluateAlerts (tys : list string) :
  List.filter (typeIn tys)
    (Alerts.evaluateAlerts cfg nowMs snapshot activeRegions prevState)
  = (List.filter (typeIn tys)
      (flat_map (Alerts.cmeAlerts cfg nowMs prevState) (snap_earthDirectedCMEs snapshot))
    ++ List.filter (typeIn tys)
         (flat_map (Alerts.flareAlerts cfg nowMs prevState) (snap_recentFlares snapshot))
    ++ List.filter (typeIn tys)
         (flat_map (Alerts.hssAlerts cfg nowMs prevState) (snap_recentHSS snapshot))
    ++ List.filter (typeIn tys) (Alerts.kpAlerts cfg nowMs snapshot prevState)
    ++ List.filter (typeIn tys) (Alerts.bzAlerts cfg nowMs snapshot prevState)
    ++ List.filter (typeIn tys) (Alerts.windSpeedAlerts cfg nowMs snapshot prevState)
    ++ List.filter (typeIn tys) (Alerts.densityAlerts nowMs snapshot prevState)
    ++ List.filter (typeIn tys)
         (if activeRegionAlerts_enabled cfg
          then flat_map (Alerts.regionAlerts cfg nowMs prevState) activeRegions
          else [])
    ++ List.filter (typeIn tys) (Alerts.allClearAlerts nowMs snapshot prevState))%list.
Proof.
  unfold Alerts.evaluateAlerts. rewrite !List.filter_app. reflexivity.
Qed.

End RuleTypes.

Lemma typeIn_drop (tys : list string) (P : SpaceWeatherAlert -> Prop) l :
  Forall P l -> (forall a, P a -> typeIn tys a = false) ->
  List.filter (typeIn tys) l = [].
Proof.
  intros HP Hf. apply filter_drop. eapply Forall_impl; [exact HP | exact Hf].
Qed.

Lemma typeIn_keep (tys : list string) (P : SpaceWeatherAlert -> Prop) l :
  Forall P l -> (forall a, P a -> typeIn tys a = true) ->
  List.filter (typeIn tys) l = l.
Proof.
  intros HP Hf. apply filter_keep. eapply Forall_impl; [exact HP | exact Hf].
Qed.

Ltac by_type :=
  let a := fresh "a" in
  let HT := fresh "HT" in
  intros a HT; unfold typeIn; simpl;
  (repeat destruct HT as [HT | HT]); rewrite HT; reflexivity.

Section EvaluatorByType.
Context `{Host}.
Variables (cfg : Config) (nowMs : Z) (snapshot : SpaceWeatherSnapshot)
          (activeRegions : list ActiveRegion) (prevState : CheckerState).

Ltac split_rules tys :=
  rewrite (filter_evaluateAlerts cfg nowMs snapshot activeRegions prevState tys);
  destruct (activeRegionAlerts_enabled cfg).

Ltac drop_others tys :=
  repeat first
    [ rewrite (typeIn_drop tys _ _
                 (Forall_flat_map_intro _ _ _ (cmeAlerts_types cfg nowMs prevState)))
        by by_type
    | rewrite (typeIn_drop tys _ _
                 (Forall_flat_map_intro _ _ _ (flareAlerts_types cfg nowMs prevState)))
        by by_type
    | rewrite (typeIn_drop tys _ _
                 (Forall_flat_map_intro _ _ _ (hssAlerts_types cfg nowMs prevState)))
        by by_type
    | rewrite (typeIn_drop tys _ _
                 (Forall_flat_map_intro _ _ _ (regionAlerts_types cfg nowMs prevState)))
        by by_type
    | rewrite (typeIn_drop tys _ _ (kpAlerts_types cfg nowMs snapshot prevState))
        by by_type
    | rewrite (typeIn_drop tys _ _ (bzAlerts_types cfg nowMs snapshot prevState))
        by by_type
    | rewrite (typeIn_drop tys _ _ (windSpeedAlerts_types cfg nowMs snapshot prevState))
        by by_type
    | rewrite (typeIn_drop tys _ _ (densityAlerts_types nowMs snapshot prevState))
        by by_type
    | rewrite (typeIn_drop tys _ _ (allClearAlerts_types nowMs snapshot prevState))
        by by_type ].

(** The Kp alerts of a tick are the output of the Kp rule. *)
Lemma evaluateAlerts_kp :
  List.filter (typeIn kpTypes)
    (Alerts.evaluateAlerts cfg nowMs snapshot activeRegions prevState)
  = Alerts.kpAlerts cfg nowMs snapshot prevState.
Proof.
  split_rules kpTypes; drop_others kpTypes;
    rewrite (typeIn_keep kpTypes _ _ (kpAlerts_types cfg nowMs snapshot prevState))
      by by_type;
    simpl; rewrite ?app_nil_r; reflexivity.
Qed.

(** The CME alerts of a tick are the outputs of the CME rule, CME by CME. *)
Lemma evaluateAlerts_cme :
  List.filter (typeIn cmeTypes)
    (Alerts.evaluateAlerts cfg nowMs snapshot activeRegions prevState)
  = flat_map (Alerts.cmeAlerts cfg nowMs prevState) (snap_earthDirectedCMEs snapshot).
Proof.
  split_rules cmeTypes; drop_others cmeTypes;
    rewrite (typeIn_keep cmeTypes _ _
               (Forall_flat_map_intro _ _ _ (cmeAlerts_types cfg nowMs prevState)))
      by by_type;
    simpl; rewrite ?app_nil_r; reflexivity.
Qed.

(** The flare alerts of a tick are the outputs of the flare rule. *)
Lemma evaluateAlerts_flare :
  List.filter (typeIn flareTypes)
    (Alerts.evaluateAlerts cfg nowMs snapshot activeRegions prevState)
  = flat_map (Alerts.flareAlerts cfg nowMs prevState) (snap_recentFlares snapshot).
Proof.
  split_rules flareTypes; drop_others flareTypes;
    rewrite (typeIn_keep flareTypes _ _
               (Forall_flat_map_intro _ _ _ (flareAlerts_types cfg nowMs prevState)))
      by by_type;
    simpl; rewrite ?app_nil_r; reflexivity.
Qed.

End EvaluatorByType.

(* ===================================================================== *)
(** ** The evaluator's rules                                              *)
(* ===================================================================== *)

(** C5.  On one tick the evaluator emits at most one Kp alert (an alert
    of type kp-threshold or kp-elevated), chosen by the highest matching
    branch: Kp >= 7 with the previous Kp below 7 gives kp-threshold at
    critical urgency; else Kp >= 5 with the previous Kp below 5 gives
    kp-threshold at high urgency; else Kp >= 4 with the previous Kp below 4
    gives kp-elevated at info urgency; when no branch matches there is no
    Kp alert. *)
Theorem kp_alert_highest_branch `{Host} (cfg : Config) (nowMs : Z)
    (snapshot : SpaceWeatherSnapshot) (activeRegions : list ActiveRegion)
    (prevState : CheckerState) :
  let kp := snap_kp snapshot in
  let prevKp := lastKp prevState in
  let emitted :=
    List.filter (typeIn kpTypes)
      (Alerts.evaluateAlerts cfg nowMs snapshot activeRegions prevState) in
  let crosses (t : Q) := (t <= kp)%Q /\ (prevKp < t)%Q in
  (length emitted <= 1)%nat
  /\ (crosses 7%Q ->
      exists a, emitted = [a] /\ alert_type a = "kp-threshold"
                /\ alert_urgency a = critical)
  /\ (~ crosses 7%Q -> crosses 5%Q ->
      exists a, emitted = [a] /\ alert_type a = "kp-threshold"
                /\ alert_urgency a = high)
  /\ (~ crosses 7%Q -> ~ crosses 5%Q -> crosses 4%Q ->
      exists a, emitted = [a] /\ alert_type a = "kp-elevated"
                /\ alert_urgency a = info)
  /\ (~ crosses 7%Q -> ~ crosses 5%Q -> ~ crosses 4%Q -> emitted = []).
Proof.
  intros kp prevKp emitted crosses. subst emitted.
  rewrite evaluateAlerts_kp. unfold Alerts.kpAlerts. fold kp prevKp.
  assert (Hc : forall t, Js.geb kp t && Js.ltb prevKp t = true <-> crosses t).
  { intros t. unfold crosses. rewrite andb_true_iff, geb_true, ltb_true. tauto. }
  destruct (Js.geb kp 7 && Js.ltb prevKp 7) eqn:E7.
  { apply Hc in E7. repeat split; simpl; try lia; try tauto. eauto. }
  assert (N7 : ~ crosses 7%Q) by (rewrite <- Hc, E7; discriminate).
  destruct (Js.geb kp 5 && Js.ltb prevKp 5) eqn:E5.
  { apply Hc in E5. repeat split; simpl; try lia; try tauto. eauto. }
  assert (N5 : ~ crosses 5%Q) by (rewrite <- Hc, E5; discriminate).
  destruct (Js.geb kp 4 && Js.ltb prevKp 4) eqn:E4.
  { apply Hc in E4. repeat split; simpl; try lia; try tauto. eauto. }
  assert (N4 : ~ crosses 4%Q) by (rewrite <- Hc, E4; discriminate).
  repeat split; simpl; try lia; tauto.
Qed.

(** Kp rises from 4 to 5.3: one kp-threshold alert at high urgency. *)
Lemma kp_alert_highest_branch_witness :
  exists a,
    List.filter (typeIn kpTypes)
      (Alerts.evaluateAlerts (H := RefHost.host) CONFIG 1000
         (Scenario.snapshotOf (53 # 10) [] []) [] Scenario.afterKp4) = [a]
    /\ alert_type a = "kp-threshold" /\ alert_urgency a = high.
Proof.
  refine (proj1 (proj2 (proj2
            (kp_alert_highest_branch (H := RefHost.host) CONFIG 1000
               (Scenario.snapshotOf (53 # 10) [] []) [] Scenario.afterKp4))) _ _).
  - intros [L _]. revert L. unfold Qle. simpl. lia.
  - split; [unfold Qle | unfold Qlt]; simpl; lia.
Defined.

(** [find] by identifier, against membership of the identifier. *)
Lemma find_known_id (cid : string) (ks : list KnownCME) :
  match find (fun k => String.eqb (known_id k) cid) ks with
  | Some k => known_id k = cid /\ In cid (map known_id ks)
  | None => ~ In cid (map known_id ks)
  end.
Proof.
  induction ks as [|k ks IH]; simpl; [tauto|].
  destruct (String.eqb_spec (known_id k) cid) as [E|N]; [auto|].
  destruct (find _ ks); intuition congruence.
Qed.

Lemma urgency_by_kp (q : Q) :
  let u := if Js.geb q 7 then critical else high in
  (u = critical <-> (7 <= q)%Q) /\ (u = high <-> ~ (7 <= q)%Q).
Proof.
  simpl. destruct (Js.geb q 7) eqn:E.
  - apply geb_true in E. split; split; intros; try reflexivity; try tauto; discriminate.
  - apply geb_false in E. split; split; intros; try reflexivity; try tauto; discriminate.
Qed.

(** C2.  For every Earth-directed CME [c] of the snapshot: when [c.id] is
    not among the known CMEs of the previous state, the evaluator emits
    exactly one cme-earth alert for it, critical iff its predicted Kp
    (missing read as 0) is >= 7 and high otherwise; when [c.id] is known,
    it emits a cme-revision alert iff the predicted Kp rose by at least
    [cmeRevision.kpJump] (2 as shipped) over the known one and is >= 5,
    critical iff the new Kp is >= 7 and high otherwise, and no alert for
    a downward or smaller revision or one that ends below Kp 5.  These are
    all the cme-earth and cme-revision alerts of the tick. *)
Theorem cme_alert_rules `{Host} (cfg : Config) (nowMs : Z)
    (snapshot : SpaceWeatherSnapshot) (activeRegions : list ActiveRegion)
    (prevState : CheckerState) :
  List.filter (typeIn cmeTypes)
    (Alerts.evaluateAlerts cfg nowMs snapshot activeRegions prevState)
  = flat_map (Alerts.cmeAlerts cfg nowMs prevState) (snap_earthDirectedCMEs snapshot)
  /\ cmeRevision_kpJump CONFIG = 2%Q
  /\ forall c : CME,
      let newKp := default 0%Q (cme_predictedKp c) in
      let emitted := Alerts.cmeAlerts cfg nowMs prevState c in
      (~ In (cme_id c) (map known_id (knownCMEs prevState)) ->
       exists a, emitted = [a] /\ alert_type a = "cme-earth"
                 /\ alert_sourceEventId a = Some (cme_id c)
                 /\ (alert_urgency a = critical <-> (7 <= newKp)%Q)
                 /\ (alert_urgency a = high <-> ~ (7 <= newKp)%Q))
      /\ (In (cme_id c) (map known_id (knownCMEs prevState)) ->
          exists known,
            find (fun k => String.eqb (known_id k) (cme_id c)) (knownCMEs prevState)
            = Some known
            /\ known_id known = cme_id c
            /\ let oldKp := default 0%Q (known_predictedKp known) in
               let revised :=
                 (cmeRevision_kpJump cfg <= newKp - oldKp)%Q /\ (5 <= newKp)%Q in
               (revised ->
                exists a, emitted = [a] /\ alert_type a = "cme-revision"
                          /\ alert_sourceEventId a = Some (cme_id c)
                          /\ (alert_urgency a = critical <-> (7 <= newKp)%Q)
                          /\ (alert_urgency a = high <-> ~ (7 <= newKp)%Q))
               /\ (~ revised -> emitted = [])).
Proof.
  split; [apply evaluateAlerts_cme|]. split; [reflexivity|].
  intros c newKp emitted. subst emitted. unfold Alerts.cmeAlerts.
  pose proof (find_known_id (cme_id c) (knownCMEs prevState)) as Hfind.
  destruct (find _ (knownCMEs prevState)) as [known|].
  - destruct Hfind as [Hid Hin]. split; [tauto|]. intros _.
    exists known. split; [reflexivity|]. split; [exact Hid|].
    fold newKp. cbv zeta.
    set (oldKp := default 0%Q (known_predictedKp known)).
    destruct (Js.geb (newKp - oldKp) (cmeRevision_kpJump cfg) && Js.geb newKp 5) eqn:E.
    + apply andb_true_iff in E. rewrite !geb_true in E. split; [|tauto].
      intros _. eexists. split; [reflexivity|]. simpl.
      split; [reflexivity|]. split; [reflexivity|]. apply urgency_by_kp.
    + split; [|reflexivity].
      intros [R1 R2]. apply geb_true in R1. apply geb_true in R2.
      rewrite R1, R2 in E. discriminate.
  - split; [|tauto]. intros _. fold newKp.
    eexists. split; [reflexivity|]. simpl.
    split; [reflexivity|]. split; [reflexivity|]. apply urgency_by_kp.
Qed.

(** CME X1 is known with a predicted Kp of 8 and is now predicted at 10:
    one cme-revision alert at critical urgency. *)
Lemma cme_alert_rules_witness :
  exists a,
    Alerts.cmeAlerts (H := RefHost.host) CONFIG 1000 Scenario.knowsX1
      (Scenario.cmeOf "X1" (Some 10%Q)) = [a]
    /\ alert_type a = "cme-revision" /\ alert_urgency a = critical.
Proof.
  destruct (proj2 (proj2
              (cme_alert_rules (H := RefHost.host) CONFIG 1000
                 (Scenario.snapshotOf 0 [Scenario.cmeOf "X1" (Some 10%Q)] [])
                 [] Scenario.knowsX1))
              (Scenario.cmeOf "X1" (Some 10%Q))) as [_ Hknown].
  destruct Hknown as (known & Hfind & _ & Hrev & _); [simpl; auto|].
  injection Hfind as <-.
  destruct Hrev as (a & Ha & Hty & _ & Hcrit & _).
  { split; unfold Qle; simpl; lia. }
  exists a. split; [exact Ha|]. split; [exact Hty|].
  apply Hcrit. unfold Qle. simpl. lia.
Defined.

(** C3, as the code has it.  For every flare of the snapshot whose id is
    not among the known flare ids of the previous state, the evaluator
    reads the class letter as the first character of [classType], without
    case conversion, and emits a flare-x alert at critical urgency when it
    is [X], a flare-m alert at high urgency when it is [M], and nothing for
    any other letter; a flare whose id is known gives no alert.  These are
    all the flare-x and flare-m alerts of the tick. *)
Theorem flare_alert_rules `{Host} (cfg : Config) (nowMs : Z)
    (snapshot : SpaceWeatherSnapshot) (activeRegions : list ActiveRegion)
    (prevState : CheckerState) :
  List.filter (typeIn flareTypes)
    (Alerts.evaluateAlerts cfg nowMs snapshot activeRegions prevState)
  = flat_map (Alerts.flareAlerts cfg nowMs prevState) (snap_recentFlares snapshot)
  /\ forall f : SolarFlare,
      let letter := Js.charAt0 (flare_classType f) in
      let emitted := Alerts.flareAlerts cfg nowMs prevState f in
      (In (flare_id f) (knownFlareIds prevState) -> emitted = [])
      /\ (~ In (flare_id f) (knownFlareIds prevState) -> letter = "X" ->
          exists a, emitted = [a] /\ alert_type a = "flare-x"
                    /\ alert_urgency a = critical
                    /\ alert_sourceEventId a = Some (flare_id f))
      /\ (~ In (flare_id f) (knownFlareIds prevState) -> letter = "M" ->
          exists a, emitted = [a] /\ alert_type a = "flare-m"
                    /\ alert_urgency a = high
                    /\ alert_sourceEventId a = Some (flare_id f))
      /\ (letter <> "X" -> letter <> "M" -> emitted = []).
Proof.
  split; [apply evaluateAlerts_flare|].
  intros f letter emitted. subst emitted. unfold Alerts.flareAlerts. fold letter.
  assert (Hknown : existsb (String.eqb (flare_id f)) (knownFlareIds prevState) = true
                   <-> In (flare_id f) (knownFlareIds prevState)).
  { rewrite existsb_exists. split.
    - intros (x & Hin & E). apply String.eqb_eq in E. subst x. exact Hin.
    - intros Hin. exists (flare_id f). split; [exact Hin | apply String.eqb_refl]. }
  destruct (existsb _ _).
  { assert (Hin : In (flare_id f) (knownFlareIds prevState))
      by (apply Hknown; reflexivity).
    repeat split; try tauto; reflexivity. }
  assert (N : ~ In (flare_id f) (knownFlareIds prevState)).
  { intros Hin. apply Hknown in Hin. discriminate. }
  destruct (String.eqb_spec letter "X") as [EX|NX].
  { repeat split; try tauto.
    - intros _ _. eexists. repeat split.
    - intros _ EM. rewrite EX in EM. discriminate. }
  destruct (String.eqb_spec letter "M") as [EM|NM].
  { repeat split; try tauto. intros _ _. eexists. repeat split. }
  repeat split; tauto.
Qed.

(** A new flare of class M2.1: one flare-m alert at high urgency. *)
Lemma flare_alert_rules_witness :
  exists a,
    Alerts.flareAlerts (H := RefHost.host) CONFIG 1000 Scenario.emptyState
      (Scenario.flareOf "F1" "M2.1" "500") = [a]
    /\ alert_type a = "flare-m" /\ alert_urgency a = high.
Proof.
  destruct (proj2 (flare_alert_rules (H := RefHost.host) CONFIG 1000
                     (Scenario.snapshotOf 0 [] [Scenario.flareOf "F1" "M2.1" "500"])
                     [] Scenario.emptyState)
              (Scenario.flareOf "F1" "M2.1" "500")) as (_ & _ & HM & _).
  destruct HM as (a & Ha & Hty & Hu & _); [simpl; tauto | reflexivity |].
  exists a. auto.
Defined.

(** C3 as stated fails on a lower-case class: for the new flare "x9.3" the
    upper-cased letter is [X], so the sentence asks for a flare-x alert,
    and the evaluator emits no flare alert at all. *)
Lemma flare_uppercase_counterexample :
  let f := Scenario.flareOf "F2" "x9.3" "500" in
  let snapshot := Scenario.snapshotOf 0 [] [f] in
  ~ In (flare_id f) (knownFlareIds Scenario.emptyState)
  /\ claimedFlareLetter (flare_classType f) = "X"
  /\ Alerts.flareAlerts (H := RefHost.host) CONFIG 1000 Scenario.emptyState f = []
  /\ List.filter (typeIn flareTypes)
       (Alerts.evaluateAlerts (H := RefHost.host) CONFIG 1000 snapshot []
          Scenario.emptyState) = [].
Proof.
  cbv zeta. split; [simpl; tauto|]. split; [reflexivity|].
  split; [reflexivity|]. rewrite evaluateAlerts_flare. reflexivity.
Qed.

(* ===================================================================== *)
(** ** Quiet hours                                                        *)
(* ===================================================================== *)

Lemma isQuietHours_spec (cfg : Config) (hour : Z) :
  Notify.isQuietHours cfg hour = true
  <-> qh_enabled (quietHours cfg) = true
      /\ inQuietWindow (qh_start (quietHours cfg)) (qh_end (quietHours cfg)) hour.
Proof.
  unfold Notify.isQuietHours, inQuietWindow.
  destruct (qh_enabled (quietHours cfg)); simpl.
  - destruct (Z.gtb_spec (qh_start (quietHours cfg)) (qh_end (quietHours cfg))).
    + rewrite orb_true_iff, Z.geb_le, Z.ltb_lt. intuition lia.
    + rewrite andb_true_iff, Z.geb_le, Z.ltb_lt. intuition lia.
  - intuition discriminate.
Qed.

Lemma urgency_eqb_spec (a b : AlertUrgency) : urgency_eqb a b = true <-> a = b.
Proof. destruct a, b; simpl; split; congruence. Qed.

(** The calls of [dispatchAlert] for a list of channels are the delivery
    to these channels. *)
Lemma sendVia_delivers (alert : SpaceWeatherAlert) (chs : list string) :
  deliversTo alert chs (flat_map (Notify.sendVia alert) chs).
Proof.
  induction chs as [|ch chs IH]; [constructor|].
  cbn [flat_map]. unfold Notify.sendVia at 1.
  destruct (String.eqb_spec ch "signal") as [->|Ns]; [constructor; exact IH|].
  destruct (String.eqb_spec ch "desktop") as [->|Nd]; [constructor; exact IH|].
  constructor; assumption.
Qed.

(** C6.  [dispatchAlert] delivers a non-critical alert to the channels of
    its urgency iff quiet hours are disabled or the local hour is outside
    the configured window (start inclusive, end exclusive, wrapping
    overnight when start > end); a critical alert is always delivered; so
    a non-critical alert is not dispatched while quiet hours are enabled
    and the hour is inside the window.  Delivering is one Signal message
    for each "signal" and one desktop notification for each "desktop" of
    the channel list, in its order; with the shipped routing these are
    Signal and then the desktop for critical and high urgency, and the
    desktop for moderate and info. *)
Theorem quiet_hours_dispatch (cfg : Config) (hour : Z) (alert : SpaceWeatherAlert) :
  let qh := quietHours cfg in
  let inside := inQuietWindow (qh_start qh) (qh_end qh) hour in
  let delivered (c : Config) :=
    exists sends,
      Notify.dispatchAlert c hour alert = Some sends
      /\ deliversTo alert (channels c (alert_urgency alert)) sends in
  (alert_urgency alert = critical -> delivered cfg)
  /\ (alert_urgency alert <> critical ->
      (delivered cfg <-> qh_enabled qh = false \/ ~ inside))
  /\ (alert_urgency alert <> critical -> qh_enabled qh = true -> inside ->
      Notify.dispatchAlert cfg hour alert = None)
  /\ (forall sends,
        Notify.dispatchAlert CONFIG hour alert = Some sends ->
        delivered CONFIG
        /\ sends
           = match alert_urgency alert with
             | critical | high =>
                 [Notify.sendSignalMessage alert; Notify.sendDesktopNotification alert]
             | moderate | info => [Notify.sendDesktopNotification alert]
             end).
Proof.
  intros qh inside delivered.
  assert (Hiff : forall c,
            delivered c
            <-> Notify.dispatchAlert c hour alert
                = Some (flat_map (Notify.sendVia alert)
                          (channels c (alert_urgency alert)))).
  { intros c. subst delivered. cbv beta. split.
    - intros (sends & Hs & _). unfold Notify.dispatchAlert in Hs |- *.
      destruct (_ && _); [discriminate Hs | reflexivity].
    - intros Hs. eexists. split; [exact Hs | apply sendVia_delivers]. }
  assert (Hshipped : forall sends,
            Notify.dispatchAlert CONFIG hour alert = Some sends ->
            delivered CONFIG
            /\ sends
               = match alert_urgency alert with
                 | critical | high =>
                     [Notify.sendSignalMessage alert;
                      Notify.sendDesktopNotification alert]
                 | moderate | info => [Notify.sendDesktopNotification alert]
                 end).
  { intros sends Hs. unfold Notify.dispatchAlert in Hs.
    split.
    - apply Hiff. unfold Notify.dispatchAlert.
      destruct (_ && _); [discriminate Hs | reflexivity].
    - destruct (_ && _); [discriminate Hs|].
      injection Hs as <-. destruct (alert_urgency alert); reflexivity. }
  clearbody delivered.
  split; [|split; [|split; [|exact Hshipped]]]; rewrite ?Hiff; clear Hiff Hshipped;
    unfold Notify.dispatchAlert;
    pose proof (isQuietHours_spec cfg hour) as Hq; fold qh in Hq; fold inside in Hq;
    pose proof (urgency_eqb_spec (alert_urgency alert) critical) as Hu.
  - intros Hc. apply Hu in Hc. rewrite Hc. reflexivity.
  - intros NC.
    destruct (urgency_eqb (alert_urgency alert) critical);
      [exfalso; apply NC, Hu; reflexivity|]. cbn [negb andb].
    destruct (Notify.isQuietHours cfg hour).
    + assert (qh_enabled qh = true /\ inside) as [He Hi] by (apply Hq; reflexivity).
      split; [discriminate|]. intros [D | D]; [congruence | tauto].
    + split; [|reflexivity]. intros _.
      destruct (qh_enabled qh) eqn:He; [right | left; reflexivity].
      intros Hi. assert (false = true) by (apply Hq; auto). discriminate.
  - intros NC He Hi.
    destruct (urgency_eqb (alert_urgency alert) critical);
      [exfalso; apply NC, Hu; reflexivity|]. cbn [negb andb].
    assert (E : Notify.isQuietHours cfg hour = true) by (apply Hq; auto).
    rewrite E. reflexivity.
Qed.

(** With the shipped window 23 to 7: at 02:00 a high-urgency alert is
    suppressed; at noon it goes to Signal and to the desktop. *)
Lemma quiet_hours_dispatch_witness :
  let alert :=
    {| alert_id := "kp-cross-5-0"; alert_type := "kp-threshold";
       alert_urgency := high; alert_title := "Kp 5.3"; alert_body := "";
       alert_timestamp := "0"; alert_sourceEventId := None |} in
  Notify.dispatchAlert CONFIG 2 alert = None
  /\ Notify.dispatchAlert CONFIG 12 alert
     = Some [Notify.sendSignalMessage alert; Notify.sendDesktopNotification alert].
Proof.
  cbv zeta. split.
  - refine (proj1 (proj2 (proj2 (quiet_hours_dispatch CONFIG 2 _))) _ _ _).
    + simpl. discriminate.
    + reflexivity.
    + left. simpl. lia.
  - match goal with
    | |- Notify.dispatchAlert CONFIG 12 ?a = _ =>
        destruct (proj2 (proj2 (proj2 (quiet_hours_dispatch CONFIG 12 a)))
                    (flat_map (Notify.sendVia a) (channels CONFIG high)) eq_refl)
          as [_ Hsends]
    end.
    exact (f_equal Some Hsends).
Defined.

(* ===================================================================== *)
(** ** Persistence                                                        *)
(* ===================================================================== *)

(** *** What [JSON.stringify] writes *)

Lemma serialize_array (xs : list Js.val) :
  Js.serialize (Js.VArr xs)
  = Some (Js.VArr (map (fun x => default Js.VNull (Js.serialize x)) xs)).
Proof. reflexivity. Qed.

Lemma serialize_array_map {A} (enc doc : A -> Js.val) (l : list A) :
  (forall x, Js.serialize (enc x) = Some (doc x)) ->
  Js.serialize (Js.VArr (enc <$> l)) = Some (Js.VArr (doc <$> l)).
Proof.
  intros Hx. rewrite serialize_array.
  enough (E : map (fun x => default Js.VNull (Js.serialize x)) (enc <$> l) = doc <$> l)
    by (rewrite E; reflexivity).
  induction l as [|x l IH]; [reflexivity|].
  cbn [fmap list_fmap map]. rewrite Hx. simpl. f_equal. exact IH.
Qed.

Lemma serialize_alert a : Js.serialize (State.alertToJS a) = Some (State.alertToJS a).
Proof. unfold State.alertToJS. destruct (alert_sourceEventId a); reflexivity. Qed.

Lemma serialize_health d : Js.serialize (State.healthToJS d) = Some (healthDoc d).
Proof. unfold State.healthToJS, healthDoc. destruct (dh_lastError d); reflexivity. Qed.

Lemma serialize_knownCME k :
  Js.serialize (State.knownCMEToJS k) = Some (State.knownCMEToJS k).
Proof.
  unfold State.knownCMEToJS.
  destruct (known_predictedKp k), (known_predictedArrival k); reflexivity.
Qed.

Lemma serialize_record (m : gmap string string) :
  Js.serialize (State.recordToJS m) = Some (State.recordToJS m).
Proof.
  unfold State.recordToJS. generalize (map_to_list m). intros l.
  induction l as [|[k v] l IH]; [reflexivity|].
  cbn [fmap list_fmap fst snd] in *. cbn [Js.serialize] in *.
  injection IH as IH. rewrite IH. reflexivity.
Qed.

Lemma serialize_object (ps ds : list (string * Js.val)) :
  Forall2 (fun p d => fst p = fst d /\ Js.serialize (snd p) = Some (snd d)) ps ds ->
  Js.serialize (Js.VObj ps) = Some (Js.VObj ds).
Proof.
  intros HF.
  enough (E : Js.serialize (Js.VObj ps) = Some (Js.VObj ds)) by exact E.
  induction HF as [|[k v] [k' d] ps ds [Hk Hv] _ IH]; [reflexivity|].
  simpl in Hk, Hv. subst k'.
  cbn [Js.serialize] in *. rewrite Hv.
  injection IH as IH. rewrite IH. reflexivity.
Qed.

(** The document written for a state. *)
Lemma serialize_state (s : CheckerState) :
  Js.serialize (State.toJS s) = Some (State.stateObject healthDoc s).
Proof.
  unfold State.toJS, State.stateObject.
  apply serialize_object.
  repeat match goal with |- Forall2 _ _ _ => constructor end;
    (split; [reflexivity|]); cbn [snd];
    first [ apply (serialize_array_map _ _ _ serialize_knownCME)
          | apply (serialize_array_map _ _ _ serialize_alert)
          | apply (serialize_array_map _ _ _ serialize_health)
          | apply (serialize_array_map Js.VStr Js.VStr); reflexivity
          | apply (serialize_array_map Js.VNum Js.VNum); reflexivity
          | apply serialize_record
          | reflexivity ].
Qed.

(** *** Spreading a complete document over the defaults *)

Lemma setProp_fresh (k : string) (v b : Js.val) (pre rest : list (string * Js.val)) :
  ~ In k (map fst pre) ->
  Js.setProp k v (pre ++ (k, b) :: rest)%list = (pre ++ (k, v) :: rest)%list.
Proof.
  induction pre as [|[k' v'] pre IH]; simpl; intros Hk.
  - rewrite String.eqb_refl. reflexivity.
  - destruct (String.eqb_spec k' k) as [E|N]; [exfalso; auto|].
    rewrite IH by tauto. reflexivity.
Qed.

Lemma spread_overwrites (src pre rest : list (string * Js.val)) :
  map fst rest = map fst src ->
  NoDup (map fst pre ++ map fst src)%list ->
  fold_left (fun acc kv => Js.setProp (fst kv) (snd kv) acc) src (pre ++ rest)%list
  = (pre ++ src)%list.
Proof.
  revert pre rest.
  induction src as [|[k v] src IH]; intros pre rest Hkeys Hnd.
  - destruct rest; [reflexivity | discriminate].
  - destruct rest as [|[k' b] rest]; [discriminate|].
    simpl in Hkeys. injection Hkeys as -> Hkeys.
    cbn [fold_left fst snd].
    rewrite setProp_fresh.
    + replace (pre ++ (k, v) :: rest)%list with ((pre ++ [(k, v)]) ++ rest)%list
        by (rewrite <- app_assoc; reflexivity).
      rewrite IH.
      * rewrite <- app_assoc. reflexivity.
      * exact Hkeys.
      * rewrite map_app. simpl. rewrite <- app_assoc. exact Hnd.
    + simpl in Hnd. apply NoDup_app in Hnd as (_ & Hdis & _).
      intros Hin. apply (Hdis k); [apply list_elem_of_In; exact Hin | left].
Qed.

(** A document that has every key of the base, in the same order, replaces
    the base altogether. *)
Lemma spread_same_keys (base src : list (string * Js.val)) :
  map fst base = map fst src -> NoDup (map fst src) ->
  Js.spread base (Js.VObj src) = src.
Proof.
  intros Hk Hnd. unfold Js.spread. simpl.
  apply (spread_overwrites src [] base Hk Hnd).
Qed.

(** *** Reading the document back at its type *)

Lemma asArray_map {A} (dec : Js.val -> option A) (enc : A -> Js.val) (l : list A) :
  (forall x, dec (enc x) = Some x) ->
  State.asArray dec (Js.VArr (enc <$> l)) = Some l.
Proof. intros Hx. unfold State.asArray. apply mapM_fmap_Some. exact Hx. Qed.

Lemma asUrgency_name u : State.asUrgency (Js.VStr (urgencyName u)) = Some u.
Proof. destruct u; reflexivity. Qed.

Lemma alertFromJS_toJS a : State.alertFromJS (State.alertToJS a) = Some a.
Proof.
  destruct a as [i t [] ti b ts [e|]]; reflexivity.
Qed.

Lemma healthFromJS_doc d : State.healthFromJS (healthDoc d) = Some d.
Proof. destruct d as [s o l [e|]]; reflexivity. Qed.

Lemma knownCMEFromJS_toJS k : State.knownCMEFromJS (State.knownCMEToJS k) = Some k.
Proof. destruct k as [i [kp|] [arr|]]; reflexivity. Qed.

Lemma asRecord_toJS (m : gmap string string) :
  State.asRecord (State.recordToJS m) = Some m.
Proof.
  unfold State.asRecord, State.recordToJS.
  rewrite mapM_fmap_Some by (intros [k v]; reflexivity).
  simpl. f_equal. apply list_to_map_to_list.
Qed.

Lemma fromJS_stateObject (s : CheckerState) :
  State.fromJS (State.stateObject healthDoc s) = Some s.
Proof.
  destruct s. unfold State.fromJS, State.stateObject.
  cbn -[State.asArray State.asRecord].
  rewrite !(asArray_map _ _ _ knownCMEFromJS_toJS).
  rewrite !(asArray_map _ _ _ alertFromJS_toJS).
  rewrite !(asArray_map _ _ _ healthFromJS_doc).
  rewrite !(asArray_map State.asStr Js.VStr) by reflexivity.
  rewrite !(asArray_map State.asNum Js.VNum) by reflexivity.
  rewrite asRecord_toJS.
  reflexivity.
Qed.

Lemma stateKeys_NoDup : NoDup stateKeys.
Proof. apply (bool_decide_unpack _). vm_compute. reflexivity. Qed.

Section Persistence.
Context `{Host}.

(** Loading the document of a state gives that document: the defaults
    add nothing to it. *)
Lemma spread_state_document (s : CheckerState) :
  Js.VObj (Js.spread State.DEFAULT_STATE (State.stateObject healthDoc s))
  = State.stateObject healthDoc s.
Proof.
  unfold State.stateObject. apply (f_equal Js.VObj).
  apply spread_same_keys; [reflexivity | exact stateKeys_NoDup].
Qed.

Lemma lookup_renamed (src dst : string) (t : Js.text) (fs : gmap string Js.text) :
  State.renameSync src dst (<[src := t]> fs) !! dst = Some t.
Proof.
  unfold State.renameSync. rewrite lookup_insert_eq. apply lookup_insert_eq.
Qed.

(** What [saveState] returns and writes. *)
Lemma saveState_eq (cfg : Config) (pid : Z) (state : CheckerState)
      (fs : gmap string Js.text) :
  let saved :=
    State.with_alertsSent
      (Js.slice_from (- maxAlertHistory cfg) (alertsSent state)) state in
  State.saveState cfg pid state fs
  = (saved,
     State.renameSync (State.tmpPath pid) State.STATE_PATH
       (<[State.tmpPath pid := Js.Json (State.stateObject healthDoc saved)]> fs)).
Proof.
  intros saved. unfold State.saveState. fold saved.
  unfold Js.JSON_stringify. rewrite serialize_state. reflexivity.
Qed.

(** After [saveState], [loadState] reads the saved state back. *)
Lemma load_after_save (cfg : Config) (pid : Z) (state : CheckerState)
      (fs : gmap string Js.text) :
  State.fromJS (State.loadState (State.saveState cfg pid state fs).2)
  = Some (State.saveState cfg pid state fs).1.
Proof.
  rewrite saveState_eq. cbn [fst snd].
  unfold State.loadState. rewrite lookup_renamed. cbn [Js.JSON_parse].
  rewrite spread_state_document. apply fromJS_stateObject.
Qed.

End Persistence.

(** C8.  For every checker state, [saveState] caps [alertsSent] to the
    last [maxAlertHistory] entries and writes the serialized state, and a
    following [loadState] gives a state equal by value to the one saved:
    the written document, parsed and spread over the defaults, is that
    document, and read at the type of the state it is the saved state. *)
Theorem save_load_roundtrip `{Host} (cfg : Config) (pid : Z) (state : CheckerState)
    (fs : gmap string Js.text) :
  let saved := (State.saveState cfg pid state fs).1 in
  let fs' := (State.saveState cfg pid state fs).2 in
  saved = State.with_alertsSent
            (Js.slice_from (- maxAlertHistory cfg) (alertsSent state)) state
  /\ (exists doc,
        Js.JSON_stringify (State.toJS saved) = Some (Js.Json doc)
        /\ fs' !! State.STATE_PATH = Some (Js.Json doc)
        /\ State.loadState fs' = doc)
  /\ State.fromJS (State.loadState fs') = Some saved.
Proof.
  intros saved fs'. subst saved fs'.
  split; [rewrite saveState_eq; reflexivity|].
  split; [|apply load_after_save].
  rewrite saveState_eq. cbn [fst snd].
  eexists. split; [unfold Js.JSON_stringify; rewrite serialize_state; reflexivity|].
  split; [apply lookup_renamed|].
  unfold State.loadState. rewrite lookup_renamed. cbn [Js.JSON_parse].
  apply spread_state_document.
Qed.

(** A state after one run, with a health entry that has no error and one
    that has: both are read back. *)
Lemma save_load_roundtrip_witness :
  let state :=
    State.with_alertsSent
      [ {| alert_id := "kp-cross-5-1000"; alert_type := "kp-threshold";
           alert_urgency := high; alert_title := "Kp 5.3"; alert_body := "";
           alert_timestamp := "1000"; alert_sourceEventId := None |} ]
      {| schemaVersion := 1; lastRunAt := "1000";
         lastKp := 53 # 10; lastBz := - (123 # 10);
         lastWindSpeed := 0; lastWindDensity := 0;
         kpWasAbove5 := true; kpWasAbove7 := false;
         bzWasBelow10 := true; bzWasBelow15 := false;
         windWasAbove600 := false; windWasAbove700 := false;
         densityWasAbove20 := false;
         knownCMEs := [ {| known_id := "X1"; known_predictedKp := None;
                           known_predictedArrival := Some "64801000" |} ];
         knownFlareIds := ["F1"]; knownHSSIds := [];
         knownRegionNumbers := [4321%Q]; knownAlertProductIds := [];
         lastCooldowns := {[ "kp-threshold" := "1000" ]};
         dataHealth :=
           [ {| dh_source := "swpc"; dh_ok := true; dh_lastSuccess := "1000";
                dh_lastError := None |};
             {| dh_source := "donki"; dh_ok := false; dh_lastSuccess := "0";
                dh_lastError := Some "timeout" |} ];
         alertsSent := [] |} in
  State.fromJS
    (State.loadState (H := RefHost.host)
       (State.saveState CONFIG 77 state ∅).2)
  = Some state.
Proof.
  cbv zeta.
  exact (proj2 (proj2 (save_load_roundtrip (H := RefHost.host) CONFIG 77 _ ∅))).
Defined.

(** *** The lockfile *)

Lemma releaseLock_cases (pid : Z) (fs : gmap string Js.text) :
  (lockNames pid fs /\ State.releaseLock pid fs = delete State.LOCK_PATH fs)
  \/ (~ lockNames pid fs /\ State.releaseLock pid fs = fs).
Proof.
  unfold State.releaseLock, lockNames.
  destruct (fs !! State.LOCK_PATH) as [raw|] eqn:Hfile.
  2:{ right. split; [|reflexivity]. intros (? & ? & ? & [=] & _). }
  destruct (Js.JSON_parse raw) as [lock|] eqn:Hparse.
  2:{ right. split; [|reflexivity].
      intros (? & ? & ? & [= <-] & Hp & _). congruence. }
  assert (Hother : forall v, Js.getProp lock "pid" = v -> (forall q, v <> Js.VNum q) ->
            ~ (exists raw0 lock0 q,
                 Some raw = Some raw0 /\ Js.JSON_parse raw0 = Some lock0
                 /\ Js.getProp lock0 "pid" = Js.VNum q /\ (q == inject_Z pid)%Q)).
  { intros v Hget Hv (? & ? & q & [= <-] & Hp & Hq & _).
    rewrite Hparse in Hp. injection Hp as <-. apply (Hv q). congruence. }
  destruct lock as [| |b|n|str|xs|props];
    try (right; split; [apply (Hother _ eq_refl); discriminate | reflexivity]).
  destruct (Js.getProp (Js.VObj props) "pid") as [| |b|q|str|xs|ps] eqn:Hget;
    try (right; split; [apply (Hother _ eq_refl); discriminate | reflexivity]).
  destruct (Qeq_bool q (inject_Z pid)) eqn:Eq.
  - left. split; [|reflexivity].
    exists raw, (Js.VObj props), q. repeat split; auto. apply Qeq_bool_iff. exact Eq.
  - right. split; [|reflexivity].
    intros (? & ? & q' & [= <-] & Hp & Hq & Heq).
    rewrite Hparse in Hp. injection Hp as <-.
    rewrite Hget in Hq. injection Hq as <-.
    apply Qeq_bool_iff in Heq. congruence.
Qed.

(** C9.  [releaseLock] removes the lockfile only when it exists, parses as
    JSON and records the pid of the calling process; when it is absent,
    does not parse, or records something else, the lockfile and every
    other file stay as they are. *)
Theorem releaseLock_owner_only (pid : Z) (fs : gmap string Js.text) :
  (lockNames pid fs -> State.releaseLock pid fs = delete State.LOCK_PATH fs)
  /\ (~ lockNames pid fs -> State.releaseLock pid fs = fs)
  /\ (fs !! State.LOCK_PATH = None -> State.releaseLock pid fs = fs)
  /\ (forall raw, fs !! State.LOCK_PATH = Some (Js.Garbled raw) ->
      State.releaseLock pid fs = fs)
  /\ (forall lock, fs !! State.LOCK_PATH = Some (Js.Json lock) ->
      (forall q, Js.getProp lock "pid" = Js.VNum q -> ~ (q == inject_Z pid)%Q) ->
      State.releaseLock pid fs = fs)
  /\ (forall path, path <> State.LOCK_PATH ->
      State.releaseLock pid fs !! path = fs !! path).
Proof.
  pose proof (releaseLock_cases pid fs) as Hc.
  assert (Hkeep : ~ lockNames pid fs -> State.releaseLock pid fs = fs)
    by (destruct Hc as [[Y _]|[_ E]]; tauto).
  split; [destruct Hc as [[_ E]|[N _]]; tauto|].
  split; [exact Hkeep|].
  split.
  { intros Hfile. apply Hkeep. intros (? & ? & ? & Hf & _). congruence. }
  split.
  { intros raw Hfile. apply Hkeep.
    intros (? & ? & ? & Hf & Hp & _). rewrite Hfile in Hf.
    injection Hf as <-. discriminate Hp. }
  split.
  { intros lock Hfile Hpid. apply Hkeep.
    intros (? & ? & q & Hf & Hp & Hq & Heq). rewrite Hfile in Hf.
    injection Hf as <-. injection Hp as <-. exact (Hpid q Hq Heq). }
  intros path Hne.
  destruct Hc as [[_ E]|[_ E]]; rewrite E; [|reflexivity].
  apply lookup_delete_ne. congruence.
Qed.

(** Process 4242 holds the lock: its own release removes the lockfile, a
    release by process 7 leaves it. *)
Lemma releaseLock_owner_only_witness :
  let fs := (State.acquireLock (H := RefHost.host) CONFIG (fun _ => false)
               4242 "host" 1000 ∅).2 in
  State.releaseLock 4242 fs = delete State.LOCK_PATH fs
  /\ State.releaseLock 7 fs = fs.
Proof.
  cbv zeta. split.
  - apply (proj1 (releaseLock_owner_only 4242 _)).
    eexists _, _, _. repeat split; try reflexivity.
  - apply (proj1 (proj2 (releaseLock_owner_only 7 _))).
    intros (raw & lock & q & Hf & Hp & Hq & Heq).
    vm_compute in Hf. injection Hf as <-. injection Hp as <-.
    injection Hq as <-. vm_compute in Heq. discriminate Heq.
Defined.

(* ===================================================================== *)
(** ** Cooldowns across runs of the checker                               *)
(* ===================================================================== *)

Section Cooldowns.
Context `{Host}.
Variable cfg : Config.

Lemma isCoolingDown_spec (nowMs : Z) (ty : string) (state : CheckerState) :
  State.isCoolingDown cfg nowMs ty state = true
  <-> exists c lastSent,
        cooldowns cfg !! ty = Some c /\ c <> 0
        /\ lastCooldowns state !! ty = Some lastSent /\ lastSent <> ""
        /\ nowMs - getTime lastSent < c * 60 * 1000.
Proof.
  unfold State.isCoolingDown.
  destruct (cooldowns cfg !! ty) as [c|].
  2:{ split; [discriminate | intros (? & ? & [=] & _)]. }
  destruct (Z.eqb_spec c 0) as [E|N].
  { split; [discriminate | intros (? & ? & [= <-] & N & _); tauto]. }
  destruct (lastCooldowns state !! ty) as [lastSent|].
  2:{ split; [discriminate | intros (? & ? & _ & _ & [=] & _)]. }
  destruct (String.eqb_spec lastSent "") as [E|Ne].
  { split; [discriminate | intros (? & ? & _ & _ & [= <-] & Ne & _); tauto]. }
  rewrite Z.ltb_lt. split.
  - intros L. exists c, lastSent. auto.
  - intros (? & ? & [= <-] & _ & [= <-] & _ & L). exact L.
Qed.

Lemma alertsToSend_spec (i : Checker.TickInput) (state : CheckerState) a :
  In a (Checker.alertsToSend cfg i state)
  <-> In a (Alerts.evaluateAlerts cfg (Checker.in_now i) (Checker.in_snapshot i)
              (Checker.in_activeRegions i) state)
      /\ State.isCoolingDown cfg (Checker.in_now i) (alert_type a) state = false.
Proof.
  unfold Checker.alertsToSend. rewrite List.filter_In, negb_true_iff. reflexivity.
Qed.

(** Recording the cooldowns of a list of alerts. *)
Lemma recordCooldowns_lookup (nowMs : Z) (l : list SpaceWeatherAlert)
      (state : CheckerState) (ty : string) :
  lastCooldowns
    (fold_left (fun st alert => State.recordCooldown nowMs (alert_type alert) st) l state)
  !! ty
  = if bool_decide (ty ∈ alert_type <$> l) then Some (toISOString nowMs)
    else lastCooldowns state !! ty.
Proof.
  revert state. induction l as [|a l IH]; intros state; [reflexivity|].
  cbn [fold_left fmap list_fmap]. rewrite IH.
  cbn [State.recordCooldown State.with_lastCooldowns lastCooldowns].
  destruct (bool_decide_reflect (ty ∈ alert_type <$> l)) as [Hin|Hnin].
  - rewrite bool_decide_eq_true_2 by (right; exact Hin). reflexivity.
  - destruct (decide (alert_type a = ty)) as [E|N].
    + rewrite bool_decide_eq_true_2 by (rewrite E; left).
      rewrite E. apply lookup_insert_eq.
    + rewrite bool_decide_eq_false_2
        by (rewrite elem_of_cons; intros [E|E]; [congruence | tauto]).
      apply lookup_insert_ne. exact N.
Qed.

Lemma recordCooldowns_alertsSent (nowMs : Z) (l : list SpaceWeatherAlert)
      (state : CheckerState) :
  alertsSent
    (fold_left (fun st alert => State.recordCooldown nowMs (alert_type alert) st) l state)
  = alertsSent state.
Proof.
  revert state. induction l as [|a l IH]; intros state; [reflexivity|].
  cbn [fold_left]. rewrite IH. reflexivity.
Qed.

(** The output of a run, field by field. *)
Lemma tick_eq (pid : Z) (i : Checker.TickInput) (state : CheckerState)
      (fs : gmap string Js.text) :
  Checker.out_sent (Checker.tick cfg pid i state fs) = Checker.alertsToSend cfg i state
  /\ Checker.out_state (Checker.tick cfg pid i state fs)
     = (State.saveState cfg pid (Checker.updateState cfg i state) fs).1
  /\ Checker.out_fs (Checker.tick cfg pid i state fs)
     = (State.saveState cfg pid (Checker.updateState cfg i state) fs).2.
Proof.
  unfold Checker.tick.
  destruct (State.saveState cfg pid (Checker.updateState cfg i state) fs).
  auto.
Qed.

Lemma tick_lastCooldowns (pid : Z) (i : Checker.TickInput) (state : CheckerState)
      (fs : gmap string Js.text) (ty : string) :
  lastCooldowns (Checker.out_state (Checker.tick cfg pid i state fs)) !! ty
  = if bool_decide (ty ∈ alert_type <$> Checker.alertsToSend cfg i state)
    then Some (toISOString (Checker.in_now i))
    else lastCooldowns state !! ty.
Proof.
  destruct (tick_eq pid i state fs) as (_ & -> & _).
  rewrite saveState_eq. cbn [fst State.with_alertsSent lastCooldowns Checker.updateState].
  apply recordCooldowns_lookup.
Qed.

Lemma tick_alertsSent (pid : Z) (i : Checker.TickInput) (state : CheckerState)
      (fs : gmap string Js.text) :
  alertsSent (Checker.out_state (Checker.tick cfg pid i state fs))
  = Js.slice_from (- maxAlertHistory cfg)
      (alertsSent state ++ Checker.alertsToSend cfg i state).
Proof.
  destruct (tick_eq pid i state fs) as (_ & -> & _).
  rewrite saveState_eq. cbn [fst State.with_alertsSent alertsSent Checker.updateState].
  rewrite recordCooldowns_alertsSent. reflexivity.
Qed.

Lemma tick_reload (pid : Z) (i : Checker.TickInput) (state : CheckerState)
      (fs : gmap string Js.text) :
  State.fromJS (State.loadState (Checker.out_fs (Checker.tick cfg pid i state fs)))
  = Some (Checker.out_state (Checker.tick cfg pid i state fs)).
Proof.
  destruct (tick_eq pid i state fs) as (_ & -> & ->). apply load_after_save.
Qed.

End Cooldowns.

Section Runs.
Context `{Host}.
Variables (cfg : Config) (pid : Z).

Lemma runs_runsFrom (inputs : list Checker.TickInput) :
  forall state fs,
    State.fromJS (State.loadState fs) = Some state ->
    Checker.runs cfg pid inputs fs = Some (runsFrom cfg pid inputs state fs).
Proof.
  induction inputs as [|i rest IH]; intros state fs Hload; [reflexivity|].
  cbn [Checker.runs runsFrom]. rewrite Hload. cbn [mbind option_bind].
  rewrite (IH _ _ (tick_reload cfg pid i state fs)). reflexivity.
Qed.

Lemma runsFrom_length (inputs : list Checker.TickInput) :
  forall state fs, length (runsFrom cfg pid inputs state fs) = length inputs.
Proof.
  induction inputs as [|i rest IH]; intros state fs; [reflexivity|].
  cbn [runsFrom length]. rewrite IH. reflexivity.
Qed.

(** An alert that passes the filter comes a full cooldown after every
    covered emission of its type. *)
Lemma passes_after_cooldown (i : Checker.TickInput) (state : CheckerState)
      (emitted : list (string * Z)) b t c :
  covers cfg state emitted ->
  In b (Checker.alertsToSend cfg i state) ->
  In (alert_type b, t) emitted ->
  cooldowns cfg !! alert_type b = Some c -> 0 < c ->
  c * 60 * 1000 <= Checker.in_now i - t.
Proof.
  intros Hcov Hb Hin Hc Hpos.
  destruct (Hcov _ _ _ Hin Hc Hpos) as (lastSent & Hlast & Hle).
  apply alertsToSend_spec in Hb as [_ Hcool].
  destruct (Z.lt_ge_cases (Checker.in_now i - lastSent) (c * 60 * 1000)) as [L|G];
    [|lia].
  assert (Htrue : State.isCoolingDown cfg (Checker.in_now i) (alert_type b) state = true).
  { apply isCoolingDown_spec. exists c, (toISOString lastSent).
    rewrite getTime_toISOString.
    repeat split; auto; [lia | apply toISOString_nonempty]. }
  congruence.
Qed.

Lemma covers_after_tick (i : Checker.TickInput) (state : CheckerState)
      (fs : gmap string Js.text) (emitted : list (string * Z)) :
  covers cfg state emitted ->
  covers cfg (Checker.out_state (Checker.tick cfg pid i state fs))
         (emitted
          ++ map (fun a => (alert_type a, Checker.in_now i))
                 (Checker.alertsToSend cfg i state)).
Proof.
  intros Hcov ty t c Hin Hc Hpos.
  rewrite tick_lastCooldowns.
  destruct (bool_decide_reflect
              (ty ∈ alert_type <$> Checker.alertsToSend cfg i state)) as [Hty|Hty].
  - exists (Checker.in_now i). split; [reflexivity|].
    apply in_app_or in Hin as [Hold|Hnew].
    + apply list_elem_of_fmap in Hty as (b & -> & Hb).
      apply list_elem_of_In in Hb.
      pose proof (passes_after_cooldown i state emitted b t c Hcov Hb Hold Hc Hpos).
      lia.
    + apply in_map_iff in Hnew as (a & [= _ <-] & _). lia.
  - apply in_app_or in Hin as [Hold|Hnew].
    + exact (Hcov _ _ _ Hold Hc Hpos).
    + exfalso. apply Hty.
      apply in_map_iff in Hnew as (a & [= <- _] & Ha).
      apply list_elem_of_fmap. exists a. split; [reflexivity|].
      apply list_elem_of_In. exact Ha.
Qed.

Lemma runsFrom_separated (inputs : list Checker.TickInput) :
  forall state fs emitted,
    covers cfg state emitted ->
    (forall j tj sj b t c,
        runsFrom cfg pid inputs state fs !! j = Some (tj, sj) ->
        In b sj -> In (alert_type b, t) emitted ->
        cooldowns cfg !! alert_type b = Some c -> 0 < c ->
        c * 60 * 1000 <= tj - t)
    /\ (forall (i j : nat) ti tj si sj a b c,
           (i < j)%nat ->
           runsFrom cfg pid inputs state fs !! i = Some (ti, si) ->
           runsFrom cfg pid inputs state fs !! j = Some (tj, sj) ->
           In a si -> In b sj -> alert_type a = alert_type b ->
           cooldowns cfg !! alert_type a = Some c -> 0 < c ->
           c * 60 * 1000 <= tj - ti).
Proof.
  induction inputs as [|x rest IH]; intros state fs emitted Hcov.
  { split; intros; cbn [runsFrom] in *; discriminate. }
  cbn [runsFrom].
  destruct (tick_eq cfg pid x state fs) as (Hsent & _ & _).
  pose proof (covers_after_tick x state fs emitted Hcov) as Hcov'.
  remember (Checker.tick cfg pid x state fs) as out eqn:Hout.
  destruct (IH _ (Checker.out_fs out) _ Hcov') as [IH1 IH2].
  split.
  - intros [|j] tj sj b t c Hj Hb Hin Hc Hpos.
    + cbn in Hj. injection Hj as <- <-. rewrite Hsent in Hb.
      exact (passes_after_cooldown x state emitted b t c Hcov Hb Hin Hc Hpos).
    + cbn in Hj. apply (IH1 j tj sj b t c Hj Hb); auto.
      apply in_or_app. left. exact Hin.
  - intros [|i] [|j] ti tj si sj a b c Hlt Hi Hj Ha Hb Hty Hc Hpos; try lia.
    + cbn in Hi, Hj. injection Hi as <- <-. rewrite Hsent in Ha.
      apply (IH1 j tj sj b (Checker.in_now x) c Hj Hb); auto.
      * apply in_or_app. right. apply in_map_iff. exists a.
        split; [rewrite Hty; reflexivity | exact Ha].
      * rewrite <- Hty. exact Hc.
    + cbn in Hi, Hj. apply (IH2 i j ti tj si sj a b c); auto. lia.
Qed.

End Runs.

(** A second crossing of Kp 5 one hour after the first is suppressed by
    the 180-minute cooldown of kp-threshold; the all-clear in between goes
    out. *)
Example second_crossing_suppressed :
  (fun log => map (fun e => (fst e, map alert_id (snd e))) log)
    <$> Checker.runs (H := RefHost.host) CONFIG 77 CooldownScenario.stormAgainSoon ∅
  = Some [ (1000, ["kp-cross-5-1000"]);
           (1801000, ["all-clear-kp5-1801000"]);
           (3601000, []) ].
Proof. vm_compute. reflexivity. Qed.

(** C4, as the code has it.  A candidate alert is dropped iff its type has
    a non-zero cooldown [c], [lastCooldowns] has a non-empty entry for the
    type, and [now] minus that entry is below [c] minutes; a cooldown of 0
    never suppresses; every alert that passes the filter sets
    [lastCooldowns] of its type to the time of its run.  Hence, for a type
    with a positive cooldown [c], two alerts of that type that pass the
    filter in different runs of the checker are at least [c] minutes
    apart.  (Within one run the candidates of a type are all tested against
    the same entry, so they pass or are dropped together.) *)
Theorem cooldown_separation `{Host} (cfg : Config) (pid : Z) :
  (forall nowMs ty state,
      State.isCoolingDown cfg nowMs ty state = true
      <-> exists c lastSent,
            cooldowns cfg !! ty = Some c /\ c <> 0
            /\ lastCooldowns state !! ty = Some lastSent /\ lastSent <> ""
            /\ nowMs - getTime lastSent < c * 60 * 1000)
  /\ (forall nowMs ty state,
         cooldowns cfg !! ty = Some 0 ->
         State.isCoolingDown cfg nowMs ty state = false)
  /\ (forall i state a,
         In a (Checker.alertsToSend cfg i state)
         <-> In a (Alerts.evaluateAlerts cfg (Checker.in_now i) (Checker.in_snapshot i)
                     (Checker.in_activeRegions i) state)
             /\ State.isCoolingDown cfg (Checker.in_now i) (alert_type a) state = false)
  /\ (forall i state fs a,
         In a (Checker.out_sent (Checker.tick cfg pid i state fs)) ->
         lastCooldowns (Checker.out_state (Checker.tick cfg pid i state fs))
         !! alert_type a
         = Some (toISOString (Checker.in_now i)))
  /\ (forall inputs fs,
         is_Some (State.fromJS (State.loadState fs)) ->
         exists log, Checker.runs cfg pid inputs fs = Some log
                     /\ length log = length inputs)
  /\ (forall inputs fs log,
         Checker.runs cfg pid inputs fs = Some log ->
         forall (i j : nat) ti tj si sj a b c,
           (i < j)%nat ->
           log !! i = Some (ti, si) -> log !! j = Some (tj, sj) ->
           In a si -> In b sj -> alert_type a = alert_type b ->
           cooldowns cfg !! alert_type a = Some c -> 0 < c ->
           c * 60 * 1000 <= tj - ti).
Proof.
  split; [apply isCoolingDown_spec|].
  split.
  { intros nowMs ty state Hc. unfold State.isCoolingDown. rewrite Hc. reflexivity. }
  split; [apply alertsToSend_spec|].
  split.
  { intros i state fs a Ha. rewrite tick_lastCooldowns.
    destruct (tick_eq cfg pid i state fs) as (Hsent & _ & _). rewrite Hsent in Ha.
    rewrite bool_decide_eq_true_2; [reflexivity|].
    apply list_elem_of_fmap. exists a. split; [reflexivity|].
    apply list_elem_of_In. exact Ha. }
  split.
  { intros inputs fs [state Hload]. exists (runsFrom cfg pid inputs state fs).
    split; [apply runs_runsFrom; exact Hload | apply runsFrom_length]. }
  intros inputs fs log Hruns.
  destruct inputs as [|x rest].
  { injection Hruns as <-. intros; discriminate. }
  destruct (State.fromJS (State.loadState fs)) as [state|] eqn:Hload.
  2:{ cbn [Checker.runs] in Hruns. rewrite Hload in Hruns. discriminate Hruns. }
  rewrite (runs_runsFrom cfg pid _ _ _ Hload) in Hruns. injection Hruns as <-.
  apply (runsFrom_separated cfg pid (x :: rest) state fs []).
  intros ty t c [].
Qed.

(** Kp crosses 5 on the first run and again 200 minutes later: both
    kp-threshold alerts pass the filter, 180 minutes or more apart. *)
Lemma cooldown_separation_witness :
  exists log a b,
    Checker.runs (H := RefHost.host) CONFIG 77 CooldownScenario.stormTwice ∅ = Some log
    /\ log !! 0%nat = Some (1000, [a])
    /\ log !! 2%nat = Some (12001000, [b])
    /\ alert_type a = "kp-threshold" /\ alert_type b = "kp-threshold"
    /\ 180 * 60 * 1000 <= 12001000 - 1000.
Proof.
  eexists _, _, _.
  split; [vm_compute; reflexivity|].
  split; [reflexivity|]. split; [reflexivity|].
  split; [reflexivity|]. split; [reflexivity|].
  refine (proj2 (proj2 (proj2 (proj2 (proj2
            (cooldown_separation (H := RefHost.host) CONFIG 77)))))
            CooldownScenario.stormTwice ∅ _ _ 0%nat 2%nat _ _ _ _ _ _ 180 _ _ _ _ _ _ _ _).
  - vm_compute. reflexivity.
  - lia.
  - reflexivity.
  - reflexivity.
  - left. reflexivity.
  - left. reflexivity.
  - reflexivity.
  - reflexivity.
  - lia.
Defined.

(** C4 as stated fails inside one run: two new M-class flares give two
    flare-m alerts, the type has a cooldown of 60 minutes, both pass the
    filter, and they carry the same timestamp. *)
Lemma cooldown_same_run_counterexample :
  exists a b,
    Checker.alertsToSend (H := RefHost.host) CONFIG CooldownScenario.twoFlares
      Scenario.emptyState = [a; b]
    /\ alert_id a = "flare-F1" /\ alert_id b = "flare-F2"
    /\ alert_type a = "flare-m" /\ alert_type b = "flare-m"
    /\ cooldowns CONFIG !! "flare-m" = Some 60
    /\ @getTime RefHost.host (alert_timestamp b)
       - @getTime RefHost.host (alert_timestamp a) = 0.
Proof.
  eexists _, _. split; [vm_compute; reflexivity|].
  split; [reflexivity|]. split; [reflexivity|].
  split; [reflexivity|]. split; [reflexivity|].
  split; vm_compute; reflexivity.
Qed.

(* ===================================================================== *)
(** ** What a run records of the alerts it sends                          *)
(* ===================================================================== *)

(** The cap keeps a tail that is no longer than the cap. *)
Lemma slice_keeps_tail {A} (n : Z) (l1 l2 : list A) (a : A) :
  In a l2 -> Z.of_nat (length l2) <= n ->
  In a (Js.slice_from (- n) (l1 ++ l2)).
Proof.
  intros Hin Hlen. unfold Js.slice_from. rewrite length_app.
  apply list_elem_of_In.
  destruct (Z.ltb_spec (- n) 0) as [L|G].
  - rewrite drop_app.
    apply elem_of_app. right.
    replace (Z.to_nat (Z.max (Z.of_nat (length l1 + length l2) + - n) 0) - length l1)%nat
      with 0%nat by lia.
    rewrite drop_0. apply list_elem_of_In. exact Hin.
  - assert (length l2 = 0%nat) by lia.
    destruct l2; [destruct Hin | discriminate].
Qed.

(** C10, as the code has it.  In a run, every candidate alert that passes
    the cooldown filter has [lastCooldowns] of its type set to the time of
    the run and is appended to [alertsSent], whatever the hour and the
    outcome of its dispatch: the state and the file written do not depend
    on the local hour, and an alert suppressed by quiet hours is recorded
    like any other.  [saveState] then keeps the last [maxAlertHistory]
    entries of [alertsSent]; the alert is in the persisted history, which
    the next [loadState] reads back, whenever at most [maxAlertHistory]
    alerts passed the filter in the run. *)
Theorem sent_alerts_recorded `{Host} (cfg : Config) (pid : Z)
    (i : Checker.TickInput) (state : CheckerState) (fs : gmap string Js.text) :
  let out := Checker.tick cfg pid i state fs in
  let history := (alertsSent state ++ Checker.out_sent out)%list in
  alertsSent (Checker.out_state out) = Js.slice_from (- maxAlertHistory cfg) history
  /\ State.fromJS (State.loadState (Checker.out_fs out)) = Some (Checker.out_state out)
  /\ (forall hour,
         let out' := Checker.tick cfg pid (withHour hour i) state fs in
         Checker.out_sent out' = Checker.out_sent out
         /\ Checker.out_state out' = Checker.out_state out
         /\ Checker.out_fs out' = Checker.out_fs out)
  /\ forall a,
      In a (Checker.out_sent out) ->
      lastCooldowns (Checker.out_state out) !! alert_type a
      = Some (toISOString (Checker.in_now i))
      /\ In a history
      /\ (Z.of_nat (length (Checker.out_sent out)) <= maxAlertHistory cfg ->
          In a (alertsSent (Checker.out_state out)))
      /\ (alert_urgency a <> critical ->
          Notify.isQuietHours cfg (Checker.in_hour i) = true ->
          Notify.dispatchAlert cfg (Checker.in_hour i) a = None
          /\ lastCooldowns (Checker.out_state out) !! alert_type a
             = Some (toISOString (Checker.in_now i))).
Proof.
  intros out history. subst out history.
  destruct (tick_eq cfg pid i state fs) as (Hsent & Hstate & Hfs).
  assert (Hcool : forall a,
             In a (Checker.out_sent (Checker.tick cfg pid i state fs)) ->
             lastCooldowns (Checker.out_state (Checker.tick cfg pid i state fs))
             !! alert_type a = Some (toISOString (Checker.in_now i))).
  { intros a Ha. rewrite tick_lastCooldowns. rewrite Hsent in Ha.
    rewrite bool_decide_eq_true_2; [reflexivity|].
    apply list_elem_of_fmap. exists a. split; [reflexivity|].
    apply list_elem_of_In. exact Ha. }
  split; [rewrite tick_alertsSent, Hsent; reflexivity|].
  split; [apply tick_reload|].
  split.
  { intros hour. cbv zeta.
    destruct (tick_eq cfg pid (withHour hour i) state fs) as (Hsent' & Hstate' & Hfs').
    rewrite Hsent', Hstate', Hfs', Hsent, Hstate, Hfs. auto. }
  intros a Ha.
  split; [exact (Hcool a Ha)|].
  split; [apply in_or_app; right; exact Ha|].
  split.
  { intros Hlen. rewrite tick_alertsSent. rewrite Hsent in Ha, Hlen.
    apply slice_keeps_tail; assumption. }
  intros Hu Hq. split; [|exact (Hcool a Ha)].
  unfold Notify.dispatchAlert. rewrite Hq.
  destruct (urgency_eqb (alert_urgency a) critical) eqn:E; [|reflexivity].
  apply urgency_eqb_spec in E. contradiction.
Qed.

(** The high-urgency Kp alert of a run at 02:00 is suppressed by quiet
    hours, starts the cooldown of kp-threshold and is in the saved
    history. *)
Lemma sent_alerts_recorded_witness :
  let out := Checker.tick (H := RefHost.host) CONFIG 77 HistoryScenario.nightStorm
               Scenario.emptyState ∅ in
  exists a,
    Checker.out_sent out = [a]
    /\ alert_type a = "kp-threshold" /\ alert_urgency a = high
    /\ Checker.out_dispatch out = [(a, None)]
    /\ lastCooldowns (Checker.out_state out) !! "kp-threshold" = Some "1000"
    /\ In a (alertsSent (Checker.out_state out)).
Proof.
  cbv zeta. eexists.
  split; [vm_compute; reflexivity|].
  split; [reflexivity|]. split; [reflexivity|].
  split; [vm_compute; reflexivity|].
  match goal with
  | |- _ /\ In ?a _ =>
      assert (Hin : In a (Checker.out_sent
                            (Checker.tick (H := RefHost.host) CONFIG 77
                               HistoryScenario.nightStorm Scenario.emptyState ∅)))
        by (vm_compute; left; reflexivity);
      destruct (proj2 (proj2 (proj2
                  (sent_alerts_recorded (H := RefHost.host) CONFIG 77
                     HistoryScenario.nightStorm Scenario.emptyState ∅))) a Hin)
        as (Hcool & _ & Hkept & _)
  end.
  split; [exact Hcool|].
  apply Hkept. vm_compute. discriminate.
Defined.

(** C10 as stated fails when more than [maxAlertHistory] alerts pass the
    filter in one run: of 101 flare-x alerts the first starts the cooldown
    of its type like the others, and is not among the 100 alerts of the
    saved history. *)
Lemma history_cap_counterexample :
  let out := Checker.tick (H := RefHost.host) CONFIG 77 HistoryScenario.manyFlares
               Scenario.emptyState ∅ in
  exists a,
    head (Checker.out_sent out) = Some a
    /\ alert_id a = "flare-F0"
    /\ length (Checker.out_sent out) = 101%nat
    /\ lastCooldowns (Checker.out_state out) !! alert_type a = Some "1000"
    /\ length (alertsSent (Checker.out_state out)) = 100%nat
    /\ existsb (fun b => String.eqb (alert_id b) (alert_id a))
               (alertsSent (Checker.out_state out)) = false
    /\ State.fromJS (State.loadState (H := RefHost.host) (Checker.out_fs out))
       = Some (Checker.out_state out).
Proof.
  cbv zeta. eexists.
  split; [vm_compute; reflexivity|].
  split; [vm_compute; reflexivity|].
  split; [vm_compute; reflexivity|].
  split; [vm_compute; reflexivity|].
  split; [vm_compute; reflexivity|].
  split; [vm_compute; reflexivity|].
  apply (tick_reload (H := RefHost.host)).
Qed.

(* ===================================================================== *)
(** ** Submitting a prediction                                            *)
(* ===================================================================== *)


(** The cap of [savePredictions] keeps the newest prediction. *)
Lemma savePredictions_last (state : PredictionState) (p : Prediction) :
  0 <= maxPredictions (config state) ->
  last (predictions
          (savePredictions (with_predictions (predictions state ++ [p]) state)))
  = Some p.
Proof.
  intros Hmax. unfold savePredictions.
  cbn [with_predictions predictions config].
  destruct (Z.gtb_spec (Z.of_nat (length (predictions state ++ [p])))
                       (maxPredictions (config state))) as [G|L].
  2:{ apply last_snoc. }
  cbn [with_predictions predictions]. unfold Js.slice_from.
  rewrite length_app in *. cbn [length] in *.
  set (k := Z.to_nat _).
  assert (Hk : (k <= length (predictions state))%nat).
  { subst k. destruct (Z.ltb_spec (- maxPredictions (config state)) 0); lia. }
  rewrite drop_app_le by exact Hk. apply last_snoc.
Qed.


Lemma noteOf_read `{Host} (request : Route.Request) :
  ~ nullBody request ->
  exists note,
    Route.noteOf (default (Js.VObj []) (Route.req_json request)) = Some note.
Proof.
  unfold nullBody. intros N.
  destruct (Route.req_json request) as [[| |b|q|t|xs|props]|];
    cbn [default Route.noteOf]; try (eexists; reflexivity);
    exfalso; apply N; auto.
Qed.




(* ===================================================================== *)
(** ** Verifying predictions                                              *)
(* ===================================================================== *)

(** The key under which [findMatchingEvents] remembers an event stands
    for the pair of its type and its timestamp. *)
Lemma eventKey_inj (t t' : EventType) (ts ts' : string) :
  Verify.eventKey t ts = Verify.eventKey t' ts' -> t = t' /\ ts = ts'.
Proof.
  unfold Verify.eventKey. intros E.
  destruct t, t'; simpl in E; try discriminate E; injection E as E; auto.
Qed.

Section MatchedEvents.
Context `{Host}.
Variables (start end_ : Z).

Lemma outside_within (t : Z) : Verify.outside start end_ t = negb (within start end_ t).
Proof.
  unfold Verify.outside, within.
  destruct (Z.ltb_spec t start), (Z.gtb_spec t end_),
           (Z.leb_spec start t), (Z.leb_spec t end_); simpl; try reflexivity; lia.
Qed.

Lemma fold_omap {A} (step : Verify.Acc -> A -> Verify.Acc)
      (event : A -> option MatchedEvent) (l : list A) :
  (forall acc x, step acc x = match event x with
                              | Some e => pushEvent acc e
                              | None => acc
                              end) ->
  forall acc, fold_left step l acc = fold_left pushEvent (omap event l) acc.
Proof.
  intros Hstep. induction l as [|x l IH]; intros acc; [reflexivity|].
  cbn [fold_left omap list_omap]. rewrite Hstep.
  destruct (event x); cbn [fold_left]; apply IH.
Qed.

(** The chain of tests of [findMatchingEvents] on the type of an alert
    reads the table of the significant alerts. *)
Lemma classifyAlert_significant alert :
  Verify.classifyAlert alert
  = snd <$> find (fun entry => String.eqb (alert_type alert) entry.1) significantAlerts.
Proof.
  unfold Verify.classifyAlert, significantAlerts. cbn [find fst snd].
  repeat match goal with
         | |- context [String.eqb (alert_type alert) ?t] =>
             destruct (String.eqb (alert_type alert) t); cbn [orb fmap option_fmap option_map]
         end; reflexivity.
Qed.

Lemma alertStep_event acc alert :
  Verify.alertStep start end_ acc alert
  = match alertEvent start end_ alert with Some e => pushEvent acc e | None => acc end.
Proof.
  unfold Verify.alertStep, alertEvent. rewrite outside_within.
  destruct (within _ _ _); cbn [negb]; [|reflexivity].
  rewrite classifyAlert_significant.
  destruct (find _ significantAlerts) as [[name ty]|]; reflexivity.
Qed.

Lemma flareStep_event acc flare :
  Verify.flareStep start end_ acc flare
  = match flareEvent start end_ flare with Some e => pushEvent acc e | None => acc end.
Proof.
  unfold Verify.flareStep, flareEvent. rewrite outside_within.
  destruct (within _ _ _); cbn [negb andb]; [|reflexivity].
  destruct (_ || _); reflexivity.
Qed.

Lemma stormStep_event acc storm :
  Verify.stormStep start end_ acc storm
  = match stormEvent start end_ storm with Some e => pushEvent acc e | None => acc end.
Proof.
  unfold Verify.stormStep, stormEvent. rewrite outside_within.
  destruct (within _ _ _); cbn [negb andb]; [|reflexivity].
  destruct (Js.geb _ _); reflexivity.
Qed.

Lemma cmeStep_event acc cme :
  Verify.cmeStep start end_ acc cme
  = match cmeEvent start end_ cme with Some e => pushEvent acc e | None => acc end.
Proof.
  unfold Verify.cmeStep, cmeEvent. rewrite outside_within.
  destruct (within _ _ _); reflexivity.
Qed.

End MatchedEvents.

Lemma fold_pushEvent_dedup (events : list MatchedEvent) :
  forall (seenKeys : gset string) (kept : list MatchedEvent)
         (seen : list (EventType * string)),
    (forall t ts, Verify.eventKey t ts ∈ seenKeys <-> (t, ts) ∈ seen) ->
    (fold_left pushEvent events (seenKeys, kept)).2 = (kept ++ dedup seen events)%list.
Proof.
  induction events as [|e rest IH]; intros seenKeys kept seen Hseen.
  { cbn. rewrite app_nil_r. reflexivity. }
  cbn [fold_left dedup]. unfold pushEvent at 2. unfold Verify.pushOnce. cbn [fst snd].
  destruct (bool_decide_reflect
              (Verify.eventKey (ev_type e) (ev_timestamp e) ∈ seenKeys)) as [Hin|Hnin].
  - rewrite bool_decide_eq_true_2 by (apply Hseen; exact Hin).
    apply IH. exact Hseen.
  - rewrite bool_decide_eq_false_2 by (rewrite <- Hseen; exact Hnin).
    rewrite (IH _ _ ((ev_type e, ev_timestamp e) :: seen)).
    + rewrite <- app_assoc. reflexivity.
    + intros t ts. rewrite elem_of_union, elem_of_singleton, elem_of_cons, Hseen.
      split; (intros [E|E]; [left|right; exact E]).
      * apply eventKey_inj in E as [-> ->]. reflexivity.
      * injection E as -> ->. reflexivity.
Qed.

Lemma dedup_subset seen events e : In e (dedup seen events) -> In e events.
Proof.
  revert seen. induction events as [|x rest IH]; intros seen; cbn [dedup]; [tauto|].
  destruct (bool_decide _); cbn [In]; intros Hin.
  - right. exact (IH _ Hin).
  - destruct Hin as [E|Hin]; [left; exact E | right; exact (IH _ Hin)].
Qed.

Lemma dedup_nil events : dedup [] events = [] <-> events = [].
Proof.
  destruct events as [|e rest]; [tauto|].
  cbn [dedup]. rewrite bool_decide_eq_false_2 by apply not_elem_of_nil.
  split; discriminate.
Qed.

(** After deduplication no pair (type, timestamp) occurs twice, and every
    pair of the input that was not seen before still occurs. *)
Lemma dedup_keys seen events :
  NoDup ((fun e => (ev_type e, ev_timestamp e)) <$> dedup seen events)
  /\ (forall e, e ∈ dedup seen events -> (ev_type e, ev_timestamp e) ∉ seen)
  /\ (forall e, e ∈ events ->
        (ev_type e, ev_timestamp e) ∈ seen
        \/ exists e', e' ∈ dedup seen events
                      /\ ev_type e' = ev_type e /\ ev_timestamp e' = ev_timestamp e).
Proof.
  revert seen. induction events as [|x rest IH]; intros seen; cbn [dedup].
  { split; [constructor|]. split; intros e Hin; inversion Hin. }
  destruct (bool_decide_reflect ((ev_type x, ev_timestamp x) ∈ seen)) as [Hin|Hnin].
  - destruct (IH seen) as (Hnd & Hfresh & Hcov).
    split; [exact Hnd|]. split; [exact Hfresh|].
    intros e He. apply elem_of_cons in He as [->|He]; [left; exact Hin | auto].
  - destruct (IH ((ev_type x, ev_timestamp x) :: seen)) as (Hnd & Hfresh & Hcov).
    split.
    { cbn [fmap list_fmap]. constructor; [|exact Hnd].
      intros Hdup. apply list_elem_of_fmap in Hdup as (e' & Hk & He').
      apply (Hfresh e' He'). rewrite <- Hk. left. }
    split.
    { intros e He. apply elem_of_cons in He as [->|He]; [exact Hnin|].
      intros Hs. apply (Hfresh e He). right. exact Hs. }
    intros e He. apply elem_of_cons in He as [->|He].
    + right. exists x. split; [left | auto].
    + destruct (Hcov e He) as [Hs|(e' & He' & Ht & Hts)].
      * apply elem_of_cons in Hs as [E|Hs]; [|left; exact Hs].
        right. exists x. injection E as -> ->. split; [left | auto].
      * right. exists e'. split; [right; exact He' | auto].
Qed.

Section VerifyPass.
Context `{Host}.

Lemma findMatchingEvents_dedup prediction state snapshot :
  Verify.findMatchingEvents prediction state snapshot
  = dedup [] (candidates prediction state snapshot).
Proof.
  unfold Verify.findMatchingEvents, candidates. cbv zeta.
  set (start := getTime (pred_timestamp prediction)).
  set (end_ := getTime (pred_windowEnd prediction)).
  rewrite (fold_omap _ (alertEvent start end_)) by apply alertStep_event.
  rewrite (fold_omap _ (flareEvent start end_)) by apply flareStep_event.
  rewrite (fold_omap _ (stormEvent start end_)) by apply stormStep_event.
  rewrite (fold_omap _ (cmeEvent start end_)) by apply cmeStep_event.
  rewrite <- !fold_left_app.
  rewrite (fold_pushEvent_dedup _ ∅ [] []).
  - reflexivity.
  - intros t ts. split; intros Hin.
    + exfalso. revert Hin. apply not_elem_of_empty.
    + inversion Hin.
Qed.

Lemma within_true (start end_ t : Z) :
  within start end_ t = true <-> start <= t <= end_.
Proof. unfold within. rewrite andb_true_iff, !Z.leb_le. tauto. Qed.

Lemma candidates_within prediction state snapshot e :
  In e (candidates prediction state snapshot) ->
  getTime (pred_timestamp prediction) <= getTime (ev_timestamp e)
  <= getTime (pred_windowEnd prediction).
Proof.
  unfold candidates. cbv zeta. rewrite !in_app_iff, <- !list_elem_of_In.
  rewrite !list_elem_of_omap.
  intros [(x & _ & Hx)|[(x & _ & Hx)|[(x & _ & Hx)|(x & _ & Hx)]]]; revert Hx.
  - unfold alertEvent. destruct (within _ _ _) eqn:W; [|discriminate].
    destruct (find _ significantAlerts); [|discriminate].
    intros [= <-]. apply within_true in W. exact W.
  - unfold flareEvent. destruct (within _ _ _) eqn:W; [|discriminate].
    destruct (_ || _); [|discriminate].
    intros [= <-]. apply within_true in W. exact W.
  - unfold stormEvent. destruct (within _ _ _) eqn:W; [|discriminate].
    destruct (Js.geb _ _); [|discriminate].
    intros [= <-]. apply within_true in W. exact W.
  - unfold cmeEvent. destruct (within _ _ _) eqn:W; [|discriminate].
    intros [= <-]. apply within_true in W. exact W.
Qed.

(** An alert of a significant type, inside the window, is a candidate;
    an alert of any other type is none. *)
Lemma find_significant (alert : SpaceWeatherAlert) (ty : EventType) :
  In (alert_type alert, ty) significantAlerts ->
  find (fun entry => String.eqb (alert_type alert) entry.1) significantAlerts
  = Some (alert_type alert, ty).
Proof.
  unfold significantAlerts. cbn [In]. intros Hin.
  repeat destruct Hin as [Hin|Hin]; try contradiction;
    injection Hin as Ht <-; rewrite <- Ht; reflexivity.
Qed.

Lemma find_not_significant (alert : SpaceWeatherAlert) :
  existsb (String.eqb (alert_type alert)) (fst <$> significantAlerts) = false ->
  find (fun entry => String.eqb (alert_type alert) entry.1) significantAlerts = None.
Proof.
  induction significantAlerts as [|[name ty] l IH]; [reflexivity|].
  cbn [fmap list_fmap existsb find fst]. intros [-> Hl]%orb_false_iff. exact (IH Hl).
Qed.

Lemma omap_filter_none {A B} (f : A -> option B) (q : A -> bool) (l : list A) :
  (forall x, q x = false -> f x = None) ->
  omap f (List.filter q l) = omap f l.
Proof.
  intros Hq. induction l as [|x l IH]; [reflexivity|].
  cbn [List.filter]. destruct (q x) eqn:E.
  - cbn [omap list_omap]. fold (omap f l). fold (omap f (List.filter q l)).
    rewrite IH. reflexivity.
  - cbn [omap list_omap]. fold (omap f l). rewrite (Hq x E). exact IH.
Qed.

Lemma significant_alert_candidate prediction state snapshot alert ty :
  In alert (alertsSent state) ->
  In (alert_type alert, ty) significantAlerts ->
  getTime (pred_timestamp prediction) <= getTime (alert_timestamp alert)
  <= getTime (pred_windowEnd prediction) ->
  In {| ev_type := ty; ev_description := alert_title alert;
        ev_timestamp := alert_timestamp alert |}
     (candidates prediction state snapshot).
Proof.
  intros Hin Hty Hw. unfold candidates. cbv zeta.
  apply in_or_app. left. apply list_elem_of_In, list_elem_of_omap.
  exists alert. split; [apply list_elem_of_In; exact Hin|].
  unfold alertEvent. apply within_true in Hw. rewrite Hw.
  rewrite (find_significant alert ty Hty). reflexivity.
Qed.

Lemma candidates_significant prediction state snapshot :
  candidates prediction
    (State.with_alertsSent
       (List.filter
          (fun alert =>
             existsb (String.eqb (alert_type alert)) (fst <$> significantAlerts))
          (alertsSent state))
       state)
    snapshot
  = candidates prediction state snapshot.
Proof.
  unfold candidates. cbv zeta. cbn [State.with_alertsSent alertsSent].
  f_equal. apply omap_filter_none. intros alert Hno.
  unfold alertEvent. rewrite (find_not_significant alert Hno).
  destruct (within _ _ _); reflexivity.
Qed.

(** What the loop does to one prediction. *)
Lemma verifyOne_spec (nowMs : Z) (state : CheckerState)
      (snapshot : SpaceWeatherSnapshot) (p : Prediction) :
  let p' := (Verify.verifyOne nowMs state snapshot p).1 in
  let expired := pred_status p = pending /\ getTime (pred_windowEnd p) <= nowMs in
  (expired ->
   pred_matchedEvents p' = dedup [] (candidates p state snapshot)
   /\ (candidates p state snapshot <> [] -> pred_status p' = hit)
   /\ (candidates p state snapshot = [] -> pred_status p' = miss)
   /\ pred_verifiedAt p' = Some (toISOString nowMs)
   /\ getTime (pred_windowEnd p') <= getTime (toISOString nowMs)
   /\ (pred_matchedEvents p' <> [] <-> pred_status p' = hit)
   /\ pred_id p' = pred_id p /\ pred_timestamp p' = pred_timestamp p
   /\ pred_note p' = pred_note p /\ pred_windowHours p' = pred_windowHours p
   /\ pred_windowEnd p' = pred_windowEnd p)
  /\ (~ expired -> p' = p)
  /\ (is_Some (Verify.verifyOne nowMs state snapshot p).2 <-> expired).
Proof.
  intros p' expired. subst p' expired. unfold Verify.verifyOne.
  destruct (pred_status p) eqn:Hst;
    try (split; [intros [[=] _]
                |split; [reflexivity
                        |split; [intros [? [=]] | intros [[=] _]]]]).
  destruct (Z.gtb_spec (getTime (pred_windowEnd p)) nowMs) as [G|L].
  { split; [intros [_ L]; lia|].
    split; [reflexivity|]. split; [intros [? [=]] | intros [_ L]; lia]. }
  split; [|split; [intros N; exfalso; apply N; auto | split; eauto]].
  intros _. cbn [fst pred_matchedEvents pred_status pred_verifiedAt pred_windowEnd
                 pred_id pred_timestamp pred_note pred_windowHours].
  rewrite getTime_toISOString, findMatchingEvents_dedup.
  pose proof (dedup_nil (candidates p state snapshot)) as Hnil.
  destruct (dedup [] (candidates p state snapshot)) as [|e es] eqn:Hd.
  - assert (Hc : candidates p state snapshot = []) by (apply Hnil; reflexivity).
    cbn [length Nat.ltb Nat.leb].
    repeat split; auto; try tauto; try discriminate.
  - assert (Hc : candidates p state snapshot <> []).
    { intros E. apply Hnil in E. discriminate E. }
    cbn [length Nat.ltb Nat.leb].
    repeat split; auto; try tauto; try discriminate.
Qed.

End VerifyPass.

(** C1.  On a verification pass, every prediction that is pending and
    whose windowEnd is at most [now] becomes a hit when its set of matched
    events is not empty and a miss otherwise, with [verifiedAt] set to
    [now] (so [verifiedAt >= windowEnd], and [matchedEvents] is non-empty
    iff the status is hit); every other prediction is left as it is.  The
    matched events are drawn from the qualifying [alertsSent] entries, the
    M- and X-class flares, the storms with [kpIndex >= 5] and the
    Earth-directed CMEs whose times lie inside
    [[prediction.timestamp, prediction.windowEnd]], deduplicated by
    (type, timestamp).  The qualifying entries are those of the types
    flare-m, flare-x, kp-threshold, kp-elevated, cme-earth, bz-threshold
    and wind-speed: each of them inside the window is matched by an event
    of its kind at its timestamp, and the entries of every other type
    make no difference to the matched events.  The list is saved iff some
    prediction was verified, through [savePredictions], which leaves a
    list within [maxPredictions] as it is. *)
Theorem verify_pass `{Host} (nowMs : Z) (checkerState : CheckerState)
    (snapshot : SpaceWeatherSnapshot) (predState : PredictionState) :
  let out := Verify.verifyPendingPredictions nowMs checkerState snapshot predState in
  let expired (p : Prediction) :=
    pred_status p = pending /\ getTime (pred_windowEnd p) <= nowMs in
  Forall2
    (fun p p' =>
       (expired p ->
        pred_matchedEvents p' = dedup [] (candidates p checkerState snapshot)
        /\ (candidates p checkerState snapshot <> [] -> pred_status p' = hit)
        /\ (candidates p checkerState snapshot = [] -> pred_status p' = miss)
        /\ pred_verifiedAt p' = Some (toISOString nowMs)
        /\ getTime (pred_windowEnd p') <= getTime (toISOString nowMs)
        /\ (pred_matchedEvents p' <> [] <-> pred_status p' = hit)
        /\ pred_id p' = pred_id p /\ pred_timestamp p' = pred_timestamp p
        /\ pred_note p' = pred_note p /\ pred_windowHours p' = pred_windowHours p
        /\ pred_windowEnd p' = pred_windowEnd p)
       /\ (~ expired p -> p' = p))
    (predictions predState) (Verify.vr_predictions out)
  /\ (forall p : Prediction,
        let matched := Verify.findMatchingEvents p checkerState snapshot in
        matched = dedup [] (candidates p checkerState snapshot)
        /\ (forall e, In e matched -> In e (candidates p checkerState snapshot))
        /\ (forall e, In e (candidates p checkerState snapshot) ->
            getTime (pred_timestamp p) <= getTime (ev_timestamp e)
            <= getTime (pred_windowEnd p))
        /\ NoDup (map (fun e => (ev_type e, ev_timestamp e)) matched)
        /\ (forall e, In e (candidates p checkerState snapshot) ->
            exists e', In e' matched /\ ev_type e' = ev_type e
                       /\ ev_timestamp e' = ev_timestamp e)
        /\ (forall alert ty,
              In alert (alertsSent checkerState) ->
              In (alert_type alert, ty) significantAlerts ->
              getTime (pred_timestamp p) <= getTime (alert_timestamp alert)
              <= getTime (pred_windowEnd p) ->
              exists e, In e matched /\ ev_type e = ty
                        /\ ev_timestamp e = alert_timestamp alert)
        /\ matched
           = Verify.findMatchingEvents p
               (State.with_alertsSent
                  (List.filter
                     (fun alert =>
                        existsb (String.eqb (alert_type alert))
                                (fst <$> significantAlerts))
                     (alertsSent checkerState))
                  checkerState)
               snapshot)
  /\ (Exists expired (predictions predState) ->
      Verify.vr_saved out
      = Some (savePredictions
                (with_predictions (Verify.vr_predictions out) predState)))
  /\ (Forall (fun p => ~ expired p) (predictions predState) ->
      Verify.vr_saved out = None
      /\ Verify.vr_predictions out = predictions predState)
  /\ (Z.of_nat (length (predictions predState)) <= maxPredictions (config predState) ->
      savePredictions (with_predictions (Verify.vr_predictions out) predState)
      = with_predictions (Verify.vr_predictions out) predState).
Proof.
  intros out expired. subst out.
  assert (Hchanged :
    existsb (fun r : Prediction * option SpaceWeatherAlert => bool_decide (is_Some r.2))
            (Verify.verifyOne nowMs checkerState snapshot <$> predictions predState)
    = true <-> Exists expired (predictions predState)).
  { induction (predictions predState) as [|p ps IH]; cbn [fmap list_fmap existsb].
    - split; [discriminate | intros E; inversion E].
    - rewrite orb_true_iff, IH, Exists_cons, bool_decide_eq_true.
      destruct (verifyOne_spec nowMs checkerState snapshot p) as (_ & _ & Hn).
      rewrite Hn. reflexivity. }
  split.
  { clear Hchanged.
    unfold Verify.verifyPendingPredictions. cbn [Verify.vr_predictions].
    induction (predictions predState) as [|p ps IH]; [constructor|].
    cbn [fmap list_fmap]. constructor; [|exact IH].
    destruct (verifyOne_spec nowMs checkerState snapshot p) as (H1 & H2 & _).
    split; assumption. }
  split.
  { intros p matched. subst matched. rewrite findMatchingEvents_dedup.
    destruct (dedup_keys [] (candidates p checkerState snapshot))
      as (Hnd & _ & Hcov).
    split; [reflexivity|].
    split; [intros e; apply dedup_subset|].
    split; [intros e; apply candidates_within|].
    split; [exact Hnd|].
    assert (Hcovered : forall e, In e (candidates p checkerState snapshot) ->
              exists e', In e' (dedup [] (candidates p checkerState snapshot))
                         /\ ev_type e' = ev_type e
                         /\ ev_timestamp e' = ev_timestamp e).
    { intros e He. apply list_elem_of_In in He.
      destruct (Hcov e He) as [Hs|(e' & He' & Ht & Hts)]; [inversion Hs|].
      exists e'. split; [apply list_elem_of_In; exact He' | auto]. }
    split; [exact Hcovered|].
    split.
    { intros alert ty Hin Hty Hw.
      destruct (Hcovered _ (significant_alert_candidate p checkerState snapshot
                              alert ty Hin Hty Hw)) as (e' & He' & Ht & Hts).
      exists e'. auto. }
    rewrite findMatchingEvents_dedup, candidates_significant. reflexivity. }
  split.
  { intros Hex. apply Hchanged in Hex.
    unfold Verify.verifyPendingPredictions. cbn [Verify.vr_saved Verify.vr_predictions].
    rewrite Hex. reflexivity. }
  split.
  { intros Hall.
    unfold Verify.verifyPendingPredictions. cbn [Verify.vr_saved Verify.vr_predictions].
    split.
    - destruct (existsb _ _); [|reflexivity].
      assert (E : Exists expired (predictions predState))
        by (apply Hchanged; reflexivity).
      apply Exists_exists in E as (p & Hp & He).
      rewrite Forall_forall in Hall. exfalso. exact (Hall p Hp He).
    - clear Hchanged.
      induction Hall as [|p ps Hp _ IH]; [reflexivity|].
      cbn [fmap list_fmap]. rewrite IH.
      destruct (verifyOne_spec nowMs checkerState snapshot p) as (_ & Hkeep & _).
      rewrite (Hkeep Hp). reflexivity. }
  intros Hlen. unfold savePredictions.
  cbn [with_predictions predictions config].
  unfold Verify.verifyPendingPredictions. cbn [Verify.vr_predictions].
  rewrite !length_fmap.
  destruct (Z.gtb_spec (Z.of_nat (length (predictions predState)))
                       (maxPredictions (config predState))); [lia | reflexivity].
Qed.

(** One minute after the window closed the prediction becomes a hit, with
    the flare as its matched event.  With a quiet feed it is a hit by the
    bz-threshold alert that the checker sent inside the window, and a miss
    when the only alert sent is an all-clear. *)
Lemma verify_pass_witness :
  (exists p',
      Verify.vr_predictions
        (Verify.verifyPendingPredictions (H := RefHost.host) 172861000
           Scenario.emptyState VerifyScenario.feed VerifyScenario.store) = [p']
      /\ pred_status p' = hit
      /\ pred_matchedEvents p'
         = [ {| ev_type := ev_flare; ev_description := "M2.1 Flare";
                ev_timestamp := "5000000" |} ]
      /\ pred_verifiedAt p' = Some "172861000")
  /\ (exists p',
        Verify.vr_predictions
          (Verify.verifyPendingPredictions (H := RefHost.host) 172861000
             (VerifyScenario.alerted "bz-threshold") VerifyScenario.quietFeed
             VerifyScenario.store) = [p']
        /\ pred_status p' = hit
        /\ pred_matchedEvents p'
           = [ {| ev_type := ev_bz; ev_description := "Sent";
                  ev_timestamp := "6000000" |} ])
  /\ (exists p',
        Verify.vr_predictions
          (Verify.verifyPendingPredictions (H := RefHost.host) 172861000
             (VerifyScenario.alerted "all-clear") VerifyScenario.quietFeed
             VerifyScenario.store) = [p']
        /\ pred_status p' = miss /\ pred_matchedEvents p' = []).
Proof.
  assert (Hexp : pred_status VerifyScenario.submitted = pending
                 /\ RefHost.getTime (pred_windowEnd VerifyScenario.submitted)
                    <= 172861000)
    by (split; [reflexivity | vm_compute; discriminate]).
  assert (Hrun : forall state feed p',
            Verify.vr_predictions
              (Verify.verifyPendingPredictions (H := RefHost.host) 172861000
                 state feed VerifyScenario.store) = [p'] ->
            pred_matchedEvents p'
            = dedup [] (candidates (H := RefHost.host) VerifyScenario.submitted state feed)
            /\ (candidates (H := RefHost.host) VerifyScenario.submitted state feed <> []
                -> pred_status p' = hit)
            /\ (candidates (H := RefHost.host) VerifyScenario.submitted state feed = []
                -> pred_status p' = miss)
            /\ pred_verifiedAt p' = Some "172861000").
  { intros state feed p' Hout.
    pose proof (proj1 (verify_pass (H := RefHost.host) 172861000 state feed
                         VerifyScenario.store)) as Hall.
    cbv zeta in Hall. rewrite Hout in Hall.
    change (predictions VerifyScenario.store) with [VerifyScenario.submitted] in Hall.
    apply Forall2_cons_1 in Hall as [[Hp _] _].
    destruct (Hp Hexp) as (Hm & Hhit & Hmiss & Hv & _). auto. }
  split; [|split].
  - eexists. split; [vm_compute; reflexivity|].
    match goal with
    | |- pred_status ?p' = hit /\ _ =>
        destruct (Hrun Scenario.emptyState VerifyScenario.feed p' eq_refl)
          as (Hm & Hhit & _ & Hv)
    end.
    split; [apply Hhit; vm_compute; discriminate|].
    split; [rewrite Hm; vm_compute; reflexivity | exact Hv].
  - eexists. split; [vm_compute; reflexivity|].
    match goal with
    | |- pred_status ?p' = hit /\ _ =>
        destruct (Hrun (VerifyScenario.alerted "bz-threshold")
                    VerifyScenario.quietFeed p' eq_refl) as (Hm & Hhit & _ & _)
    end.
    split; [apply Hhit; vm_compute; discriminate|].
    rewrite Hm. vm_compute. reflexivity.
  - eexists. split; [vm_compute; reflexivity|].
    match goal with
    | |- pred_status ?p' = miss /\ _ =>
        destruct (Hrun (VerifyScenario.alerted "all-clear")
                    VerifyScenario.quietFeed p' eq_refl) as (Hm & _ & Hmiss & _)
    end.
    split; [apply Hmiss; vm_compute; reflexivity|].
    rewrite Hm. vm_compute. reflexivity.
Defined.

(* ===================================================================== *)
(** ** The end-to-end scenarios                                           *)
(* ===================================================================== *)

(** First run under a quiet sky: no alert, and the state keeps the
    readings. *)
Example first_run_quiet_sky :
  let out := Checker.tick (H := RefHost.host) CONFIG 77 EndToEnd.quietSky
               Scenario.emptyState ∅ in
  Checker.out_sent out = []
  /\ lastKp (Checker.out_state out) = 2%Q
  /\ kpWasAbove5 (Checker.out_state out) = false.
Proof. vm_compute. auto. Qed.

(** Kp rises from 4.0 to 5.3: one kp-threshold alert at high urgency with
    the title of the G1 threshold; the state remembers the crossing and
    the cooldown. *)
Example kp_crosses_5 :
  let out := Checker.tick (H := RefHost.host) CONFIG 77
               (CooldownScenario.inputAt 1000 (53 # 10) []) Scenario.afterKp4 ∅ in
  map (fun a => (alert_type a, alert_urgency a, alert_title a)) (Checker.out_sent out)
  = [ ("kp-threshold", high, "Kp 5.3 — G1 Storm Threshold") ]
  /\ kpWasAbove5 (Checker.out_state out) = true
  /\ lastCooldowns (Checker.out_state out) !! "kp-threshold" = Some "1000".
Proof. vm_compute. auto. Qed.

(** A new Earth-directed CME with a predicted Kp of 8: one cme-earth
    alert at critical urgency, the arrival printed as ~18h, the G4
    sentence in the body. *)
Example new_cme_kp8 :
  map (fun a => (alert_type a, alert_urgency a, alert_body a))
      (Alerts.cmeAlerts (H := RefHost.host) CONFIG 1000 Scenario.emptyState
         EndToEnd.cmeX1)
  = [ ("cme-earth", critical,
       "CME erupted 500, ETA ~18h. G4 severe storm. Aurora widespread, possible power grid damage, satellite charging.") ].
Proof. vm_compute. reflexivity. Qed.

(** The known CME X1 revised from Kp 8 down to 6: no alert. *)
Example cme_revised_down :
  Alerts.cmeAlerts (H := RefHost.host) CONFIG 1000 Scenario.knowsX1
    (Scenario.cmeOf "X1" (Some 6%Q)) = [].
Proof. vm_compute. reflexivity. Qed.

(** After a storm the all-clear goes out once: the run after the recovery
    sends nothing. *)
Example all_clear_once :
  (fun log => map (fun e => (fst e, map alert_id (snd e))) log)
    <$> Checker.runs (H := RefHost.host) CONFIG 77 EndToEnd.stormAndRecovery ∅
  = Some [ (1000, ["kp-cross-5-1000"]);
           (2000, ["all-clear-kp5-2000"]);
           (3000, []) ].
Proof. vm_compute. reflexivity. Qed.

(* ===================================================================== *)
(** ** The evaluator from one run to the next                             *)
(* ===================================================================== *)

Lemma flat_map_nil {A B} (f : A -> list B) (l : list A) :
  (forall x, In x l -> f x = []) -> flat_map f l = [].
Proof.
  induction l as [|x l IH]; intros Hf; [reflexivity|]. simpl.
  rewrite (Hf x) by (left; reflexivity). apply IH. intros y Hy. apply Hf. right. exact Hy.
Qed.

Lemma existsb_eqb_in (x : string) (l : list string) :
  In x l -> existsb (String.eqb x) l = true.
Proof.
  intros Hin. apply existsb_exists. exists x. split; [exact Hin | apply String.eqb_refl].
Qed.

(** [find] by key in a list made from a list with distinct keys. *)
Lemma find_by_key {A B} (key : A -> string) (f : A -> B) (keyB : B -> string)
      (l : list A) (x : A) :
  (forall a, keyB (f a) = key a) ->
  NoDup (key <$> l) -> In x l ->
  find (fun b => String.eqb (keyB b) (key x)) (f <$> l) = Some (f x).
Proof.
  intros Hkey. induction l as [|y l IH]; intros Hnd Hin; [destruct Hin|].
  cbn [fmap list_fmap] in *. apply NoDup_cons in Hnd as [Hy Hnd].
  cbn [find]. rewrite Hkey.
  destruct Hin as [-> | Hin].
  - rewrite String.eqb_refl. reflexivity.
  - destruct (String.eqb_spec (key y) (key x)) as [E|_].
    + exfalso. apply Hy. rewrite E. apply list_elem_of_fmap. exists x.
      split; [reflexivity | apply list_elem_of_In; exact Hin].
    + apply IH; assumption.
Qed.

(** A reading is not at once on both sides of a threshold. *)
Lemma geb_ltb_same (a t : Q) : Js.geb a t && Js.ltb a t = false.
Proof. unfold Js.geb, Js.ltb. destruct (Qle_bool t a); reflexivity. Qed.

Lemma leb_gtb_same (a t : Q) : Js.leb a t && Js.gtb a t = false.
Proof. unfold Js.leb, Js.gtb. destruct (Qle_bool a t); reflexivity. Qed.

Lemma gtb_true (a b : Q) : Js.gtb a b = true <-> (b < a)%Q.
Proof. unfold Js.gtb. rewrite <- ltb_true. reflexivity. Qed.

(** Each rule on the state that the update of a run leaves, for the data
    of that run. *)
Section Steady.
Context `{Host}.
Variables (cfg : Config) (i : Checker.TickInput) (state : CheckerState).

Lemma steady_cme (later : Z) cme :
  (0 < cmeRevision_kpJump cfg)%Q ->
  NoDup (cme_id <$> snap_earthDirectedCMEs (Checker.in_snapshot i)) ->
  In cme (snap_earthDirectedCMEs (Checker.in_snapshot i)) ->
  Alerts.cmeAlerts cfg later (Checker.updateState cfg i state) cme = [].
Proof.
  intros Hjump Hnd Hin. unfold Alerts.cmeAlerts.
  cbn [Checker.updateState knownCMEs].
  rewrite (find_by_key cme_id
             (fun c => {| known_id := cme_id c;
                          known_predictedKp := cme_predictedKp c;
                          known_predictedArrival := cme_predictedArrival c |})
             known_id _ cme (fun _ => eq_refl) Hnd Hin).
  cbn [known_predictedKp].
  set (kp := default 0%Q (cme_predictedKp cme)).
  replace (Js.geb (kp - kp) (cmeRevision_kpJump cfg)) with false; [reflexivity|].
  symmetry. apply geb_false. intros L.
  apply (Qlt_not_le _ _ Hjump). eapply Qle_trans; [exact L|].
  unfold Qminus. rewrite Qplus_opp_r. apply Qle_refl.
Qed.

Lemma steady_flare (later : Z) flare :
  In flare (snap_recentFlares (Checker.in_snapshot i)) ->
  Alerts.flareAlerts cfg later (Checker.updateState cfg i state) flare = [].
Proof.
  intros Hin. unfold Alerts.flareAlerts. cbn [Checker.updateState knownFlareIds].
  rewrite existsb_eqb_in; [reflexivity|].
  apply in_map_iff. exists flare. auto.
Qed.

Lemma steady_hss (later : Z) hss :
  In hss (snap_recentHSS (Checker.in_snapshot i)) ->
  Alerts.hssAlerts cfg later (Checker.updateState cfg i state) hss = [].
Proof.
  intros Hin. unfold Alerts.hssAlerts. cbn [Checker.updateState knownHSSIds].
  rewrite existsb_eqb_in; [reflexivity|].
  apply in_map_iff. exists hss. auto.
Qed.

Lemma steady_region (later : Z) region :
  In region (Checker.in_activeRegions i) ->
  Alerts.regionAlerts cfg later (Checker.updateState cfg i state) region = [].
Proof.
  intros Hin. unfold Alerts.regionAlerts. cbn [Checker.updateState knownRegionNumbers].
  replace (existsb _ _) with true; [reflexivity|].
  symmetry. apply existsb_exists. exists (region_regionNumber region).
  split; [apply in_map_iff; exists region; auto | apply Qeq_bool_iff; reflexivity].
Qed.

Lemma steady_kp (later : Z) :
  Alerts.kpAlerts cfg later (Checker.in_snapshot i) (Checker.updateState cfg i state) = [].
Proof.
  unfold Alerts.kpAlerts. cbn [Checker.updateState lastKp].
  rewrite !geb_ltb_same. reflexivity.
Qed.

Lemma steady_bz (later : Z) :
  Alerts.bzAlerts cfg later (Checker.in_snapshot i) (Checker.updateState cfg i state) = [].
Proof.
  unfold Alerts.bzAlerts, Alerts.currentBz. cbn [Checker.updateState lastBz].
  destruct (snap_magneticField (Checker.in_snapshot i)) as [m|].
  - rewrite !leb_gtb_same. reflexivity.
  - reflexivity.
Qed.

Lemma steady_windSpeed (later : Z) :
  Alerts.windSpeedAlerts cfg later (Checker.in_snapshot i) (Checker.updateState cfg i state)
  = [].
Proof.
  unfold Alerts.windSpeedAlerts, Alerts.currentWindSpeed.
  cbn [Checker.updateState lastWindSpeed].
  destruct (snap_solarWind (Checker.in_snapshot i)) as [w|].
  - rewrite !geb_ltb_same. reflexivity.
  - reflexivity.
Qed.

Lemma steady_density (later : Z) :
  Alerts.densityAlerts later (Checker.in_snapshot i) (Checker.updateState cfg i state) = [].
Proof.
  unfold Alerts.densityAlerts, Alerts.currentDensity.
  cbn [Checker.updateState lastWindDensity].
  destruct (snap_solarWind (Checker.in_snapshot i)) as [w|].
  - rewrite !geb_ltb_same. reflexivity.
  - reflexivity.
Qed.

Lemma steady_allClear (later : Z) :
  Alerts.allClearAlerts later (Checker.in_snapshot i) (Checker.updateState cfg i state) = [].
Proof.
  unfold Alerts.allClearAlerts.
  cbn [Checker.updateState kpWasAbove5 bzWasBelow15 windWasAbove700].
  replace (Js.geb (snap_kp (Checker.in_snapshot i)) 5
           && Js.ltb (snap_kp (Checker.in_snapshot i)) 5) with false
    by (symmetry; apply geb_ltb_same).
  replace (Js.leb (Alerts.currentBz (Checker.in_snapshot i)) (-15)
           && Js.gtb (Alerts.currentBz (Checker.in_snapshot i)) (-10)) with false.
  2:{ symmetry. apply andb_false_iff.
      destruct (Js.leb (Alerts.currentBz (Checker.in_snapshot i)) (-15)) eqn:E;
        [right | left; reflexivity].
      apply leb_true in E. unfold Js.gtb. apply negb_false_iff, Qle_bool_iff.
      eapply Qle_trans; [exact E|]. unfold Qle; simpl; lia. }
  replace (Js.geb (Alerts.currentWindSpeed (Checker.in_snapshot i)) 700
           && Js.ltb (Alerts.currentWindSpeed (Checker.in_snapshot i)) 600) with false.
  2:{ symmetry. apply andb_false_iff.
      destruct (Js.geb (Alerts.currentWindSpeed (Checker.in_snapshot i)) 700) eqn:E;
        [right | left; reflexivity].
      apply geb_true in E. unfold Js.ltb. apply negb_false_iff, Qle_bool_iff.
      eapply Qle_trans; [|exact E]. unfold Qle; simpl; lia. }
  reflexivity.
Qed.

Lemma steady_state (later : Z) :
  (0 < cmeRevision_kpJump cfg)%Q ->
  NoDup (cme_id <$> snap_earthDirectedCMEs (Checker.in_snapshot i)) ->
  Alerts.evaluateAlerts cfg later (Checker.in_snapshot i) (Checker.in_activeRegions i)
    (Checker.updateState cfg i state) = [].
Proof.
  intros Hjump Hnd. unfold Alerts.evaluateAlerts.
  rewrite (flat_map_nil (Alerts.cmeAlerts _ _ _))
    by (intros; apply steady_cme; assumption).
  rewrite (flat_map_nil (Alerts.flareAlerts _ _ _)) by (intros; apply steady_flare; assumption).
  rewrite (flat_map_nil (Alerts.hssAlerts _ _ _)) by (intros; apply steady_hss; assumption).
  rewrite (flat_map_nil (Alerts.regionAlerts _ _ _))
    by (intros; apply steady_region; assumption).
  rewrite steady_kp, steady_bz, steady_windSpeed, steady_density, steady_allClear.
  destruct (activeRegionAlerts_enabled cfg); reflexivity.
Qed.

End Steady.

(** X1.  Data that have not changed raise nothing.  After a run, an
    evaluation of the same readings, events and regions (fetched again at
    any later time) against the state that the run saved gives no alert at
    all: every event of the feed is known, no reading is across a threshold
    that its stored predecessor was not across, and no all-clear is due.
    The Earth-directed CMEs of the feed have distinct ids, and the Kp jump
    of a revision is positive, as configured. *)
Theorem unchanged_data_raise_nothing `{Host} (cfg : Config) (pid : Z)
    (i : Checker.TickInput) (state : CheckerState) (fs : gmap string Js.text)
    (later : Z) (timestamp : string) :
  (0 < cmeRevision_kpJump cfg)%Q ->
  NoDup (cme_id <$> snap_earthDirectedCMEs (Checker.in_snapshot i)) ->
  Alerts.evaluateAlerts cfg later (refetched timestamp (Checker.in_snapshot i))
    (Checker.in_activeRegions i)
    (Checker.out_state (Checker.tick cfg pid i state fs)) = [].
Proof.
  intros Hjump Hnd.
  destruct (tick_eq cfg pid i state fs) as (_ & -> & _).
  rewrite saveState_eq. cbn [fst].
  exact (steady_state cfg i state later Hjump Hnd).
Qed.

(** A new CME with a predicted Kp of 8 and a new M-class flare while Kp is
    at 5.3: a second look at the same data raises nothing. *)
Lemma unchanged_data_raise_nothing_witness :
  let i :=
    {| Checker.in_now := 1000; Checker.in_hour := 12;
       Checker.in_snapshot :=
         Scenario.snapshotOf (53 # 10) [EndToEnd.cmeX1]
           [Scenario.flareOf "F1" "M2.1" "400"];
       Checker.in_activeRegions := []; Checker.in_dataHealth := [] |} in
  length (Checker.out_sent (Checker.tick (H := RefHost.host) CONFIG 77 i
                              Scenario.emptyState ∅)) = 3%nat
  /\ Alerts.evaluateAlerts (H := RefHost.host) CONFIG 901000
       (refetched "901000" (Checker.in_snapshot i)) (Checker.in_activeRegions i)
       (Checker.out_state (Checker.tick (H := RefHost.host) CONFIG 77 i
                             Scenario.emptyState ∅)) = [].
Proof.
  cbv zeta. split; [vm_compute; reflexivity|].
  apply (unchanged_data_raise_nothing (H := RefHost.host)).
  - unfold Qlt. simpl. lia.
  - apply (bool_decide_unpack _). vm_compute. reflexivity.
Defined.

(** A property of every alert of the evaluator, rule by rule. *)
Lemma Forall_evaluateAlerts `{Host} (P : SpaceWeatherAlert -> Prop)
      cfg nowMs snapshot activeRegions prevState :
  (forall cme, Forall P (Alerts.cmeAlerts cfg nowMs prevState cme)) ->
  (forall flare, Forall P (Alerts.flareAlerts cfg nowMs prevState flare)) ->
  (forall hss, Forall P (Alerts.hssAlerts cfg nowMs prevState hss)) ->
  Forall P (Alerts.kpAlerts cfg nowMs snapshot prevState) ->
  Forall P (Alerts.bzAlerts cfg nowMs snapshot prevState) ->
  Forall P (Alerts.windSpeedAlerts cfg nowMs snapshot prevState) ->
  Forall P (Alerts.densityAlerts nowMs snapshot prevState) ->
  (forall region, Forall P (Alerts.regionAlerts cfg nowMs prevState region)) ->
  Forall P (Alerts.allClearAlerts nowMs snapshot prevState) ->
  Forall P (Alerts.evaluateAlerts cfg nowMs snapshot activeRegions prevState).
Proof.
  intros Hcme Hflare Hhss Hkp Hbz Hwind Hdensity Hregion Hclear.
  unfold Alerts.evaluateAlerts. rewrite !Forall_app.
  repeat split; try assumption; try (apply Forall_flat_map_intro; assumption).
  destruct (activeRegionAlerts_enabled cfg);
    [apply Forall_flat_map_intro; assumption | constructor].
Qed.

Ltac each_alert :=
  repeat match goal with
         | |- context [if ?b then _ else _] => destruct b
         | |- context [match ?o with Some _ => _ | None => _ end] => destruct o
         end;
  repeat (apply Forall_app; split);
  repeat first [apply List.Forall_nil | apply List.Forall_cons].

Ltac rule_by_rule :=
  apply Forall_evaluateAlerts; intros;
  unfold Alerts.cmeAlerts, Alerts.flareAlerts, Alerts.hssAlerts, Alerts.kpAlerts,
    Alerts.bzAlerts, Alerts.windSpeedAlerts, Alerts.densityAlerts,
    Alerts.regionAlerts, Alerts.allClearAlerts;
  each_alert.


(** X2.  Every alert of the evaluator has a type for which the shipped
    configuration holds a cooldown, so the cooldown filter never meets a
    type it does not know; the evaluator raises no alert of the types
    data-stale (configured, never raised), info-batch and
    prediction-result (made elsewhere); and every alert carries the
    instant of the evaluation as its timestamp. *)
Theorem evaluator_types_configured `{Host} (cfg : Config) (nowMs : Z)
    (snapshot : SpaceWeatherSnapshot) (activeRegions : list ActiveRegion)
    (prevState : CheckerState) :
  Forall (fun a => is_Some (cooldowns CONFIG !! alert_type a)
                   /\ typeIn ["data-stale"; "info-batch"; "prediction-result"] a = false
                   /\ alert_timestamp a = toISOString nowMs)
         (Alerts.evaluateAlerts cfg nowMs snapshot activeRegions prevState).
Proof.
  rule_by_rule; cbn [alert_type alert_timestamp];
    (split; [vm_compute; eauto | split; reflexivity]).
Qed.

(** The alerts of one reading are the output of the rule of that
    reading. *)
Section EvaluatorByReading.
Context `{Host}.
Variables (cfg : Config) (nowMs : Z) (snapshot : SpaceWeatherSnapshot)
          (activeRegions : list ActiveRegion) (prevState : CheckerState).

Ltac drop_rules tys :=
  rewrite (filter_evaluateAlerts cfg nowMs snapshot activeRegions prevState tys);
  destruct (activeRegionAlerts_enabled cfg);
  repeat first
    [ rewrite (typeIn_drop tys _ _
                 (Forall_flat_map_intro _ _ _ (cmeAlerts_types cfg nowMs prevState)))
        by by_type
    | rewrite (typeIn_drop tys _ _
                 (Forall_flat_map_intro _ _ _ (flareAlerts_types cfg nowMs prevState)))
        by by_type
    | rewrite (typeIn_drop tys _ _
                 (Forall_flat_map_intro _ _ _ (hssAlerts_types cfg nowMs prevState)))
        by by_type
    | rewrite (typeIn_drop tys _ _
                 (Forall_flat_map_intro _ _ _ (regionAlerts_types cfg nowMs prevState)))
        by by_type
    | rewrite (typeIn_drop tys _ _ (kpAlerts_types cfg nowMs snapshot prevState))
        by by_type
    | rewrite (typeIn_drop tys _ _ (bzAlerts_types cfg nowMs snapshot prevState))
        by by_type
    | rewrite (typeIn_drop tys _ _ (windSpeedAlerts_types cfg nowMs snapshot prevState))
        by by_type
    | rewrite (typeIn_drop tys _ _ (densityAlerts_types nowMs snapshot prevState))
        by by_type
    | rewrite (typeIn_drop tys _ _ (allClearAlerts_types nowMs snapshot prevState))
        by by_type ].

Lemma evaluateAlerts_bz :
  List.filter (typeIn bzTypes)
    (Alerts.evaluateAlerts cfg nowMs snapshot activeRegions prevState)
  = Alerts.bzAlerts cfg nowMs snapshot prevState.
Proof.
  drop_rules bzTypes;
    rewrite (typeIn_keep bzTypes _ _ (bzAlerts_types cfg nowMs snapshot prevState))
      by by_type;
    simpl; rewrite ?app_nil_r; reflexivity.
Qed.

Lemma evaluateAlerts_windSpeed :
  List.filter (typeIn windTypes)
    (Alerts.evaluateAlerts cfg nowMs snapshot activeRegions prevState)
  = Alerts.windSpeedAlerts cfg nowMs snapshot prevState.
Proof.
  drop_rules windTypes;
    rewrite (typeIn_keep windTypes _ _ (windSpeedAlerts_types cfg nowMs snapshot prevState))
      by by_type;
    simpl; rewrite ?app_nil_r; reflexivity.
Qed.

Lemma evaluateAlerts_density :
  List.filter (typeIn densityTypes)
    (Alerts.evaluateAlerts cfg nowMs snapshot activeRegions prevState)
  = Alerts.densityAlerts nowMs snapshot prevState.
Proof.
  drop_rules densityTypes;
    rewrite (typeIn_keep densityTypes _ _ (densityAlerts_types nowMs snapshot prevState))
      by by_type;
    simpl; rewrite ?app_nil_r; reflexivity.
Qed.

Lemma evaluateAlerts_allClear :
  List.filter (typeIn allClearTypes)
    (Alerts.evaluateAlerts cfg nowMs snapshot activeRegions prevState)
  = Alerts.allClearAlerts nowMs snapshot prevState.
Proof.
  drop_rules allClearTypes;
    rewrite (typeIn_keep allClearTypes _ _ (allClearAlerts_types nowMs snapshot prevState))
      by by_type;
    simpl; rewrite ?app_nil_r; reflexivity.
Qed.

End EvaluatorByReading.

(** X3.  On one evaluation there is at most one Bz alert, chosen by the
    stronger branch: the field at or below -15 nT with the stored value
    above -15 gives bz-threshold at high urgency; else the field at or
    below -10 nT with the stored value above -10 gives bz-threshold at
    moderate urgency; else none.  Without a magnetic field reading the
    field counts as 0 nT and there is no Bz alert. *)
Theorem bz_alert_highest_branch `{Host} (cfg : Config) (nowMs : Z)
    (snapshot : SpaceWeatherSnapshot) (activeRegions : list ActiveRegion)
    (prevState : CheckerState) :
  let bz := Alerts.currentBz snapshot in
  let prevBz := lastBz prevState in
  let emitted :=
    List.filter (typeIn bzTypes)
      (Alerts.evaluateAlerts cfg nowMs snapshot activeRegions prevState) in
  let crosses (t : Q) := (bz <= t)%Q /\ (t < prevBz)%Q in
  (snap_magneticField snapshot = None -> emitted = [])
  /\ (length emitted <= 1)%nat
  /\ (crosses (-15)%Q ->
      exists a, emitted = [a] /\ alert_urgency a = high
                /\ alert_id a = "bz-cross-15-" +:+ toISOString nowMs)
  /\ (~ crosses (-15)%Q -> crosses (-10)%Q ->
      exists a, emitted = [a] /\ alert_urgency a = moderate
                /\ alert_id a = "bz-cross-10-" +:+ toISOString nowMs)
  /\ (~ crosses (-15)%Q -> ~ crosses (-10)%Q -> emitted = []).
Proof.
  intros bz prevBz emitted crosses. subst emitted.
  rewrite evaluateAlerts_bz. unfold Alerts.bzAlerts. fold bz prevBz.
  assert (Hc : forall t, Js.leb bz t && Js.gtb prevBz t = true <-> crosses t).
  { intros t. unfold crosses. rewrite andb_true_iff, leb_true, gtb_true. tauto. }
  split.
  { intros Hnone. subst bz. unfold Alerts.currentBz. rewrite Hnone. reflexivity. }
  destruct (Js.leb bz (-15) && Js.gtb prevBz (-15)) eqn:E15.
  { apply Hc in E15. repeat split; simpl; try lia; try tauto. eauto. }
  assert (N15 : ~ crosses (-15)%Q) by (rewrite <- Hc, E15; discriminate).
  destruct (Js.leb bz (-10) && Js.gtb prevBz (-10)) eqn:E10.
  { apply Hc in E10. repeat split; simpl; try lia; try tauto. eauto. }
  assert (N10 : ~ crosses (-10)%Q) by (rewrite <- Hc, E10; discriminate).
  repeat split; simpl; try lia; tauto.
Qed.

(** Bz falls from -4 to -16.5 nT: one alert, the one of the -15
    threshold. *)
Lemma bz_alert_highest_branch_witness :
  let snapshot :=
    {| snap_timestamp := "1000"; snap_fetchedAt := "1000"; snap_kp := 2;
       snap_solarWind := None;
       snap_magneticField :=
         Some {| mf_timestamp := "900"; mf_bx := 0; mf_by := 0;
                 mf_bz := - (165 # 10); mf_bt := 17 |};
       snap_earthDirectedCMEs := []; snap_recentFlares := [];
       snap_recentStorms := []; snap_recentHSS := []; snap_activeAlerts := [] |} in
  exists a,
    List.filter (typeIn bzTypes)
      (Alerts.evaluateAlerts (H := RefHost.host) CONFIG 1000 snapshot []
         Scenario.emptyState) = [a]
    /\ alert_urgency a = high /\ alert_id a = "bz-cross-15-1000".
Proof.
  cbv zeta.
  refine (proj1 (proj2 (proj2
            (bz_alert_highest_branch (H := RefHost.host) CONFIG 1000 _ []
               Scenario.emptyState))) _).
  split; [unfold Qle | unfold Qlt]; simpl; lia.
Defined.

(** X4.  On one evaluation there is at most one wind-speed alert, chosen
    by the faster branch: a speed of 700 km/s or more with the stored
    speed below 700 gives wind-speed at high urgency; else 600 km/s or
    more with the stored speed below 600 gives wind-speed at moderate
    urgency; else none.  Without a solar wind reading the speed counts as
    0 and there is no wind-speed alert. *)
Theorem wind_alert_highest_branch `{Host} (cfg : Config) (nowMs : Z)
    (snapshot : SpaceWeatherSnapshot) (activeRegions : list ActiveRegion)
    (prevState : CheckerState) :
  let speed := Alerts.currentWindSpeed snapshot in
  let prevSpeed := lastWindSpeed prevState in
  let emitted :=
    List.filter (typeIn windTypes)
      (Alerts.evaluateAlerts cfg nowMs snapshot activeRegions prevState) in
  let crosses (t : Q) := (t <= speed)%Q /\ (prevSpeed < t)%Q in
  (snap_solarWind snapshot = None -> emitted = [])
  /\ (length emitted <= 1)%nat
  /\ (crosses 700%Q ->
      exists a, emitted = [a] /\ alert_urgency a = high
                /\ alert_id a = "wind-speed-700-" +:+ toISOString nowMs)
  /\ (~ crosses 700%Q -> crosses 600%Q ->
      exists a, emitted = [a] /\ alert_urgency a = moderate
                /\ alert_id a = "wind-speed-600-" +:+ toISOString nowMs)
  /\ (~ crosses 700%Q -> ~ crosses 600%Q -> emitted = []).
Proof.
  intros speed prevSpeed emitted crosses. subst emitted.
  rewrite evaluateAlerts_windSpeed. unfold Alerts.windSpeedAlerts.
  fold speed prevSpeed.
  assert (Hc : forall t, Js.geb speed t && Js.ltb prevSpeed t = true <-> crosses t).
  { intros t. unfold crosses. rewrite andb_true_iff, geb_true, ltb_true. tauto. }
  split.
  { intros Hnone. subst speed. unfold Alerts.currentWindSpeed. rewrite Hnone. reflexivity. }
  destruct (Js.geb speed 700 && Js.ltb prevSpeed 700) eqn:E7.
  { apply Hc in E7. repeat split; simpl; try lia; try tauto. eauto. }
  assert (N7 : ~ crosses 700%Q) by (rewrite <- Hc, E7; discriminate).
  destruct (Js.geb speed 600 && Js.ltb prevSpeed 600) eqn:E6.
  { apply Hc in E6. repeat split; simpl; try lia; try tauto. eauto. }
  assert (N6 : ~ crosses 600%Q) by (rewrite <- Hc, E6; discriminate).
  repeat split; simpl; try lia; tauto.
Qed.

(** The wind rises from rest to 640 km/s: one alert, the one of the 600
    threshold. *)
Lemma wind_alert_highest_branch_witness :
  let snapshot :=
    {| snap_timestamp := "1000"; snap_fetchedAt := "1000"; snap_kp := 2;
       snap_solarWind :=
         Some {| sw_timestamp := "900"; sw_speed := 640; sw_density := 5;
                 sw_temperature := 0 |};
       snap_magneticField := None;
       snap_earthDirectedCMEs := []; snap_recentFlares := [];
       snap_recentStorms := []; snap_recentHSS := []; snap_activeAlerts := [] |} in
  exists a,
    List.filter (typeIn windTypes)
      (Alerts.evaluateAlerts (H := RefHost.host) CONFIG 1000 snapshot []
         Scenario.emptyState) = [a]
    /\ alert_urgency a = moderate /\ alert_id a = "wind-speed-600-1000".
Proof.
  cbv zeta.
  refine (proj1 (proj2 (proj2 (proj2
            (wind_alert_highest_branch (H := RefHost.host) CONFIG 1000 _ []
               Scenario.emptyState)))) _ _).
  - intros [L _]. revert L. unfold Qle. simpl. lia.
  - split; [unfold Qle | unfold Qlt]; simpl; lia.
Defined.

(** [Math.round] of a quotient of integers. *)
Lemma Math_round_div (a b : Z) :
  0 < b ->
  Js.Math_round (inject_Z a / inject_Z b)%Q = (2 * a + b) / (2 * b).
Proof.
  intros Hb. unfold Js.Math_round.
  assert (E : (inject_Z a / inject_Z b + (1 # 2) == (2 * a + b) # Z.to_pos (2 * b))%Q).
  { unfold Qeq, Qdiv, Qmult, Qplus, Qinv, inject_Z.
    destruct b as [|p|p]; try lia. cbn [Qnum Qden].
    cbn [Z.to_pos Z.mul]. lia. }
  rewrite (Qfloor_comp _ _ E). unfold Qfloor.
  rewrite Z2Pos.id by lia. reflexivity.
Qed.

Lemma ltb_cases (a b : Z) : (a <? b) = true /\ a < b \/ (a <? b) = false /\ b <= a.
Proof. destruct (Z.ltb_spec a b); auto. Qed.

(** X5.  [formatETA] by the distance [d] (in milliseconds) from now to the
    predicted arrival: more than half an hour past, "already past
    predicted arrival"; within half an hour before or after, "imminent";
    from half an hour to 23.5 hours ahead, the nearest whole number of
    hours, between 1 and 23; from 23.5 hours ahead, a whole number of days,
    at least 1. *)
Theorem formatETA_bands `{Host} (nowMs : Z) (arrivalTime : string) :
  let d := getTime arrivalTime - nowMs in
  let eta := Alerts.formatETA nowMs arrivalTime in
  (d < - 1800000 -> eta = "already past predicted arrival")
  /\ (- 1800000 <= d < 1800000 -> eta = "imminent")
  /\ (1800000 <= d < 84600000 ->
      exists hours, 1 <= hours <= 23
                    /\ hours * 3600000 - 1800000 <= d < hours * 3600000 + 1800000
                    /\ eta = "~" +:+ Js.intToString hours +:+ "h")
  /\ (84600000 <= d ->
      exists days, 1 <= days /\ eta = "~" +:+ Js.intToString days +:+ "d").
Proof.
  intros d eta. subst eta. unfold Alerts.formatETA. fold d.
  change 3600000%Q with (inject_Z 3600000).
  rewrite (Math_round_div d 3600000) by lia.
  set (hours := (2 * d + 3600000) / (2 * 3600000)).
  change 24%Q with (inject_Z 24).
  rewrite (Math_round_div hours 24) by lia.
  assert (Hh : hours * 7200000 <= 2 * d + 3600000 < hours * 7200000 + 7200000).
  { subst hours. pose proof (Z.div_mod (2 * d + 3600000) (2 * 3600000) ltac:(lia)).
    pose proof (Z.mod_pos_bound (2 * d + 3600000) (2 * 3600000) ltac:(lia)). lia. }
  split; [|split; [|split]].
  - intros Hd. assert (hours < 0) by lia.
    destruct (ltb_cases hours 0) as [[-> _]|[_ ?]]; [reflexivity|lia].
  - intros Hd. assert (hours = 0) as -> by lia. reflexivity.
  - intros Hd. exists hours. assert (1 <= hours <= 23) by lia.
    split; [assumption|]. split; [lia|].
    destruct (ltb_cases hours 0) as [[_ ?]|[-> _]]; [lia|].
    destruct (ltb_cases hours 1) as [[_ ?]|[-> _]]; [lia|].
    destruct (ltb_cases hours 24) as [[-> _]|[_ ?]]; [reflexivity|lia].
  - intros Hd. assert (24 <= hours) by lia.
    exists ((2 * hours + 24) / (2 * 24)). split.
    + apply Z.div_le_lower_bound; lia.
    + destruct (ltb_cases hours 0) as [[_ ?]|[-> _]]; [lia|].
      destruct (ltb_cases hours 1) as [[_ ?]|[-> _]]; [lia|].
      destruct (ltb_cases hours 24) as [[_ ?]|[-> _]]; [lia|]. reflexivity.
Qed.

(** An arrival twenty minutes ago reads "imminent". *)
Lemma formatETA_bands_witness :
  Alerts.formatETA (H := RefHost.host) 1200000 "0" = "imminent".
Proof.
  refine (proj1 (proj2 (formatETA_bands (H := RefHost.host) 1200000 "0")) _).
  vm_compute. split; [discriminate | reflexivity].
Defined.

(* ===================================================================== *)
(** ** Dispatch of the alerts of a run                                    *)
(* ===================================================================== *)

Lemma filter_partition_perm {A} (p : A -> bool) (l : list A) :
  Permutation (List.filter (fun a => negb (p a)) l ++ List.filter p l) l.
Proof.
  induction l as [|x l IH]; [constructor|].
  cbn [List.filter]. destruct (p x); cbn [negb].
  - symmetry. apply Permutation_cons_app. symmetry. exact IH.
  - cbn [app]. constructor. exact IH.
Qed.

(** X6.  [dispatchAlerts] hands every alert that is not of info urgency
    to [dispatchAlert] on its own, in the order of the input, and after
    them the info alerts in one call: the only one as it is, or, for two
    and more, one alert of type info-batch whose title counts them and
    whose body joins their titles.  With at most one info alert the calls
    are a permutation of the input: nothing is lost and nothing is sent
    twice. *)
Theorem dispatchAlerts_batches_info `{Host} (cfg : Config) (hour nowMs : Z)
    (alerts : list SpaceWeatherAlert) :
  let infoAlerts := List.filter (fun a => urgency_eqb (alert_urgency a) info) alerts in
  let otherAlerts :=
    List.filter (fun a => negb (urgency_eqb (alert_urgency a) info)) alerts in
  let calls := Notify.dispatchAlerts cfg hour nowMs alerts in
  Forall (fun call => call.2 = Notify.dispatchAlert cfg hour call.1) calls
  /\ length calls = (length otherAlerts + Nat.min 1 (length infoAlerts))%nat
  /\ ((length infoAlerts <= 1)%nat ->
      fst <$> calls = (otherAlerts ++ infoAlerts)%list
      /\ Permutation (fst <$> calls) alerts)
  /\ ((2 <= length infoAlerts)%nat ->
      exists batch,
        fst <$> calls = (otherAlerts ++ [batch])%list
        /\ alert_type batch = "info-batch" /\ alert_urgency batch = info
        /\ alert_title batch
           = Js.intToString (Z.of_nat (length infoAlerts)) +:+ " Space Weather Updates"
        /\ alert_body batch = Notify.join " · " (alert_title <$> infoAlerts)).
Proof.
  intros infoAlerts otherAlerts calls. subst calls. unfold Notify.dispatchAlerts.
  fold infoAlerts otherAlerts.
  assert (Hother : fst <$> ((fun a => (a, Notify.dispatchAlert cfg hour a)) <$> otherAlerts)
                   = otherAlerts).
  { rewrite <- list_fmap_compose. apply list_fmap_id. }
  assert (Hcalls : Forall (fun call : SpaceWeatherAlert * option (list Notify.Send) =>
                             call.2 = Notify.dispatchAlert cfg hour call.1)
                     ((fun a => (a, Notify.dispatchAlert cfg hour a)) <$> otherAlerts)).
  { apply Forall_fmap, Forall_true. reflexivity. }
  pose proof (filter_partition_perm (fun a => urgency_eqb (alert_urgency a) info) alerts)
    as Hperm. fold infoAlerts otherAlerts in Hperm.
  destruct infoAlerts as [|a [|b rest]].
  - rewrite app_nil_r in *. rewrite Hother, length_fmap.
    split; [exact Hcalls|]. split; [cbn; lia|].
    split; [|cbn; lia].
    intros _. rewrite app_nil_r. split; [reflexivity | exact Hperm].
  - rewrite fmap_app, Hother, length_app, length_fmap.
    split. { apply Forall_app. split; [exact Hcalls | repeat constructor]. }
    split; [reflexivity|]. split; [|cbn; lia].
    intros _. split; [reflexivity | exact Hperm].
  - rewrite fmap_app, Hother, length_app, length_fmap.
    split. { apply Forall_app. split; [exact Hcalls | repeat constructor]. }
    split; [reflexivity|]. split; [cbn; lia|].
    intros _. eexists. split; [reflexivity|]. repeat split.
Qed.

(** Two info alerts around a high one: the high one goes out first, the
    two info alerts as one batch. *)
Lemma dispatchAlerts_batches_info_witness :
  let alerts :=
    [ DispatchScenario.alertOf "a" info "Kp Elevated to 4";
      DispatchScenario.alertOf "b" high "Kp 5.3";
      DispatchScenario.alertOf "c" info "New Active Region 3664" ] in
  exists batch,
    fst <$> Notify.dispatchAlerts (H := RefHost.host) CONFIG 12 1000 alerts
    = [ DispatchScenario.alertOf "b" high "Kp 5.3"; batch ]
    /\ alert_type batch = "info-batch" /\ alert_urgency batch = info
    /\ alert_title batch = "2 Space Weather Updates"
    /\ alert_body batch = "Kp Elevated to 4 · New Active Region 3664".
Proof.
  cbv zeta.
  refine (proj2 (proj2 (proj2
            (dispatchAlerts_batches_info (H := RefHost.host) CONFIG 12 1000 _))) _).
  vm_compute. lia.
Defined.

(** The calls of [dispatchAlerts]: one per alert that is not info, then
    at most one for the info alerts. *)
Lemma dispatchAlerts_eq `{Host} cfg hour nowMs alerts :
  exists batchPart,
    Notify.dispatchAlerts cfg hour nowMs alerts
    = (((fun a => (a, Notify.dispatchAlert cfg hour a))
         <$> List.filter (fun a => negb (urgency_eqb (alert_urgency a) info)) alerts)
      ++ batchPart)%list
    /\ Forall (fun e => alert_urgency e.1 = info
                        /\ e.2 = Notify.dispatchAlert cfg hour e.1) batchPart.
Proof.
  unfold Notify.dispatchAlerts.
  set (infoAlerts := List.filter (fun a => urgency_eqb (alert_urgency a) info) alerts).
  assert (Hinfo : Forall (fun a => alert_urgency a = info) infoAlerts).
  { apply List.Forall_forall. intros a [_ Ha]%filter_In.
    apply urgency_eqb_spec. exact Ha. }
  eexists. split; [reflexivity|].
  destruct infoAlerts as [|a [|b rest]].
  - constructor.
  - constructor; [|constructor].
    split; [|reflexivity]. inversion Hinfo; assumption.
  - constructor; [|constructor]. split; reflexivity.
Qed.

Lemma dispatchAlert_critical cfg hour a :
  alert_urgency a = critical ->
  Notify.dispatchAlert cfg hour a
  = Some (flat_map (Notify.sendVia a) (channels cfg critical)).
Proof. intros E. unfold Notify.dispatchAlert. rewrite E. reflexivity. Qed.


(** What a run hands to the transports. *)
Lemma tick_dispatch `{Host} cfg pid i state fs :
  Checker.out_dispatch (Checker.tick cfg pid i state fs)
  = match Checker.alertsToSend cfg i state with
    | [] => []
    | toSend => Notify.dispatchAlerts cfg (Checker.in_hour i) (Checker.in_now i) toSend
    end.
Proof.
  unfold Checker.tick.
  destruct (State.saveState cfg pid (Checker.updateState cfg i state) fs) as [saved fs'].
  cbn [Checker.out_dispatch].
  destruct (Checker.alertsToSend cfg i state); reflexivity.
Qed.

(** X7.  A critical alert that passes the cooldown filter of a run is
    handed to the channels of critical urgency, on its own, whatever the
    local hour and whatever else the run sends; with the shipped channel
    table these are Signal and then the desktop. *)
Theorem critical_always_delivered `{Host} (cfg : Config) (pid : Z)
    (i : Checker.TickInput) (state : CheckerState) (fs : gmap string Js.text)
    (a : SpaceWeatherAlert) :
  In a (Checker.out_sent (Checker.tick cfg pid i state fs)) ->
  alert_urgency a = critical ->
  In (a, Some (flat_map (Notify.sendVia a) (channels cfg critical)))
     (Checker.out_dispatch (Checker.tick cfg pid i state fs))
  /\ flat_map (Notify.sendVia a) (channels CONFIG critical)
     = [Notify.sendSignalMessage a; Notify.sendDesktopNotification a].
Proof.
  intros Hin Hcrit. split; [|reflexivity].
  destruct (tick_eq cfg pid i state fs) as (Hsent & _ & _). rewrite Hsent in Hin.
  rewrite tick_dispatch.
  destruct (Checker.alertsToSend cfg i state) as [|x l] eqn:E; [destruct Hin|].
  destruct (dispatchAlerts_eq cfg (Checker.in_hour i) (Checker.in_now i) (x :: l))
    as (batchPart & -> & _).
  apply in_or_app. left. apply in_map_iff. exists a. split.
  - rewrite (dispatchAlert_critical cfg _ a Hcrit). reflexivity.
  - apply filter_In. split; [exact Hin|]. rewrite Hcrit. reflexivity.
Qed.

(** Kp jumps from 4 to 7.3 at two in the morning: the alert goes to
    Signal and to the desktop. *)
Lemma critical_always_delivered_witness :
  exists a,
    Checker.out_sent
      (Checker.tick (H := RefHost.host) CONFIG 77 DispatchScenario.nightSevere
         Scenario.afterKp4 ∅) = [a]
    /\ alert_id a = "kp-cross-7-1000"
    /\ In (a, Some [Notify.sendSignalMessage a; Notify.sendDesktopNotification a])
          (Checker.out_dispatch
             (Checker.tick (H := RefHost.host) CONFIG 77 DispatchScenario.nightSevere
                Scenario.afterKp4 ∅)).
Proof.
  eexists. split; [vm_compute; reflexivity|]. split; [reflexivity|].
  refine (proj1 (critical_always_delivered (H := RefHost.host) CONFIG 77
                   DispatchScenario.nightSevere Scenario.afterKp4 ∅ _ _ _)).
  - vm_compute. left. reflexivity.
  - reflexivity.
Defined.



(** *** The command lines *)

Lemma append_cons (x : ascii) (a b : string) : String x a +:+ b = String x (a +:+ b).
Proof. reflexivity. Qed.

Lemma append_nil (b : string) : EmptyString +:+ b = b.
Proof. reflexivity. Qed.

Lemma append_assoc (a b c : string) : (a +:+ b) +:+ c = a +:+ (b +:+ c).
Proof.
  induction a as [|x a IH]; [reflexivity|].
  rewrite !append_cons, IH. reflexivity.
Qed.

Lemma append_empty (a : string) : a +:+ EmptyString = a.
Proof.
  induction a as [|x a IH]; [reflexivity|].
  rewrite append_cons, IH. reflexivity.
Qed.

Lemma replaceAll_app c by_ a b :
  Notify.replaceAll c by_ (a +:+ b)
  = Notify.replaceAll c by_ a +:+ Notify.replaceAll c by_ b.
Proof.
  induction a as [|x a IH]; [reflexivity|].
  rewrite append_cons. cbn [Notify.replaceAll].
  destruct (Ascii.eqb x c); rewrite IH.
  - symmetry. apply append_assoc.
  - reflexivity.
Qed.

(** Inside the quotes that [escapeShellArg] opens. *)
Lemma shWord_quoted (s rest : string) :
  shWord false rest = Some (EmptyString, rest) ->
  shWord true
    (Notify.replaceAll Notify.squote
       (String Notify.squote (String Notify.backslash
          (String Notify.squote (String Notify.squote EmptyString)))) s
     +:+ String Notify.squote rest)
  = Some (s, rest).
Proof.
  intros Hrest. induction s as [|c s IH].
  - cbn [Notify.replaceAll]. rewrite append_nil. cbn [shWord].
    change (Ascii.eqb Notify.squote Notify.squote) with true. cbn iota. exact Hrest.
  - cbn [Notify.replaceAll].
    destruct (Ascii.eqb c Notify.squote) eqn:E.
    + apply Ascii.eqb_eq in E. subst c.
      rewrite append_assoc, !append_cons, append_nil.
      cbn [shWord].
      change (Ascii.eqb Notify.squote Notify.squote) with true.
      change (Ascii.eqb Notify.backslash Notify.squote) with false.
      change (Ascii.eqb Notify.backslash Notify.backslash) with true.
      change (Ascii.eqb Notify.squote Notify.newline) with false.
      cbn iota. rewrite IH. reflexivity.
    + rewrite append_cons. cbn [shWord]. rewrite E, IH. reflexivity.
Qed.

Lemma escapeShellArg_word (s rest : string) :
  shWord false rest = Some (EmptyString, rest) ->
  shWord false (Notify.escapeShellArg s +:+ rest) = Some (s, rest).
Proof.
  intros Hrest. unfold Notify.escapeShellArg.
  rewrite append_cons. cbn [shWord].
  change (Ascii.eqb Notify.squote Notify.squote) with true. cbn iota.
  rewrite append_assoc, append_cons, append_nil.
  apply shWord_quoted. exact Hrest.
Qed.

(** X9.  What [escapeShellArg] returns is one word for the shell, and the
    word is the argument itself, whatever characters it holds, single
    quotes included.  So in the command of [sendSignalMessage] the word
    after [-m] is the message (urgency mark, title, line break, body) and
    the recipient follows it; no command is made when the account or the
    recipient is not configured. *)
Theorem signal_message_is_one_word (account recipient : string)
    (alert : SpaceWeatherAlert) :
  account <> EmptyString -> recipient <> EmptyString ->
  (forall s, shWord false (Notify.escapeShellArg s) = Some (s, EmptyString))
  /\ (forall s rest,
        shWord false (Notify.escapeShellArg s +:+ String " " rest)
        = Some (s, String " " rest))
  /\ Notify.signalCommand (Some account) (Some recipient) alert
     = Some (Notify.signalCli +:+ " -a " +:+ account +:+ " send -m "
             +:+ Notify.escapeShellArg (Notify.signalMessage alert)
             +:+ " " +:+ recipient)
  /\ shWord false
       (Notify.escapeShellArg (Notify.signalMessage alert) +:+ " " +:+ recipient)
     = Some (Notify.signalMessage alert, " " +:+ recipient)
  /\ Notify.signalCommand None (Some recipient) alert = None
  /\ Notify.signalCommand (Some account) None alert = None
  /\ Notify.signalCommand (Some EmptyString) (Some recipient) alert = None.
Proof.
  intros Ha Hr.
  split.
  { intros s. pose proof (escapeShellArg_word s EmptyString eq_refl) as E.
    rewrite append_empty in E. exact E. }
  split.
  { intros s rest. apply escapeShellArg_word. reflexivity. }
  split.
  { unfold Notify.signalCommand. cbn [Js.truthyStr default].
    destruct (String.eqb_spec account ""); [contradiction|].
    destruct (String.eqb_spec recipient ""); [contradiction|]. reflexivity. }
  split.
  { apply (escapeShellArg_word _ (" " +:+ recipient)). reflexivity. }
  split; [reflexivity|].
  split; [|reflexivity].
  unfold Notify.signalCommand. cbn [Js.truthyStr negb]. rewrite orb_true_r. reflexivity.
Qed.

(** A title with an apostrophe: the message comes back as it was. *)
Lemma signal_message_is_one_word_witness :
  let alert := DispatchScenario.alertOf "a" high "Sun's X1.2 flare" in
  shWord false
    (Notify.escapeShellArg (Notify.signalMessage alert) +:+ " " +:+ "+15550100")
  = Some (Notify.signalMessage alert, " " +:+ "+15550100").
Proof.
  cbv zeta.
  refine (proj1 (proj2 (proj2 (proj2
            (signal_message_is_one_word "+15550199" "+15550100" _ _ _))))).
  - discriminate.
  - discriminate.
Defined.

Lemma escapeOsa_cons (c : ascii) (s : string) :
  Notify.escapeOsa (String c s)
  = (if Ascii.eqb c Notify.backslash
     then String Notify.backslash (String Notify.backslash EmptyString)
     else if Ascii.eqb c Notify.dquote
          then String Notify.backslash (String Notify.dquote EmptyString)
          else String c EmptyString)
    +:+ Notify.escapeOsa s.
Proof.
  unfold Notify.escapeOsa. cbn [Notify.replaceAll].
  destruct (Ascii.eqb c Notify.backslash) eqn:Eb.
  - rewrite replaceAll_app. reflexivity.
  - cbn [Notify.replaceAll]. destruct (Ascii.eqb c Notify.dquote); reflexivity.
Qed.

Lemma escapeOsa_literal (s rest : string) :
  osaLiteral (Notify.escapeOsa s +:+ String Notify.dquote rest) = Some (s, rest).
Proof.
  induction s as [|c s IH].
  - reflexivity.
  - rewrite escapeOsa_cons.
    destruct (Ascii.eqb c Notify.backslash) eqn:Eb.
    + apply Ascii.eqb_eq in Eb. subst c.
      rewrite !append_cons, append_nil. cbn [osaLiteral].
      change (Ascii.eqb Notify.backslash Notify.dquote) with false.
      change (Ascii.eqb Notify.backslash Notify.backslash) with true.
      cbn iota. cbn [orb]. rewrite IH. reflexivity.
    + destruct (Ascii.eqb c Notify.dquote) eqn:Eq.
      * apply Ascii.eqb_eq in Eq. subst c.
        rewrite !append_cons, append_nil. cbn [osaLiteral].
        change (Ascii.eqb Notify.backslash Notify.dquote) with false.
        change (Ascii.eqb Notify.backslash Notify.backslash) with true.
        change (Ascii.eqb Notify.dquote Notify.backslash) with false.
        change (Ascii.eqb Notify.dquote Notify.dquote) with true.
        cbn iota. cbn [orb]. rewrite IH. reflexivity.
      * rewrite !append_cons, append_nil. cbn [osaLiteral].
        rewrite Eq, Eb, IH. reflexivity.
Qed.

(** X10.  A text escaped by [escapeOsa] and put between double quotes is
    one AppleScript string literal that denotes the text, whatever
    backslashes and double quotes it holds.  So the script of
    [sendDesktopNotification] is "display notification", the body of the
    alert as a literal, "with title", the title (with the mark of its
    urgency put before it) as a literal, and the fixed subtitle and the
    sound of the urgency. *)
Theorem desktop_script_literals (alert : SpaceWeatherAlert) :
  let tail :=
    " subtitle " +:+ String Notify.dquote "Space Weather"
    +:+ String Notify.dquote " sound name "
    +:+ String Notify.dquote (Notify.sound (alert_urgency alert))
    +:+ String Notify.dquote EmptyString in
  (forall s rest,
      osaLiteral (Notify.escapeOsa s +:+ String Notify.dquote rest) = Some (s, rest))
  /\ exists afterBody afterTitle,
      Notify.desktopScript alert
      = "display notification " +:+ String Notify.dquote afterBody
      /\ osaLiteral afterBody
         = Some (alert_body alert, " with title " +:+ String Notify.dquote afterTitle)
      /\ osaLiteral afterTitle = Some (Notify.desktopTitle alert, tail).
Proof.
  intros tail.
  split; [apply escapeOsa_literal|].
  exists (Notify.escapeOsa (alert_body alert)
          +:+ String Notify.dquote
                (" with title "
                 +:+ String Notify.dquote
                       (Notify.escapeOsa (Notify.desktopTitle alert)
                        +:+ String Notify.dquote tail))),
         (Notify.escapeOsa (Notify.desktopTitle alert) +:+ String Notify.dquote tail).
  split; [reflexivity|].
  split; apply escapeOsa_literal.
Qed.

Lemma hasChar_app c a b : hasChar c (a +:+ b) = hasChar c a || hasChar c b.
Proof.
  induction a as [|x a IH]; [reflexivity|].
  rewrite append_cons. cbn [hasChar]. rewrite IH, orb_assoc. reflexivity.
Qed.

Lemma hasChar_replaceAll_other c x by_ s :
  Ascii.eqb x c = false -> hasChar c by_ = false ->
  hasChar c (Notify.replaceAll x by_ s) = hasChar c s.
Proof.
  intros Hx Hby. induction s as [|y s IH]; [reflexivity|].
  cbn [hasChar Notify.replaceAll].
  destruct (Ascii.eqb y x) eqn:E.
  - apply Ascii.eqb_eq in E. subst y. rewrite hasChar_app, Hby, Hx, IH. reflexivity.
  - cbn [hasChar]. rewrite IH. reflexivity.
Qed.

Lemma hasChar_squote_escapeOsa s :
  hasChar Notify.squote (Notify.escapeOsa s) = hasChar Notify.squote s.
Proof.
  unfold Notify.escapeOsa.
  rewrite !hasChar_replaceAll_other by reflexivity. reflexivity.
Qed.

Lemma hasChar_squote_desktopScript alert :
  hasChar Notify.squote (Notify.desktopScript alert)
  = hasChar Notify.squote (alert_title alert) || hasChar Notify.squote (alert_body alert).
Proof.
  assert (Htitle : hasChar Notify.squote (Notify.desktopTitle alert)
                   = hasChar Notify.squote (alert_title alert)).
  { unfold Notify.desktopTitle.
    destruct (alert_urgency alert); cbn [negb String.eqb Ascii.eqb];
      try reflexivity; rewrite hasChar_app; reflexivity. }
  unfold Notify.desktopScript. rewrite !hasChar_app. cbn [hasChar].
  rewrite !hasChar_squote_escapeOsa, Htitle.
  destruct (alert_urgency alert); cbn;
    destruct (hasChar Notify.squote (alert_title alert)),
             (hasChar Notify.squote (alert_body alert)); reflexivity.
Qed.

Lemma shWord_plain (s : string) :
  hasChar Notify.squote s = false ->
  shWord true (s +:+ String Notify.squote EmptyString) = Some (s, EmptyString).
Proof.
  induction s as [|c s IH].
  - reflexivity.
  - cbn [hasChar]. intros [Hc Hs]%orb_false_iff.
    rewrite append_cons. cbn [shWord]. rewrite Hc, IH by exact Hs. reflexivity.
Qed.

(** Outside quotes no character of the input becomes a character of the
    word without another one being used up. *)
Lemma shWord_length (n : nat) :
  forall q s w rest,
    (String.length s <= n)%nat ->
    shWord q s = Some (w, rest) ->
    (String.length w + String.length rest + (if q then 1 else 0) <= String.length s)%nat
    /\ (q = false -> s <> EmptyString -> rest = EmptyString ->
        (String.length w + 1 <= String.length s)%nat).
Proof.
  induction n as [|n IH]; intros q s w rest Hn Hw.
  - destruct s; [|cbn in Hn; lia]. destruct q; cbn in Hw; [discriminate|].
    injection Hw as <- <-. split; [cbn; lia | intros _ N; contradiction].
  - destruct s as [|c s]. 
    { destruct q; cbn in Hw; [discriminate|].
      injection Hw as <- <-. split; [cbn; lia | intros _ N; contradiction]. }
    cbn [String.length] in Hn. cbn [shWord] in Hw. destruct q.
    + destruct (Ascii.eqb c Notify.squote).
      * destruct (IH false s w rest ltac:(lia) Hw) as [H1 _].
        split; [cbn [String.length]; lia | discriminate].
      * destruct (shWord true s) as [[w' r']|] eqn:E; [|discriminate].
        cbn in Hw. injection Hw as <- <-.
        destruct (IH true s w' r' ltac:(lia) E) as [H1 _].
        split; [cbn [String.length]; lia | discriminate].
    + destruct (Ascii.eqb c Notify.squote).
      * destruct (IH true s w rest ltac:(lia) Hw) as [H1 _].
        split; [cbn [String.length]; lia | intros _ _ _; cbn [String.length]; lia].
      * destruct (Ascii.eqb c Notify.backslash).
        -- destruct s as [|d s]; [discriminate|].
           destruct (Ascii.eqb d Notify.newline); [discriminate|].
           destruct (shWord false s) as [[w' r']|] eqn:E; [|discriminate].
           cbn in Hw. injection Hw as <- <-. cbn [String.length] in *.
           destruct (IH false s w' r' ltac:(lia) E) as [H1 _].
           split; [lia | intros _ _ _; lia].
        -- destruct (Ascii.eqb c " "); [|discriminate].
           injection Hw as <- <-. split; [cbn [String.length]; lia|].
           intros _ _ N. discriminate N.
Qed.

Lemma length_append (a b : string) :
  String.length (a +:+ b) = (String.length a + String.length b)%nat.
Proof.
  induction a as [|c a IH]; [reflexivity|].
  rewrite append_cons. cbn [String.length]. rewrite IH. reflexivity.
Qed.

(** A text with a single quote, between single quotes, is not read back. *)
Lemma shWord_broken (s : string) :
  hasChar Notify.squote s = true ->
  forall w, shWord true (s +:+ String Notify.squote EmptyString) = Some (w, EmptyString) ->
            (String.length w < String.length s)%nat.
Proof.
  induction s as [|c s IH]; [discriminate|].
  cbn [hasChar]. intros Hc w Hw. rewrite append_cons in Hw. cbn [shWord] in Hw.
  destruct (Ascii.eqb c Notify.squote) eqn:E.
  - destruct (shWord_length _ false _ w EmptyString (le_n _) Hw) as [_ H2].
    specialize (H2 eq_refl).
    rewrite length_append in H2. cbn [String.length] in *.
    assert (s +:+ String Notify.squote EmptyString <> EmptyString).
    { destruct s; [rewrite append_nil | rewrite append_cons]; discriminate. }
    specialize (H2 H eq_refl). lia.
  - cbn [orb] in Hc.
    destruct (shWord true (s +:+ String Notify.squote EmptyString)) as [[w' r']|] eqn:Es;
      [|discriminate].
    cbn in Hw. injection Hw as <- ->. cbn [String.length].
    specialize (IH Hc w' eq_refl). lia.
Qed.

(** X11.  The command of [sendDesktopNotification] puts the script between
    single quotes as it is: single quotes are not escaped.  For an alert
    whose title and body hold no single quote, the quoted script is one
    word for the shell, and the word is the script.  For an alert with a
    single quote in its title or its body, the shell does not read the
    script back from it. *)
Theorem desktop_command_words (alert : SpaceWeatherAlert) :
  exists quotedScript,
    Notify.desktopCommand alert = "osascript -e " +:+ quotedScript
    /\ (hasChar Notify.squote (alert_title alert) = false ->
        hasChar Notify.squote (alert_body alert) = false ->
        shWord false quotedScript = Some (Notify.desktopScript alert, EmptyString))
    /\ (hasChar Notify.squote (alert_title alert) = true
        \/ hasChar Notify.squote (alert_body alert) = true ->
        shWord false quotedScript <> Some (Notify.desktopScript alert, EmptyString)).
Proof.
  exists (String Notify.squote (Notify.desktopScript alert +:+ String Notify.squote EmptyString)).
  split; [reflexivity|].
  cbn [shWord]. change (Ascii.eqb Notify.squote Notify.squote) with true. cbn iota.
  pose proof (hasChar_squote_desktopScript alert) as Hscript.
  split.
  - intros Ht Hb. apply shWord_plain. rewrite Hscript, Ht, Hb. reflexivity.
  - intros Hq E.
    assert (Hs : hasChar Notify.squote (Notify.desktopScript alert) = true).
    { rewrite Hscript. destruct Hq as [-> | ->]; [reflexivity | apply orb_true_r]. }
    pose proof (shWord_broken _ Hs _ E). lia.
Qed.

(** A Kp alert: its script is the one word after [-e].  With an
    apostrophe in the title the word ends early and is not read. *)
Lemma desktop_command_words_witness :
  let alert := DispatchScenario.alertOf "a" high "Kp 5.3" in
  let broken := DispatchScenario.alertOf "b" high "Sun's X1.2 flare" in
  shWord false
    (String Notify.squote (Notify.desktopScript alert +:+ String Notify.squote EmptyString))
  = Some (Notify.desktopScript alert, EmptyString)
  /\ shWord false
       (String Notify.squote (Notify.desktopScript broken +:+ String Notify.squote EmptyString))
     = None.
Proof.
  cbv zeta. split; [|vm_compute; reflexivity].
  destruct (desktop_command_words (DispatchScenario.alertOf "a" high "Kp 5.3"))
    as (quoted & Hcmd & Hplain & _).
  assert (Hq : quoted = String Notify.squote
                 (Notify.desktopScript (DispatchScenario.alertOf "a" high "Kp 5.3")
                  +:+ String Notify.squote EmptyString)).
  { vm_compute in Hcmd. injection Hcmd as <-. vm_compute. reflexivity. }
  rewrite <- Hq. apply Hplain; reflexivity.
Defined.

(* ===================================================================== *)
(** ** From the fetches of a run to its state                             *)
(* ===================================================================== *)

Lemma filter_typeIn_nil_app (t1 t2 : list string) (l : list SpaceWeatherAlert) :
  List.filter (typeIn t1) l = [] -> List.filter (typeIn t2) l = [] ->
  List.filter (typeIn (t1 ++ t2)) l = [].
Proof.
  induction l as [|a l IH]; [reflexivity|]. cbn [List.filter].
  replace (typeIn (t1 ++ t2) a) with (typeIn t1 a || typeIn t2 a)
    by (unfold typeIn; symmetry; apply existsb_app).
  destruct (typeIn t1 a); [discriminate|].
  destruct (typeIn t2 a); [discriminate|].
  exact IH.
Qed.

(** Recording cooldowns changes [lastCooldowns] only. *)
Lemma recordCooldowns_keep `{Host} {A} (g : CheckerState -> A) (nowMs : Z)
      (l : list SpaceWeatherAlert) (s : CheckerState) :
  (forall ty st, g (State.recordCooldown nowMs ty st) = g st) ->
  g (fold_left (fun st alert => State.recordCooldown nowMs (alert_type alert) st) l s)
  = g s.
Proof.
  intros Hg. revert s. induction l as [|a l IH]; intros s; [reflexivity|].
  cbn [fold_left]. rewrite IH. apply Hg.
Qed.

(** The state of a run, but for the cap on its history. *)
Lemma tick_state `{Host} cfg pid i state fs :
  Checker.out_state (Checker.tick cfg pid i state fs)
  = State.with_alertsSent
      (alertsSent (Checker.out_state (Checker.tick cfg pid i state fs)))
      (Checker.updateState cfg i state).
Proof.
  destruct (tick_eq cfg pid i state fs) as (_ & -> & _).
  rewrite saveState_eq. reflexivity.
Qed.

(** X12.  A run without readings (SWPC cannot be reached and the
    real-time feeds give nothing) evaluates Kp as the stored Kp and the
    field, the wind speed and the density as 0.  It raises no Kp, Bz,
    wind-speed or density alert; but when the stored state has the wind
    flagged above 700 km/s it sends the all-clear "Solar Wind Easing: 0
    km/s", and when it has the field flagged below -15 nT the all-clear
    "Bz Recovering".  The run keeps the stored last readings and resets
    the Bz, wind and density flags. *)
Theorem outage_reads_as_calm `{Host} (cfg : Config) (pid nowMs hour : Z)
    (f : Checker.Fetches) (state : CheckerState) (fs : gmap string Js.text) :
  noReadings f ->
  let i := Checker.mainInput nowMs hour f state in
  let all :=
    Alerts.evaluateAlerts cfg nowMs (Checker.in_snapshot i)
      (Checker.in_activeRegions i) state in
  let after := Checker.out_state (Checker.tick cfg pid i state fs) in
  snap_kp (Checker.in_snapshot i) = lastKp state
  /\ List.filter (typeIn (kpTypes ++ bzTypes ++ windTypes ++ densityTypes)) all = []
  /\ (windWasAbove700 state = true ->
      exists a, In a all /\ alert_type a = "all-clear"
                /\ alert_title a = "Solar Wind Easing: 0 km/s")
  /\ (bzWasBelow15 state = true ->
      exists a, In a all /\ alert_type a = "all-clear"
                /\ alert_title a = "Bz Recovering: " +:+ toFixed1 0 +:+ " nT")
  /\ lastKp after = lastKp state /\ lastBz after = lastBz state
  /\ lastWindSpeed after = lastWindSpeed state
  /\ lastWindDensity after = lastWindDensity state
  /\ bzWasBelow10 after = false /\ bzWasBelow15 after = false
  /\ windWasAbove600 after = false /\ windWasAbove700 after = false
  /\ densityWasAbove20 after = false.
Proof.
  intros ([message Hswpc] & Hwind & Hmag) i all after.
  assert (Hkp : snap_kp (Checker.in_snapshot i) = lastKp state).
  { subst i. cbn [Checker.mainInput Checker.in_snapshot Checker.mainSnapshot snap_kp].
    rewrite Hswpc. reflexivity. }
  assert (Hsw : snap_solarWind (Checker.in_snapshot i) = None).
  { subst i. cbn [Checker.mainInput Checker.in_snapshot Checker.mainSnapshot snap_solarWind].
    rewrite Hwind, Hswpc. reflexivity. }
  assert (Hmf : snap_magneticField (Checker.in_snapshot i) = None).
  { subst i.
    cbn [Checker.mainInput Checker.in_snapshot Checker.mainSnapshot snap_magneticField].
    rewrite Hmag, Hswpc. reflexivity. }
  split; [exact Hkp|].
  split.
  { subst all. repeat apply filter_typeIn_nil_app.
    - rewrite evaluateAlerts_kp. unfold Alerts.kpAlerts.
      rewrite Hkp, !geb_ltb_same. reflexivity.
    - rewrite evaluateAlerts_bz. unfold Alerts.bzAlerts, Alerts.currentBz.
      rewrite Hmf. reflexivity.
    - rewrite evaluateAlerts_windSpeed.
      unfold Alerts.windSpeedAlerts, Alerts.currentWindSpeed. rewrite Hsw. reflexivity.
    - rewrite evaluateAlerts_density.
      unfold Alerts.densityAlerts, Alerts.currentDensity. rewrite Hsw. reflexivity. }
  assert (Hclear : forall a, In a (Alerts.allClearAlerts nowMs (Checker.in_snapshot i) state)
                             -> In a all).
  { intros a Ha. subst all.
    rewrite <- (evaluateAlerts_allClear cfg nowMs _ (Checker.in_activeRegions i) state)
      in Ha.
    apply filter_In in Ha as [Ha _]. exact Ha. }
  split.
  { intros Hw. eexists. split; [apply Hclear|].
    - unfold Alerts.allClearAlerts, Alerts.currentWindSpeed. rewrite Hsw, Hw.
      apply in_or_app. right. apply in_or_app. right. left. reflexivity.
    - split; reflexivity. }
  split.
  { intros Hb. eexists. split; [apply Hclear|].
    - unfold Alerts.allClearAlerts, Alerts.currentBz. rewrite Hmf, Hb.
      apply in_or_app. right. apply in_or_app. left. left. reflexivity.
    - split; reflexivity. }
  subst after. rewrite tick_state.
  cbn [State.with_alertsSent Checker.updateState lastKp lastBz lastWindSpeed
       lastWindDensity bzWasBelow10 bzWasBelow15 windWasAbove600 windWasAbove700
       densityWasAbove20].
  unfold Alerts.currentBz, Alerts.currentWindSpeed, Alerts.currentDensity.
  rewrite Hkp, Hsw, Hmf.
  repeat split; try reflexivity;
    apply (recordCooldowns_keep _ (Checker.in_now i)); reflexivity.
Qed.

(** Every fetch fails after a run in fast wind: the run sends the two
    all-clears of wind and field, and the one of Kp does not go out. *)
Lemma outage_reads_as_calm_witness :
  map alert_id
    (Checker.out_sent
       (Checker.tick (H := RefHost.host) CONFIG 77
          (Checker.mainInput (H := RefHost.host) 1000 12 OutageScenario.allDown
             OutageScenario.stormy)
          OutageScenario.stormy ∅))
  = ["all-clear-bz15-1000"; "all-clear-wind700-1000"]
  /\ lastWindSpeed
       (Checker.out_state
          (Checker.tick (H := RefHost.host) CONFIG 77
             (Checker.mainInput (H := RefHost.host) 1000 12 OutageScenario.allDown
                OutageScenario.stormy)
             OutageScenario.stormy ∅)) = 750%Q
  /\ windWasAbove700
       (Checker.out_state
          (Checker.tick (H := RefHost.host) CONFIG 77
             (Checker.mainInput (H := RefHost.host) 1000 12 OutageScenario.allDown
                OutageScenario.stormy)
             OutageScenario.stormy ∅)) = false.
Proof.
  split; [vm_compute; reflexivity|].
  assert (Hno : noReadings OutageScenario.allDown).
  { split; [eexists; reflexivity | split; reflexivity]. }
  pose proof (outage_reads_as_calm (H := RefHost.host) CONFIG 77 1000 12
                OutageScenario.allDown OutageScenario.stormy ∅ Hno) as Hout.
  cbv zeta in Hout.
  destruct Hout as (_ & _ & _ & _ & _ & _ & Hspeed & _ & _ & _ & _ & Hflag & _).
  split; [exact Hspeed | exact Hflag].
Defined.

(** X13.  The lists of known events are replaced in each run by the
    events of its feed.  So a run in which DONKI cannot be reached leaves
    no known CME, flare or stream, and the next evaluation raises a
    cme-earth alert for every Earth-directed CME of its feed and a flare-x
    alert for every flare of its feed whose class starts with X, whether
    or not they had been alerted before; likewise a run in which the
    regions cannot be fetched leaves no known region.  After a run whose
    DONKI fetch went through, the flares of that feed raise nothing. *)
Theorem outage_forgets_known_events `{Host} (cfg : Config) (pid nowMs hour : Z)
    (f : Checker.Fetches) (state : CheckerState) (fs : gmap string Js.text)
    (later : Z) (snapshot : SpaceWeatherSnapshot) (regions : list ActiveRegion) :
  let after :=
    Checker.out_state
      (Checker.tick cfg pid (Checker.mainInput nowMs hour f state) state fs) in
  let next := Alerts.evaluateAlerts cfg later snapshot regions after in
  ((exists message, Checker.fetchAllDONKI f = inl message) ->
   knownCMEs after = [] /\ knownFlareIds after = [] /\ knownHSSIds after = []
   /\ (forall flare,
         In flare (snap_recentFlares snapshot) ->
         Js.charAt0 (flare_classType flare) = "X" ->
         exists a, In a next /\ alert_id a = "flare-" +:+ flare_id flare
                   /\ alert_type a = "flare-x")
   /\ (forall cme,
         In cme (snap_earthDirectedCMEs snapshot) ->
         exists a, In a next /\ alert_id a = "cme-earth-" +:+ cme_id cme
                   /\ alert_type a = "cme-earth"))
  /\ ((exists message, Checker.fetchActiveRegions f = inl message) ->
      knownRegionNumbers after = [])
  /\ (forall data, Checker.fetchAllDONKI f = inr (Some data) ->
      knownFlareIds after = flare_id <$> Donki.donki_flares data
      /\ forall flare,
          In flare (Donki.donki_flares data) ->
          Alerts.flareAlerts cfg later after flare = []).
Proof.
  intros after next.
  pose proof (tick_state cfg pid (Checker.mainInput nowMs hour f state) state fs)
    as Hafter. fold after in Hafter.
  split.
  { intros [message Hd].
    assert (Hc : knownCMEs after = []).
    { rewrite Hafter. cbn. rewrite Hd. reflexivity. }
    assert (Hf : knownFlareIds after = []).
    { rewrite Hafter. cbn. rewrite Hd. reflexivity. }
    assert (Hh : knownHSSIds after = []).
    { rewrite Hafter. cbn. rewrite Hd. reflexivity. }
    split; [exact Hc|]. split; [exact Hf|]. split; [exact Hh|].
    split.
    - intros flare Hin HX. subst next. unfold Alerts.evaluateAlerts.
      eexists. split.
      + apply in_or_app. right. apply in_or_app. left.
        apply in_flat_map. exists flare. split; [exact Hin|].
        unfold Alerts.flareAlerts. rewrite Hf, HX. cbn [existsb String.eqb Ascii.eqb Bool.eqb].
        left. reflexivity.
      + split; reflexivity.
    - intros cme Hin. subst next. unfold Alerts.evaluateAlerts.
      eexists. split.
      + apply in_or_app. left. apply in_flat_map. exists cme. split; [exact Hin|].
        unfold Alerts.cmeAlerts. rewrite Hc. cbn [find]. left. reflexivity.
      + split; reflexivity. }
  split.
  { intros [message Hr]. rewrite Hafter. cbn. unfold Checker.mainActiveRegions.
    rewrite Hr. reflexivity. }
  intros data Hd.
  assert (Hf : knownFlareIds after = flare_id <$> Donki.donki_flares data).
  { rewrite Hafter. cbn. rewrite Hd. reflexivity. }
  split; [exact Hf|].
  intros flare Hin. unfold Alerts.flareAlerts. rewrite Hf.
  rewrite existsb_eqb_in; [reflexivity|]. apply in_map_iff. exists flare. auto.
Qed.

(** Flare F1 is known; every fetch fails in one run; in the next run F1
    is in the feed again and is alerted again. *)
Lemma outage_forgets_known_events_witness :
  let after :=
    Checker.out_state
      (Checker.tick (H := RefHost.host) CONFIG 77
         (Checker.mainInput (H := RefHost.host) 1000 12 OutageScenario.allDown
            OutageScenario.stormy)
         OutageScenario.stormy ∅) in
  knownFlareIds OutageScenario.stormy = ["F1"]
  /\ knownFlareIds after = []
  /\ exists a,
      In a (Alerts.evaluateAlerts (H := RefHost.host) CONFIG 901000
              (Scenario.snapshotOf 3 [] [Scenario.flareOf "F1" "X1.2" "400"]) [] after)
      /\ alert_id a = "flare-F1" /\ alert_type a = "flare-x".
Proof.
  cbv zeta. split; [reflexivity|].
  pose proof (outage_forgets_known_events (H := RefHost.host) CONFIG 77 1000 12
                OutageScenario.allDown OutageScenario.stormy ∅ 901000
                (Scenario.snapshotOf 3 [] [Scenario.flareOf "F1" "X1.2" "400"]) [])
    as Hout.
  cbv zeta in Hout.
  destruct Hout as [Hdown _].
  destruct (Hdown (ex_intro _ "fetch failed" eq_refl)) as (_ & Hf & _ & Hflare & _).
  split; [exact Hf|].
  apply (Hflare (Scenario.flareOf "F1" "X1.2" "400")); [left; reflexivity | reflexivity].
Defined.

(** *** Health of the sources *)

Lemma fr_ok_resolved {T} (o : string + option T) :
  Checker.fr_ok (Checker.resilientFetch o) = resolved o.
Proof. destruct o; reflexivity. Qed.

Lemma tick_dataHealth `{Host} cfg pid i state fs :
  dataHealth (Checker.out_state (Checker.tick cfg pid i state fs))
  = Checker.in_dataHealth i.
Proof. rewrite tick_state. reflexivity. Qed.

(** One run: a source that went through has its [lastSuccess] at the
    time of the run, a source that failed keeps the one on record. *)
Lemma lastSuccessOf_mainDataHealth `{Host} nowMs f state source :
  In source healthSources ->
  lastSuccessOf source (Checker.mainDataHealth nowMs f state)
  = if fetchOk source f then toISOString nowMs
    else lastSuccessOf source (dataHealth state).
Proof.
  intros Hin. unfold healthSources in Hin. cbn [In] in Hin.
  unfold Checker.mainDataHealth, lastSuccessOf.
  destruct Hin as [<-|[<-|[<-|[<-|[<-|[]]]]]];
    cbn [find Checker.updateHealth dh_source dh_lastSuccess String.eqb Ascii.eqb
         Bool.eqb fetchOk];
    rewrite ?fr_ok_resolved; reflexivity.
Qed.

Lemma last_filter_cons {A} (p : A -> bool) (x : A) (l : list A) :
  last (List.filter p (x :: l))
  = match last (List.filter p l) with
    | Some y => Some y
    | None => if p x then Some x else None
    end.
Proof.
  cbn [List.filter]. destruct (p x); [|destruct (last _); reflexivity].
  destruct (List.filter p l) as [|y l']; [reflexivity|].
  rewrite last_cons. destruct (last (y :: l')) eqn:E; [reflexivity|].
  apply last_None in E. discriminate E.
Qed.

(** X14.  After any number of runs the health list names the five
    sources of [main] in their order, and for each source [lastSuccess]
    is the time of the latest run in which its fetch went through; if it
    went through in none of them, it is the [lastSuccess] that was on
    record before the first run (the epoch when there was none).  A failed
    fetch never overwrites it. *)
Theorem last_success_is_latest `{Host} (cfg : Config) (pid : Z)
    (runs : list (Z * Z * Checker.Fetches)) (state : CheckerState)
    (fs : gmap string Js.text) (source : string) :
  In source healthSources ->
  runs <> [] ->
  dh_source <$> dataHealth (mainRuns cfg pid runs state fs) = healthSources
  /\ lastSuccessOf source (dataHealth (mainRuns cfg pid runs state fs))
     = match last (List.filter (fun r => fetchOk source r.2) runs) with
       | Some (nowMs, _, _) => toISOString nowMs
       | None => lastSuccessOf source (dataHealth state)
       end.
Proof.
  intros Hsrc. revert state fs.
  induction runs as [|[[nowMs hour] f] rest IH]; intros state fs Hne; [contradiction|].
  cbn [mainRuns]. rewrite last_filter_cons. cbn [snd].
  set (out := Checker.tick cfg pid (Checker.mainInput nowMs hour f state) state fs).
  assert (Hstep : lastSuccessOf source (dataHealth (Checker.out_state out))
                  = if fetchOk source f then toISOString nowMs
                    else lastSuccessOf source (dataHealth state)).
  { subst out. rewrite tick_dataHealth. cbn [Checker.mainInput Checker.in_dataHealth].
    apply lastSuccessOf_mainDataHealth. exact Hsrc. }
  destruct rest as [|r rest'].
  - cbn [mainRuns List.filter last]. split.
    + subst out. rewrite tick_dataHealth. reflexivity.
    + rewrite Hstep. destruct (fetchOk source f); reflexivity.
  - destruct (IH (Checker.out_state out) (Checker.out_fs out)) as [IHs IHl];
      [discriminate|].
    split; [exact IHs|]. rewrite IHl.
    destruct (last (List.filter (fun r0 => fetchOk source r0.2) (r :: rest')))
      as [[[n h] f']|]; [reflexivity|].
    rewrite Hstep. destruct (fetchOk source f); reflexivity.
Qed.

(** DONKI answers in the run at 1000 and fails in the run at 2000: its
    last success stays at 1000; SWPC, which failed in the first run and
    answered in the second, is at 2000. *)
Lemma last_success_is_latest_witness :
  let runs := [ (1000, 12, OutageScenario.donkiOnly);
                (2000, 12, OutageScenario.allDown) ] in
  lastSuccessOf (H := RefHost.host) "donki"
    (dataHealth (mainRuns (H := RefHost.host) CONFIG 77 runs Scenario.emptyState ∅))
  = "1000"
  /\ lastSuccessOf (H := RefHost.host) "swpc-regions"
       (dataHealth
          (mainRuns (H := RefHost.host) CONFIG 77
             [ (1000, 12, OutageScenario.allDown); (2000, 12, OutageScenario.donkiOnly) ]
             Scenario.emptyState ∅))
     = "2000".
Proof.
  cbv zeta. split.
  - refine (proj2 (last_success_is_latest (H := RefHost.host) CONFIG 77
                     [ (1000, 12, OutageScenario.donkiOnly);
                       (2000, 12, OutageScenario.allDown) ]
                     Scenario.emptyState ∅ "donki" _ _)).
    + right. left. reflexivity.
    + discriminate.
  - refine (proj2 (last_success_is_latest (H := RefHost.host) CONFIG 77
                     [ (1000, 12, OutageScenario.allDown);
                       (2000, 12, OutageScenario.donkiOnly) ]
                     Scenario.emptyState ∅ "swpc-regions" _ _)).
    + right. right. left. reflexivity.
    + discriminate.
Defined.

(* ===================================================================== *)
(** ** The files of the checker                                           *)
(* ===================================================================== *)

(** *** The lockfile between processes *)

Lemma Qeq_bool_inject_Z (a b : Z) : Qeq_bool (inject_Z a) (inject_Z b) = (a =? b).
Proof.
  destruct (Z.eqb_spec a b) as [->|N].
  - apply Qeq_bool_iff. reflexivity.
  - destruct (Qeq_bool (inject_Z a) (inject_Z b)) eqn:E; [|reflexivity].
    apply Qeq_bool_iff in E. unfold Qeq in E. simpl in E. lia.
Qed.

Section Lock.
Context `{Host}.
Variables (cfg : Config) (isProcessAlive : Z -> bool).

(** The lockfile that [acquireLock] writes. *)
Lemma acquireLock_cases (pid : Z) (hostname : string) (nowMs : Z)
      (fs : gmap string Js.text) :
  State.acquireLock cfg isProcessAlive pid hostname nowMs fs = (false, fs)
  \/ State.acquireLock cfg isProcessAlive pid hostname nowMs fs
     = (true,
        <[State.LOCK_PATH :=
            Js.Json (Js.VObj [ ("pid", Js.VNum (inject_Z pid));
                               ("timestamp", Js.VStr (toISOString nowMs));
                               ("hostname", Js.VStr hostname) ])]> fs).
Proof.
  unfold State.acquireLock.
  destruct (match fs !! State.LOCK_PATH with Some _ => _ | None => _ end);
    [left | right]; reflexivity.
Qed.

Lemma lockIsLive_own (pid : Z) (hostname : string) (t nowMs : Z) :
  State.lockIsLive cfg isProcessAlive nowMs
    (Js.VObj [ ("pid", Js.VNum (inject_Z pid));
               ("timestamp", Js.VStr (toISOString t));
               ("hostname", Js.VStr hostname) ])
  = isProcessAlive pid && (nowMs - t <? lockTimeout cfg).
Proof.
  unfold State.lockIsLive. cbn [Js.getProp Js.lookupProp String.eqb Ascii.eqb Bool.eqb].
  rewrite Qfloor_Z, Qeq_bool_inject_Z, Z.eqb_refl, getTime_toISOString. cbn [andb].
  destruct (isProcessAlive pid); reflexivity.
Qed.

End Lock.

(** X15.  A process that was granted the lock has its id in the lockfile.
    While that process is alive and the lock is younger than
    [lockTimeout], a second [acquireLock] is refused and leaves the
    lockfile as it is.  Once the holder is dead or the lock is
    [lockTimeout] old, the second process is granted it and the lockfile
    names the second process; the [releaseLock] of the first process then
    leaves the lockfile alone. *)
Theorem lock_excludes_second_process `{Host} (cfg : Config) (isProcessAlive : Z -> bool)
    (pid1 pid2 : Z) (host1 host2 : string) (t1 t2 : Z)
    (fs fs1 : gmap string Js.text) :
  State.acquireLock cfg isProcessAlive pid1 host1 t1 fs = (true, fs1) ->
  let second := State.acquireLock cfg isProcessAlive pid2 host2 t2 fs1 in
  lockNames pid1 fs1
  /\ (isProcessAlive pid1 = true -> t2 - t1 < lockTimeout cfg -> second = (false, fs1))
  /\ (isProcessAlive pid1 = false \/ lockTimeout cfg <= t2 - t1 ->
      second.1 = true /\ lockNames pid2 second.2
      /\ (pid1 <> pid2 -> State.releaseLock pid1 second.2 = second.2)).
Proof.
  intros Hfirst second.
  destruct (acquireLock_cases cfg isProcessAlive pid1 host1 t1 fs) as [E|E];
    rewrite E in Hfirst; [discriminate|]. injection Hfirst as <-.
  assert (Hheld : second
                  = if isProcessAlive pid1 && (t2 - t1 <? lockTimeout cfg)
                    then (false, <[State.LOCK_PATH :=
            Js.Json (Js.VObj [ ("pid", Js.VNum (inject_Z pid1));
                               ("timestamp", Js.VStr (toISOString t1));
                               ("hostname", Js.VStr host1) ])]> fs)
                    else (true,
        <[State.LOCK_PATH :=
            Js.Json (Js.VObj [ ("pid", Js.VNum (inject_Z pid2));
                               ("timestamp", Js.VStr (toISOString t2));
                               ("hostname", Js.VStr host2) ])]> 
         (<[State.LOCK_PATH :=
            Js.Json (Js.VObj [ ("pid", Js.VNum (inject_Z pid1));
                               ("timestamp", Js.VStr (toISOString t1));
                               ("hostname", Js.VStr host1) ])]> fs))).
  { subst second. unfold State.acquireLock at 1. rewrite lookup_insert_eq.
    cbn [Js.JSON_parse]. rewrite lockIsLive_own.
    destruct (isProcessAlive pid1 && (t2 - t1 <? lockTimeout cfg)); reflexivity. }
  split.
  { eexists _, _, _. rewrite lookup_insert_eq. repeat split; reflexivity. }
  split.
  { intros Halive Hage. rewrite Hheld, Halive.
    destruct (Z.ltb_spec (t2 - t1) (lockTimeout cfg)); [reflexivity|lia]. }
  intros Hfree.
  assert (Hb : isProcessAlive pid1 && (t2 - t1 <? lockTimeout cfg) = false).
  { destruct Hfree as [-> | Hstale]; [reflexivity|].
    apply andb_false_iff. right. apply Z.ltb_ge. exact Hstale. }
  rewrite Hheld, Hb. cbn [fst snd].
  split; [reflexivity|]. split.
  { eexists _, _, _. rewrite lookup_insert_eq. repeat split; reflexivity. }
  intros Hne. unfold State.releaseLock. rewrite lookup_insert_eq.
  cbn [Js.JSON_parse Js.getProp Js.lookupProp String.eqb Ascii.eqb Bool.eqb].
  rewrite Qeq_bool_inject_Z. destruct (Z.eqb_spec pid2 pid1); [congruence|reflexivity].
Qed.

(** Process 77 holds the lock since 1000; process 78 asks at 2000 and is
    refused. *)
Lemma lock_excludes_second_process_witness :
  let first :=
    State.acquireLock (H := RefHost.host) CONFIG (fun _ => true) 77 "mac" 1000 ∅ in
  first.1 = true
  /\ State.acquireLock (H := RefHost.host) CONFIG (fun _ => true) 78 "mac" 2000 first.2
     = (false, first.2).
Proof.
  cbv zeta. split; [reflexivity|].
  refine (proj1 (proj2 (lock_excludes_second_process (H := RefHost.host) CONFIG
                          (fun _ => true) 77 78 "mac" "mac" 1000 2000 ∅ _ _)) _ _).
  - apply surjective_pairing.
  - reflexivity.
  - reflexivity.
Defined.



(** *** The files of a run *)

Lemma tmpPath_not_state (pid : Z) : State.tmpPath pid <> State.STATE_PATH.
Proof. unfold State.tmpPath, State.STATE_PATH. intros E. lazy [append] in E. discriminate E. Qed.

Lemma tmpPath_not_lock (pid : Z) : State.tmpPath pid <> State.LOCK_PATH.
Proof. unfold State.tmpPath, State.LOCK_PATH. intros E. lazy [append] in E. discriminate E. Qed.

(** What [saveState] leaves on disk. *)
Lemma saveState_files (cfg : Config) (pid : Z) (state : CheckerState)
      (fs : gmap string Js.text) (path : string) :
  (State.saveState cfg pid state fs).2 !! path
  = if String.eqb path State.STATE_PATH
    then Some (Js.Json (State.stateObject healthDoc (State.saveState cfg pid state fs).1))
    else if String.eqb path (State.tmpPath pid) then None
    else fs !! path.
Proof.
  rewrite saveState_eq. cbn [fst snd]. unfold State.renameSync.
  rewrite lookup_insert_eq.
  destruct (String.eqb_spec path State.STATE_PATH) as [->|Ns].
  - apply lookup_insert_eq.
  - rewrite lookup_insert_ne by congruence.
    destruct (String.eqb_spec path (State.tmpPath pid)) as [->|Nt].
    + apply lookup_delete_eq.
    + rewrite lookup_delete_ne by congruence. apply lookup_insert_ne. congruence.
Qed.

(** X16.  [saveState] leaves the serialized state, capped, at the state
    path and no temporary file of the process behind; every other file
    is as it was. *)
Theorem saveState_replaces_state_file (cfg : Config) (pid : Z) (state : CheckerState)
    (fs : gmap string Js.text) :
  let out := State.saveState cfg pid state fs in
  out.2 !! State.STATE_PATH = Some (Js.Json (State.stateObject healthDoc out.1))
  /\ out.2 !! State.tmpPath pid = None
  /\ dom out.2 = {[ State.STATE_PATH ]} ∪ (dom fs ∖ {[ State.tmpPath pid ]})
  /\ forall path,
      path <> State.STATE_PATH -> path <> State.tmpPath pid ->
      out.2 !! path = fs !! path.
Proof.
  intros out. subst out.
  pose proof (tmpPath_not_state pid) as Hts.
  split; [|split; [|split]].
  - rewrite saveState_files, String.eqb_refl. reflexivity.
  - rewrite saveState_files, String.eqb_refl.
    destruct (String.eqb_spec (State.tmpPath pid) State.STATE_PATH); [contradiction|].
    reflexivity.
  - apply set_eq. intros path. rewrite elem_of_dom, saveState_files.
    rewrite elem_of_union, elem_of_singleton, elem_of_difference, elem_of_singleton,
      elem_of_dom.
    destruct (String.eqb_spec path State.STATE_PATH) as [->|Ns].
    + split; [auto | intros _; eexists; reflexivity].
    + destruct (String.eqb_spec path (State.tmpPath pid)) as [->|Nt].
      * split; [intros [? [=]] | intros [?|[_ ?]]; contradiction].
      * tauto.
  - intros path Ns Nt. rewrite saveState_files.
    destruct (String.eqb_spec path State.STATE_PATH); [contradiction|].
    destruct (String.eqb_spec path (State.tmpPath pid)); [contradiction|]. reflexivity.
Qed.

(** X17.  [saveState] writes the state as it got it but for the alert
    history, of which it keeps a suffix: at most [maxAlertHistory]
    entries when that is positive, all of them when they are no more than
    that - and all of them when [maxAlertHistory] is 0, since [slice(-0)]
    takes the whole array. *)
Theorem saveState_caps_history (cfg : Config) (pid : Z) (state : CheckerState)
    (fs : gmap string Js.text) :
  let saved := (State.saveState cfg pid state fs).1 in
  saved = State.with_alertsSent (alertsSent saved) state
  /\ (exists dropped, alertsSent state = (dropped ++ alertsSent saved)%list)
  /\ (0 < maxAlertHistory cfg ->
      Z.of_nat (length (alertsSent saved)) <= maxAlertHistory cfg)
  /\ (Z.of_nat (length (alertsSent state)) <= maxAlertHistory cfg ->
      alertsSent saved = alertsSent state)
  /\ (maxAlertHistory cfg = 0 -> alertsSent saved = alertsSent state).
Proof.
  intros saved. subst saved. rewrite saveState_eq. cbn [fst State.with_alertsSent alertsSent].
  unfold Js.slice_from.
  set (l := alertsSent state). set (m := maxAlertHistory cfg).
  split; [reflexivity|].
  split.
  { eexists. symmetry. apply take_drop. }
  split.
  { intros Hm. rewrite length_drop.
    destruct (Z.ltb_spec (- m) 0); lia. }
  split.
  { intros Hlen. destruct (Z.ltb_spec (- m) 0).
    - replace (Z.to_nat _) with 0%nat by lia. apply drop_0.
    - replace (Z.to_nat _) with 0%nat by lia. apply drop_0. }
  intros ->. cbn. rewrite Z.min_l by lia. apply drop_0.
Qed.

(** X18.  The lock around the body of a run.  An [acquireLock] that
    refuses the lock changes no file.  After an [acquireLock] that grants
    it, the body of the run up to [saveState] followed by [releaseLock]
    leaves no lockfile; the state file holds the state of the run, which
    [loadState] reads back, and these three steps change no file other
    than the lockfile, the state file and the temporary file of the
    process.  What [main] does outside these steps - [truncateLogs] before
    it asks for the lock, the verification of predictions between
    [saveState] and [releaseLock] - writes the logs and the prediction
    store, and is not part of the statement. *)
Theorem run_releases_its_lock `{Host} (cfg : Config) (isProcessAlive : Z -> bool)
    (pid : Z) (hostname : string) (nowMs : Z) (i : Checker.TickInput)
    (state : CheckerState) (fs : gmap string Js.text) :
  let locked := State.acquireLock cfg isProcessAlive pid hostname nowMs fs in
  (locked.1 = false -> locked.2 = fs)
  /\ (locked.1 = true ->
      let out := Checker.tick cfg pid i state locked.2 in
      let final := State.releaseLock pid (Checker.out_fs out) in
      final !! State.LOCK_PATH = None
      /\ final !! State.STATE_PATH
         = Some (Js.Json (State.stateObject healthDoc (Checker.out_state out)))
      /\ State.fromJS (State.loadState final) = Some (Checker.out_state out)
      /\ forall path,
          path <> State.LOCK_PATH -> path <> State.STATE_PATH ->
          path <> State.tmpPath pid ->
          final !! path = fs !! path).
Proof.
  intros locked. subst locked.
  destruct (acquireLock_cases cfg isProcessAlive pid hostname nowMs fs) as [E|E];
    rewrite E; cbn [fst snd].
  { split; [reflexivity | discriminate]. }
  split; [discriminate|]. intros _.
  set (fs1 := <[State.LOCK_PATH := _]> fs).
  set (out := Checker.tick cfg pid i state fs1).
  set (final := State.releaseLock pid (Checker.out_fs out)).
  assert (Hfs : forall path,
             Checker.out_fs out !! path
             = if String.eqb path State.STATE_PATH
               then Some (Js.Json (State.stateObject healthDoc (Checker.out_state out)))
               else if String.eqb path (State.tmpPath pid) then None
               else fs1 !! path).
  { intros path. subst out.
    destruct (tick_eq cfg pid i state fs1) as (_ & -> & ->). apply saveState_files. }
  assert (Hrel : final = delete State.LOCK_PATH (Checker.out_fs out)).
  { subst final. unfold State.releaseLock. rewrite Hfs.
    destruct (String.eqb_spec State.LOCK_PATH State.STATE_PATH) as [E'|_];
      [discriminate E'|].
    destruct (String.eqb_spec State.LOCK_PATH (State.tmpPath pid)) as [E'|_].
    { exfalso. exact (tmpPath_not_lock pid (eq_sym E')). }
    subst fs1. rewrite lookup_insert_eq.
    cbn [Js.JSON_parse Js.getProp Js.lookupProp String.eqb Ascii.eqb Bool.eqb].
    rewrite Qeq_bool_inject_Z, Z.eqb_refl. reflexivity. }
  assert (Hstate : final !! State.STATE_PATH
                   = Some (Js.Json (State.stateObject healthDoc (Checker.out_state out)))).
  { rewrite Hrel, lookup_delete_ne by discriminate.
    rewrite Hfs, String.eqb_refl. reflexivity. }
  split; [rewrite Hrel; apply lookup_delete_eq|].
  split; [exact Hstate|].
  split.
  { unfold State.loadState. rewrite Hstate. cbn [Js.JSON_parse].
    rewrite spread_state_document. apply fromJS_stateObject. }
  intros path Nl Ns Nt. rewrite Hrel, lookup_delete_ne by congruence.
  rewrite Hfs.
  destruct (String.eqb_spec path State.STATE_PATH); [contradiction|].
  destruct (String.eqb_spec path (State.tmpPath pid)); [contradiction|].
  subst fs1. apply lookup_insert_ne. congruence.
Qed.

(** *** Spreading a document over defaults *)

Lemma lookupProp_setProp (k k' : string) (v : Js.val) (ps : list (string * Js.val)) :
  Js.lookupProp k (Js.setProp k' v ps)
  = if String.eqb k' k then v else Js.lookupProp k ps.
Proof.
  induction ps as [|[k0 v0] ps IH]; cbn [Js.setProp Js.lookupProp].
  - destruct (String.eqb k' k); reflexivity.
  - destruct (String.eqb_spec k0 k') as [->|N]; cbn [Js.lookupProp].
    + destruct (String.eqb k' k); reflexivity.
    + rewrite IH. destruct (String.eqb_spec k0 k) as [->|N'].
      * destruct (String.eqb_spec k' k); [congruence | reflexivity].
      * reflexivity.
Qed.

(** With distinct keys in [src], a key of [src] reads its value in [src]
    and any other key its value in [base]. *)
Lemma lookupProp_spread (k : string) (src base : list (string * Js.val)) :
  NoDup (fst <$> src) ->
  Js.lookupProp k (fold_left (fun acc kv => Js.setProp (fst kv) (snd kv) acc) src base)
  = if existsb (String.eqb k) (fst <$> src) then Js.lookupProp k src
    else Js.lookupProp k base.
Proof.
  revert base. induction src as [|[k0 v0] src IH]; intros base Hnd; [reflexivity|].
  cbn [fmap list_fmap fst] in Hnd. apply NoDup_cons in Hnd as [Hk0 Hnd].
  cbn [fold_left fst snd]. rewrite IH by exact Hnd.
  cbn [fmap list_fmap fst existsb Js.lookupProp].
  rewrite lookupProp_setProp, (String.eqb_sym k k0).
  destruct (String.eqb_spec k0 k) as [->|N]; cbn [orb]; [|reflexivity].
  replace (existsb (String.eqb k) (fst <$> src)) with false; [reflexivity|].
  symmetry. apply not_true_iff_false. intros E. apply existsb_exists in E as (x & Hx & Hxk).
  apply String.eqb_eq in Hxk. subst x. apply Hk0. apply list_elem_of_In. exact Hx.
Qed.

(** X19.  The defaults are the state of a first run.  [loadState] gives
    the defaults when there is no state file and when the file does not
    parse.  From a stored object of distinct keys it gives each stored
    key its stored value and each other key its default: fields missing
    in a file of an older version are filled in, and stored fields are
    not checked. *)
Theorem loadState_falls_back_on_defaults `{Host} (fs : gmap string Js.text) :
  State.fromJS (Js.VObj State.DEFAULT_STATE) = Some freshState
  /\ (fs !! State.STATE_PATH = None -> State.loadState fs = Js.VObj State.DEFAULT_STATE)
  /\ (forall raw, fs !! State.STATE_PATH = Some (Js.Garbled raw) ->
      State.loadState fs = Js.VObj State.DEFAULT_STATE)
  /\ (forall props,
        fs !! State.STATE_PATH = Some (Js.Json (Js.VObj props)) ->
        NoDup (fst <$> props) ->
        forall k,
          Js.getProp (State.loadState fs) k
          = if existsb (String.eqb k) (fst <$> props) then Js.lookupProp k props
            else Js.lookupProp k State.DEFAULT_STATE).
Proof.
  split; [reflexivity|].
  split. { intros E. unfold State.loadState. rewrite E. reflexivity. }
  split. { intros raw E. unfold State.loadState. rewrite E. reflexivity. }
  intros props E Hnd k. unfold State.loadState. rewrite E.
  cbn [Js.JSON_parse Js.getProp]. unfold Js.spread. cbn [Js.ownProps].
  apply lookupProp_spread. exact Hnd.
Qed.

(** *** The alerts endpoint after a run *)

Lemma serialize_healthDoc d : Js.serialize (healthDoc d) = Some (healthDoc d).
Proof. unfold healthDoc. destruct (dh_lastError d); reflexivity. Qed.

Lemma slice_from_fmap {A B} (f : A -> B) (start : Z) (l : list A) :
  Js.slice_from start (f <$> l) = f <$> Js.slice_from start l.
Proof. unfold Js.slice_from. rewrite length_fmap, fmap_drop. reflexivity. Qed.

Lemma rev_fmap {A B} (f : A -> B) (l : list A) : rev (f <$> l) = f <$> rev l.
Proof.
  induction l as [|x l IH]; [reflexivity|].
  cbn [fmap list_fmap rev]. fold (f <$> l). rewrite IH, fmap_app. reflexivity.
Qed.

Lemma slice_from_keeps_suffix {A} (n : Z) (l1 l2 : list A) :
  0 < n -> Z.of_nat (length l2) <= n ->
  exists l1', Js.slice_from (- n) (l1 ++ l2) = (l1' ++ l2)%list.
Proof.
  intros Hn Hlen. unfold Js.slice_from. rewrite length_app.
  destruct (Z.ltb_spec (- n) 0); [|lia].
  exists (drop (Z.to_nat (Z.max (Z.of_nat (length l1 + length l2) + - n) 0)) l1).
  apply drop_app_le. lia.
Qed.

(** X20.  After a run the alerts endpoint answers 200 with the last 50
    alerts of the saved history, newest first, the health list and the
    time of the run, the flag [checkerActive] and the last readings of
    the saved state.  The alerts of the run are among the listed ones
    when they are at most 50 and no more than [maxAlertHistory].  With no
    state file it answers 200 with no alerts and [checkerActive] false. *)
Theorem alerts_endpoint_after_run `{Host} (cfg : Config) (pid : Z)
    (i : Checker.TickInput) (state : CheckerState) (fs : gmap string Js.text) :
  let out := Checker.tick cfg pid i state fs in
  let saved := Checker.out_state out in
  let listed := rev (Js.slice_from (-50) (alertsSent saved)) in
  AlertsRoute.GET (Checker.out_fs out)
  = (200,
     Some (Js.VObj
             [ ("alerts", Js.VArr (State.alertToJS <$> listed));
               ("health", Js.VArr (healthDoc <$> Checker.in_dataHealth i));
               ("lastRun", Js.VStr (toISOString (Checker.in_now i)));
               ("checkerActive", Js.VBool true);
               ("currentValues",
                Js.VObj [ ("kp", Js.VNum (lastKp saved));
                          ("bz", Js.VNum (lastBz saved));
                          ("windSpeed", Js.VNum (lastWindSpeed saved));
                          ("windDensity", Js.VNum (lastWindDensity saved)) ]) ]))
  /\ (length listed <= 50)%nat
  /\ (forall a, In a (Checker.out_sent out) ->
      (length (Checker.out_sent out) <= 50)%nat ->
      Z.of_nat (length (Checker.out_sent out)) <= maxAlertHistory cfg ->
      In a listed)
  /\ AlertsRoute.GET ∅
     = (200, Some (Js.VObj [ ("alerts", Js.VArr []); ("health", Js.VNull);
                             ("lastRun", Js.VNull); ("checkerActive", Js.VBool false) ])).
Proof.
  intros out saved listed.
  split.
  { unfold AlertsRoute.GET. subst out saved listed.
    destruct (tick_eq cfg pid i state fs) as (_ & Hst & ->).
    rewrite saveState_eq. cbn [snd]. rewrite lookup_renamed. cbn [Js.JSON_parse].
    rewrite Hst. rewrite saveState_eq. cbn [fst].
    set (saved := State.with_alertsSent _ _).
    unfold State.stateObject at 1.
    cbn [Js.getProp Js.lookupProp String.eqb Ascii.eqb Bool.eqb].
    unfold AlertsRoute.NextResponse_json. f_equal.
    rewrite slice_from_fmap, rev_fmap.
    apply serialize_object.
    repeat match goal with |- Forall2 _ _ _ => constructor end;
      (split; [reflexivity|]); cbn [snd]; try reflexivity.
    - apply (serialize_array_map _ _ _ serialize_alert).
    - apply (serialize_array_map _ _ _ serialize_healthDoc). }
  split.
  { subst listed. rewrite length_rev. unfold Js.slice_from. rewrite length_drop.
    cbn [Z.ltb Z.compare]. lia. }
  split; [|reflexivity].
  intros a Hin H50 Hmax. subst listed. apply in_rev. rewrite rev_involutive.
  subst saved out.
  destruct (tick_eq cfg pid i state fs) as (Hsent & -> & _). rewrite Hsent in *.
  rewrite saveState_eq. cbn [fst State.with_alertsSent alertsSent Checker.updateState].
  rewrite (recordCooldowns_alertsSent).
  assert (Hpos : 0 < maxAlertHistory cfg).
  { destruct (Checker.alertsToSend cfg i state); [destruct Hin | cbn [length] in Hmax; lia]. }
  destruct (slice_from_keeps_suffix (maxAlertHistory cfg) (alertsSent state)
              (Checker.alertsToSend cfg i state) Hpos Hmax) as [l1' ->].
  apply (slice_keeps_tail 50); [exact Hin | lia].
Qed.

(* ===================================================================== *)
(** ** The prediction store and its endpoint                              *)
(* ===================================================================== *)

(** *** The scorecard *)

Lemma count_cons {A} (p : A -> bool) (x : A) (l : list A) :
  count p (x :: l) = (if p x then 1 else 0) + count p l.
Proof. unfold count. cbn [List.filter]. destruct (p x); cbn [length]; lia. Qed.

Lemma count_nonneg {A} (p : A -> bool) (l : list A) : 0 <= count p l.
Proof. unfold count. lia. Qed.

Lemma count_verified (s : Status) (l : list Prediction) :
  s <> pending ->
  count (fun p => status_eqb (pred_status p) s)
        (List.filter (fun p => negb (status_eqb (pred_status p) pending)) l)
  = count (fun p => status_eqb (pred_status p) s) l.
Proof.
  intros Hs. induction l as [|x l IH]; [reflexivity|].
  cbn [List.filter]. rewrite count_cons.
  destruct (pred_status x) eqn:E; cbn [status_eqb negb].
  - destruct s; try contradiction; cbn [status_eqb]; lia.
  - rewrite count_cons, E, IH. reflexivity.
  - rewrite count_cons, E, IH. reflexivity.
Qed.

Lemma count_statuses (l : list Prediction) :
  Z.of_nat (length l)
  = count (fun p => status_eqb (pred_status p) pending) l
    + count (fun p => status_eqb (pred_status p) hit) l
    + count (fun p => status_eqb (pred_status p) miss) l.
Proof.
  induction l as [|x l IH]; [reflexivity|].
  rewrite !count_cons. cbn [length]. destruct (pred_status x); cbn [status_eqb]; lia.
Qed.

(** X21.  In the scorecard the total is the number of pending predictions
    plus the hits plus the misses.  Without a verified prediction the hit
    rate and the p-value are [null]; with at least one, the hit rate is
    hits / (hits + misses), between 0 and 1, and the p-value is the
    binomial test of the hits among the verified ones against the base
    rate, [null] when no base rate is configured.  An empty store has no
    days tracked. *)
Theorem scorecard_counts `{Host} (binomialPValue : Z -> Z -> Q -> Q) (nowMs : Z)
    (state : PredictionState) :
  let sc := computeScorecard binomialPValue nowMs state in
  let verified := hits sc + misses sc in
  totalPredictions sc = sc_pending sc + hits sc + misses sc
  /\ 0 <= sc_pending sc /\ 0 <= hits sc /\ 0 <= misses sc
  /\ (verified = 0 -> hitRate sc = None /\ pValue sc = None)
  /\ (0 < verified ->
      exists rate, hitRate sc = Some rate
                   /\ (rate * inject_Z verified == inject_Z (hits sc))%Q
                   /\ (0 <= rate <= 1)%Q)
  /\ (0 < verified ->
      pValue sc = binomialPValue (hits sc) verified <$> baseRate (config state))
  /\ (predictions state = [] ->
      totalPredictions sc = 0 /\ totalDaysTracked sc = 0 /\ hitRate sc = None).
Proof.
  intros sc verified. subst sc verified. unfold computeScorecard.
  cbn [totalPredictions sc_pending hits misses hitRate pValue totalDaysTracked].
  rewrite !count_verified by discriminate.
  set (l := predictions state).
  set (h := count (fun p => status_eqb (pred_status p) hit) l).
  set (m := count (fun p => status_eqb (pred_status p) miss) l).
  pose proof (count_nonneg (fun p => status_eqb (pred_status p) hit) l) as Hh. fold h in Hh.
  pose proof (count_nonneg (fun p => status_eqb (pred_status p) miss) l) as Hm. fold m in Hm.
  split. { pose proof (count_statuses l). fold h m in H0. lia. }
  split; [apply count_nonneg|]. split; [exact Hh|]. split; [exact Hm|].
  split.
  { intros E. rewrite E. split; reflexivity. }
  split.
  { intros Hpos. destruct (Z.gtb_spec (h + m) 0); [|lia].
    eexists. split; [reflexivity|].
    assert (Hn : ~ (inject_Z (h + m) == 0)%Q).
    { unfold Qeq. simpl. lia. }
    split.
    - field. exact Hn.
    - split.
      + apply Qle_shift_div_l; [unfold Qlt; simpl; lia|].
        unfold Qle. simpl. lia.
      + apply Qle_shift_div_r; [unfold Qlt; simpl; lia|].
        unfold Qle. simpl. lia. }
  split.
  { intros Hpos. destruct (Z.gtb_spec (h + m) 0); [reflexivity|lia]. }
  intros E. subst l h m. rewrite E. cbn. repeat split; reflexivity.
Qed.

Lemma savePredictions_within (state : PredictionState) :
  Z.of_nat (length (predictions state)) <= maxPredictions (config state) ->
  savePredictions state = state.
Proof.
  intros L. unfold savePredictions.
  destruct (Z.gtb_spec (Z.of_nat (length (predictions state)))
                       (maxPredictions (config state))); [lia | reflexivity].
Qed.

(** X22.  [savePredictions] keeps the configuration and drops only the
    oldest predictions: what it stores is a suffix of the list.  With a
    positive [maxPredictions] the stored list has at most that many
    entries and saving it again changes nothing; a list within the cap is
    stored as it is - and so is any list when [maxPredictions] is 0,
    since [slice(-0)] takes the whole array. *)
Theorem savePredictions_keeps_newest (state : PredictionState) :
  let saved := savePredictions state in
  let max := maxPredictions (config state) in
  config saved = config state /\ pschemaVersion saved = pschemaVersion state
  /\ (exists archived,
        predictions state = (archived ++ predictions saved)%list)
  /\ (0 < max -> Z.of_nat (length (predictions saved)) <= max
                 /\ savePredictions saved = saved)
  /\ (Z.of_nat (length (predictions state)) <= max -> saved = state)
  /\ (max = 0 -> predictions saved = predictions state).
Proof.
  intros saved max.
  destruct (Z.gtb_spec (Z.of_nat (length (predictions state))) max) as [G|L].
  - assert (E : saved
                = with_predictions (Js.slice_from (- max) (predictions state)) state).
    { subst saved max. unfold savePredictions.
      destruct (Z.gtb_spec (Z.of_nat (length (predictions state)))
                           (maxPredictions (config state))); [reflexivity | lia]. }
    rewrite E. cbn [with_predictions config pschemaVersion predictions].
    unfold Js.slice_from.
    set (k := Z.to_nat _).
    split; [reflexivity|]. split; [reflexivity|].
    split. { exists (take k (predictions state)). symmetry. apply take_drop. }
    split.
    { intros Hpos. assert (Hlen : Z.of_nat (length (drop k (predictions state))) <= max).
      { rewrite length_drop. subst k. destruct (Z.ltb_spec (- max) 0); lia. }
      split; [exact Hlen|]. apply savePredictions_within. exact Hlen. }
    split; [lia|].
    intros E0. subst k. rewrite E0. cbn. rewrite Z.min_l by lia. apply drop_0.
  - assert (E : saved = state) by (apply savePredictions_within; exact L).
    rewrite E.
    split; [reflexivity|]. split; [reflexivity|].
    split. { exists []. reflexivity. }
    split. { intros _. split; [exact L | apply savePredictions_within; exact L]. }
    split; reflexivity.
Qed.

(** *** Verifying once *)

Lemma expiredb_spec `{Host} (nowMs : Z) (p : Prediction) :
  expiredb nowMs p = true
  <-> pred_status p = pending /\ getTime (pred_windowEnd p) <= nowMs.
Proof.
  unfold expiredb. rewrite andb_true_iff, Z.leb_le.
  destruct (pred_status p); cbn [status_eqb]; intuition congruence.
Qed.

Section VerifyOnce.
Context `{Host}.

Lemma verifyOne_settled (nowMs : Z) (state : CheckerState)
      (snapshot : SpaceWeatherSnapshot) (p : Prediction) :
  expiredb nowMs p = false ->
  Verify.verifyOne nowMs state snapshot p = (p, None).
Proof.
  intros E.
  destruct (verifyOne_spec nowMs state snapshot p) as (_ & Hsame & Hsome).
  assert (N : ~ (pred_status p = pending /\ getTime (pred_windowEnd p) <= nowMs)).
  { rewrite <- expiredb_spec, E. discriminate. }
  destruct (Verify.verifyOne nowMs state snapshot p) as [p' o] eqn:Ev.
  cbn [fst snd] in *. rewrite (Hsame N).
  destruct o; [|reflexivity]. exfalso. apply N, Hsome. eauto.
Qed.

Lemma verifyOne_result_settled (nowMs later : Z) (state : CheckerState)
      (snapshot : SpaceWeatherSnapshot) (p : Prediction) :
  expiredb nowMs (Verify.verifyOne nowMs state snapshot p).1 = false
  /\ (pred_status p <> pending \/ expiredb nowMs p = true ->
      pred_status (Verify.verifyOne nowMs state snapshot p).1 <> pending).
Proof.
  destruct (verifyOne_spec nowMs state snapshot p) as (Hexp & Hsame & _).
  destruct (expiredb nowMs p) eqn:E.
  - apply expiredb_spec in E. destruct (Hexp E) as (Hm & Hhit & Hmiss & _).
    assert (Hst : pred_status (Verify.verifyOne nowMs state snapshot p).1 <> pending).
    { destruct (candidates p state snapshot) eqn:Ec.
      - rewrite Hmiss by reflexivity. discriminate.
      - rewrite Hhit by discriminate. discriminate. }
    split; [|intros _; exact Hst].
    unfold expiredb.
    destruct (pred_status (Verify.verifyOne nowMs state snapshot p).1);
      [contradiction | reflexivity | reflexivity].
  - assert (N : ~ (pred_status p = pending /\ getTime (pred_windowEnd p) <= nowMs)).
    { rewrite <- expiredb_spec, E. discriminate. }
    rewrite (Hsame N). split; [exact E|]. intros [Hs|Hs]; [exact Hs | discriminate Hs].
Qed.

End VerifyOnce.

(** X23.  A verification pass sends one notification for each pending
    prediction whose window has ended.  A second pass at the same time
    over its result - whatever the feed and the checker state then are -
    sends nothing, saves nothing and changes no prediction.  A pass at any
    later time leaves every prediction that is hit or miss as it is, and
    notifies once for each remaining one whose window has ended by
    then. *)
Theorem predictions_settled_once `{Host} (nowMs : Z) (checkerState : CheckerState)
    (snapshot : SpaceWeatherSnapshot) (predState : PredictionState)
    (later : Z) (checkerState' : CheckerState) (snapshot' : SpaceWeatherSnapshot) :
  let first := Verify.verifyPendingPredictions nowMs checkerState snapshot predState in
  let settled := with_predictions (Verify.vr_predictions first) predState in
  let again := Verify.verifyPendingPredictions nowMs checkerState' snapshot' settled in
  let next := Verify.verifyPendingPredictions later checkerState' snapshot' settled in
  length (Verify.vr_notifications first)
  = length (List.filter (expiredb nowMs) (predictions predState))
  /\ Verify.vr_notifications again = []
  /\ Verify.vr_saved again = None
  /\ Verify.vr_predictions again = Verify.vr_predictions first
  /\ Forall2 (fun p p' => pred_status p <> pending -> p' = p)
             (Verify.vr_predictions first) (Verify.vr_predictions next)
  /\ length (Verify.vr_notifications next)
     = length (List.filter (expiredb later) (Verify.vr_predictions first)).
Proof.
  intros first settled again next.
  assert (Hcount : forall t cs sn ps,
    length (omap snd (Verify.verifyOne t cs sn <$> ps))
    = length (List.filter (expiredb t) ps)).
  { intros t cs sn ps. induction ps as [|p ps IH]; [reflexivity|].
    cbn [fmap list_fmap omap list_omap List.filter].
    fold (Verify.verifyOne t cs sn <$> ps). fold (omap snd (Verify.verifyOne t cs sn <$> ps)).
    destruct (verifyOne_spec t cs sn p) as (_ & _ & Hsome).
    destruct (expiredb t p) eqn:E.
    - apply expiredb_spec in E. apply Hsome in E as [o Ho]. rewrite Ho.
      cbn [length]. rewrite IH. reflexivity.
    - rewrite (verifyOne_settled t cs sn p E). cbn [snd]. exact IH. }
  assert (Hsettled : Forall (fun p => expiredb nowMs p = false)
                            (Verify.vr_predictions first)).
  { subst first. unfold Verify.verifyPendingPredictions. cbn [Verify.vr_predictions].
    rewrite <- list_fmap_compose. apply Forall_fmap, Forall_true. intros p.
    apply (verifyOne_result_settled nowMs nowMs). }
  assert (Hagain : Verify.verifyOne nowMs checkerState' snapshot'
                     <$> Verify.vr_predictions first
                   = (fun p => (p, None)) <$> Verify.vr_predictions first).
  { apply Forall_fmap_ext_1. eapply Forall_impl; [exact Hsettled|].
    intros p Hp. apply verifyOne_settled. exact Hp. }
  split. { subst first. apply Hcount. }
  assert (Hnone : forall ps : list Prediction,
            existsb (fun r : Prediction * option SpaceWeatherAlert =>
                       bool_decide (is_Some r.2)) ((fun p => (p, None)) <$> ps) = false
            /\ omap snd ((fun p => (p, @None SpaceWeatherAlert)) <$> ps) = []
            /\ fst <$> ((fun p => (p, @None SpaceWeatherAlert)) <$> ps) = ps).
  { induction ps as [|p ps (I1 & I2 & I3)]; [repeat split|].
    cbn [fmap list_fmap existsb omap list_omap snd fst] in *.
    repeat split; [exact I1 | exact I2 | f_equal; exact I3]. }
  subst again. unfold Verify.verifyPendingPredictions at 1 2 3.
  cbn [Verify.vr_notifications Verify.vr_saved Verify.vr_predictions].
  subst settled. cbn [with_predictions predictions].
  rewrite Hagain.
  destruct (Hnone (Verify.vr_predictions first)) as (-> & -> & ->).
  split; [reflexivity|]. split; [reflexivity|]. split; [reflexivity|].
  split.
  { subst next. unfold Verify.verifyPendingPredictions at 1.
    cbn [Verify.vr_predictions with_predictions predictions].
    rewrite <- list_fmap_compose. apply Forall2_fmap_r, Forall_Forall2_diag, Forall_true.
    intros p Hp. cbn. rewrite verifyOne_settled; [reflexivity|].
    unfold expiredb. destruct (pred_status p); [contradiction|reflexivity|reflexivity]. }
  subst next. unfold Verify.verifyPendingPredictions at 1.
  cbn [Verify.vr_notifications with_predictions predictions]. apply Hcount.
Qed.

(** *** Listing the predictions *)

(** X24.  After an accepted submission (an authorized request whose
    body is not [null], outside the cooldown) the listing that [GET]
    gives an authorized request is the saved store in reverse: the
    prediction just submitted comes first.  It counts at least one pending
    prediction, its total is the number of predictions listed, and it
    reports the cooldown and the verification window of the
    configuration. *)
Theorem get_lists_newest_first `{Host} (binomialPValue : Z -> Z -> Q -> Q)
    (token : option string) (request request' : Route.Request) (nowMs later : Z)
    (uuid : string) (state : PredictionState) :
  Route.isAuthorized token request = true ->
  ~ nullBody request ->
  isWithinCooldown nowMs state = false ->
  0 <= maxPredictions (config state) ->
  Route.isAuthorized token request' = true ->
  exists saved submitted listing older,
    (Route.POST token request nowMs uuid state).2 = Some saved
    /\ (Route.POST token request nowMs uuid state).1
       = {| Route.status := 200; Route.body := Route.PredictionBody true submitted |}
    /\ Route.GET binomialPValue token request' later saved
       = (200, Route.GetListing listing)
    /\ Route.l_predictions listing = submitted :: older
    /\ rev (Route.l_predictions listing) = predictions saved
    /\ 1 <= sc_pending (Route.l_scorecard listing)
    /\ totalPredictions (Route.l_scorecard listing)
       = Z.of_nat (length (Route.l_predictions listing))
    /\ Route.l_cooldownHours listing = cooldownHours (config state)
    /\ Route.l_verificationWindowHours listing = verificationWindowHours (config state).
Proof.
  intros Hauth Hread Hcool Hmax Hauth'.
  unfold Route.POST. rewrite Hauth. cbn [negb].
  destruct (noteOf_read request Hread) as [note ->].
  rewrite Hcool. cbn [fst snd].
  set (p := {| pred_id := uuid; pred_timestamp := _; pred_note := _;
               pred_status := pending; pred_verifiedAt := None;
               pred_windowHours := _; pred_windowEnd := _; pred_matchedEvents := [] |}).
  set (saved := savePredictions (with_predictions (predictions state ++ [p]) state)).
  assert (Hlast : last (predictions saved) = Some p)
    by (apply savePredictions_last; exact Hmax).
  assert (Hcfg : config saved = config state).
  { subst saved. unfold savePredictions. destruct (_ >? _); reflexivity. }
  destruct (rev (predictions saved)) as [|q older] eqn:Hrev.
  { apply (f_equal (@rev _)) in Hrev. rewrite rev_involutive in Hrev. cbn in Hrev.
    rewrite Hrev in Hlast. discriminate Hlast. }
  assert (Hq : q = p).
  { apply (f_equal (@rev _)) in Hrev. rewrite rev_involutive in Hrev. cbn [rev] in Hrev.
    rewrite Hrev, last_snoc in Hlast. congruence. }
  subst q.
  eexists saved, p, _, older. split; [reflexivity|]. split; [reflexivity|].
  unfold Route.GET. rewrite Hauth'. cbn [negb].
  split; [reflexivity|]. cbn [Route.l_predictions Route.l_scorecard Route.l_cooldownHours
                               Route.l_verificationWindowHours].
  split; [exact Hrev|].
  split; [apply rev_involutive|].
  split.
  { unfold computeScorecard. cbn [sc_pending].
    apply (f_equal (@rev _)) in Hrev. rewrite rev_involutive in Hrev. rewrite Hrev.
    cbn [rev]. unfold count. rewrite List.filter_app, length_app. cbn. lia. }
  split.
  { unfold computeScorecard. cbn [totalPredictions]. rewrite length_rev. reflexivity. }
  rewrite Hcfg. split; reflexivity.
Qed.

(** A second prediction, more than six hours after the first: the listing
    has it before the first. *)
Lemma get_lists_newest_first_witness :
  exists saved listing,
    (Route.POST (H := RefHost.host) None SubmitScenario.bare 30000000 "uuid-1"
       SubmitScenario.oneRecent).2 = Some saved
    /\ Route.GET (H := RefHost.host) (fun _ _ _ => 1%Q) None SubmitScenario.bare
         30000500 saved
       = (200, Route.GetListing listing)
    /\ pred_id <$> Route.l_predictions listing = ["uuid-1"; "p0"].
Proof.
  assert (Hmax : 0 <= maxPredictions (config SubmitScenario.oneRecent))
    by (vm_compute; discriminate).
  assert (Hread : ~ nullBody SubmitScenario.bare)
    by (intros [E | E]; discriminate E).
  destruct (get_lists_newest_first (H := RefHost.host) (fun _ _ _ => 1%Q) None
              SubmitScenario.bare SubmitScenario.bare 30000000 30000500 "uuid-1"
              SubmitScenario.oneRecent eq_refl Hread eq_refl Hmax eq_refl)
    as (saved & submitted & listing & older & Hs & _ & Hg & _).
  exists saved, listing. split; [exact Hs|]. split; [exact Hg|].
  vm_compute in Hs. injection Hs as <-.
  vm_compute in Hg. injection Hg as <-. reflexivity.
Defined.





(** *** Reading the store *)

(** A key that the document does not have keeps its value of the
    defaults. *)
Lemma lookupProp_spread_absent (k : string) (src base : list (string * Js.val)) :
  existsb (String.eqb k) (fst <$> src) = false ->
  Js.lookupProp k (fold_left (fun acc kv => Js.setProp (fst kv) (snd kv) acc) src base)
  = Js.lookupProp k base.
Proof.
  revert base. induction src as [|[k0 v0] src IH]; intros base Hno; [reflexivity|].
  cbn [fmap list_fmap fst existsb] in Hno. apply orb_false_iff in Hno as [Hk Hno].
  cbn [fold_left fst snd]. rewrite IH by exact Hno.
  rewrite lookupProp_setProp, (String.eqb_sym k0 k), Hk. reflexivity.
Qed.

(** A state that shares the array of [DEFAULT_STATE] reads it as its
    [predictions]. *)
Lemma parseState_shares (shared : list Js.val) (parsed : Js.val) (loaded : Loaded) :
  parseState shared parsed = Some loaded ->
  ld_shares loaded = true ->
  exists props,
    ld_state loaded = Js.VObj props
    /\ Js.lookupProp "predictions" props = Js.VArr shared.
Proof.
  intros Hp Hs.
  assert (E : loaded
              = {| ld_state :=
                     Js.VObj (Js.setProp "config"
                                (Js.VObj (Js.spread DEFAULT_CONFIG_JS
                                            (if truthy (Js.getProp parsed "config")
                                             then Js.getProp parsed "config"
                                             else Js.VObj [])))
                                (Js.spread (DEFAULT_STATE_JS shared) parsed));
                   ld_shares :=
                     negb (existsb (String.eqb "predictions")
                             (fst <$> Js.ownProps parsed)) |}).
  { destruct parsed; cbn [parseState] in Hp; try discriminate Hp;
      injection Hp as <-; reflexivity. }
  subst loaded. cbn [ld_state ld_shares] in *. apply negb_true_iff in Hs.
  eexists. split; [reflexivity|].
  rewrite lookupProp_setProp. cbn [String.eqb Ascii.eqb Bool.eqb].
  unfold Js.spread. rewrite lookupProp_spread_absent by exact Hs. reflexivity.
Qed.

Lemma loadPredictions_cases (shared : list Js.val) (fs : gmap string Js.text) :
  loadPredictions shared fs = cloneDefaults shared
  \/ exists parsed, parseState shared parsed = Some (loadPredictions shared fs).
Proof.
  unfold loadPredictions.
  destruct (fs !! PREDICTIONS_PATH) as [[doc|raw]|]; cbn [Js.JSON_parse mbind option_bind];
    [|left; reflexivity..].
  destruct (parseState shared doc) as [loaded|] eqn:E; [right | left; reflexivity].
  exists doc. exact E.
Qed.

(** X26.  When there is no file, when the file does not parse and when it
    holds [null], [loadPredictions] gives a copy of [DEFAULT_STATE] as it
    is then.  From a stored object of distinct keys it gives each stored
    key other than [config] its stored value and each missing one its
    default; [config] is the default configuration when the stored one is
    missing or falsy, and else the stored configuration with each missing
    key at its default.  The default of [predictions] is not a copy: a
    state loaded from an object without that key holds the array of
    [DEFAULT_STATE] itself, so a prediction pushed into that state is
    from then on in the defaults, and in what a later call gives when
    there is no file.  A push into any other loaded state leaves the
    defaults alone. *)
Theorem loadPredictions_fills_in_defaults (shared : list Js.val)
    (fs : gmap string Js.text) :
  let loaded := loadPredictions shared fs in
  (fs !! PREDICTIONS_PATH = None -> loaded = cloneDefaults shared)
  /\ (forall raw, fs !! PREDICTIONS_PATH = Some (Js.Garbled raw) ->
      loaded = cloneDefaults shared)
  /\ (fs !! PREDICTIONS_PATH = Some (Js.Json Js.VNull) -> loaded = cloneDefaults shared)
  /\ ld_state (cloneDefaults shared)
     = Js.VObj [ ("schemaVersion", Js.VNum 1); ("predictions", Js.VArr shared);
                 ("config", Js.VObj DEFAULT_CONFIG_JS) ]
  /\ (forall props,
        fs !! PREDICTIONS_PATH = Some (Js.Json (Js.VObj props)) ->
        ld_shares loaded = negb (hasKey "predictions" props)
        /\ (NoDup (fst <$> props) ->
            (forall k, k <> "config" ->
               Js.getProp (ld_state loaded) k
               = if hasKey k props then Js.lookupProp k props
                 else Js.lookupProp k (DEFAULT_STATE_JS shared))
            /\ (truthy (Js.lookupProp "config" props) = false ->
                Js.getProp (ld_state loaded) "config" = Js.VObj DEFAULT_CONFIG_JS)
            /\ (forall cprops,
                  Js.lookupProp "config" props = Js.VObj cprops ->
                  NoDup (fst <$> cprops) ->
                  forall k,
                    Js.getProp (Js.getProp (ld_state loaded) "config") k
                    = if hasKey k cprops then Js.lookupProp k cprops
                      else Js.lookupProp k DEFAULT_CONFIG_JS)))
  /\ (forall prediction,
        (ld_shares loaded = true ->
         exists loaded',
           pushPrediction prediction loaded shared
           = Some (loaded', (shared ++ [prediction])%list)
           /\ Js.getProp (ld_state loaded') "predictions"
              = Js.VArr (shared ++ [prediction])
           /\ forall fs',
               fs' !! PREDICTIONS_PATH = None ->
               Js.getProp (ld_state (loadPredictions (shared ++ [prediction]) fs'))
                          "predictions"
               = Js.VArr (shared ++ [prediction]))
        /\ (ld_shares loaded = false ->
            forall loaded' shared',
              pushPrediction prediction loaded shared = Some (loaded', shared') ->
              shared' = shared)).
Proof.
  intros loaded.
  split. { subst loaded. unfold loadPredictions. intros ->. reflexivity. }
  split. { subst loaded. unfold loadPredictions. intros raw ->. reflexivity. }
  split. { subst loaded. unfold loadPredictions. intros ->. reflexivity. }
  split; [reflexivity|].
  split.
  { intros props E. subst loaded. unfold loadPredictions. rewrite E.
    cbn [Js.JSON_parse mbind option_bind parseState ld_shares ld_state Js.ownProps].
    cbv zeta. split; [reflexivity|]. intros Hnd.
    split.
    { intros k Hk. cbn [Js.getProp]. rewrite lookupProp_setProp.
      destruct (String.eqb_spec "config" k); [congruence|].
      unfold Js.spread. cbn [Js.ownProps]. apply lookupProp_spread. exact Hnd. }
    split.
    { intros Hf. cbn [Js.getProp]. rewrite lookupProp_setProp, String.eqb_refl, Hf.
      reflexivity. }
    intros cprops Hc Hcnd k. cbn [Js.getProp].
    rewrite lookupProp_setProp, String.eqb_refl.
    rewrite Hc. cbn [truthy Js.getProp].
    unfold Js.spread. cbn [Js.ownProps]. apply lookupProp_spread. exact Hcnd. }
  intros prediction. split.
  - intros Hs.
    destruct (loadPredictions_cases shared fs) as [E | [parsed E]]; fold loaded in E.
    { rewrite E in Hs. discriminate Hs. }
    destruct (parseState_shares shared parsed loaded E Hs) as (props & Hst & Hp).
    unfold pushPrediction. rewrite Hst, Hp, Hs.
    eexists. split; [reflexivity|]. cbn [ld_state Js.getProp].
    split.
    + rewrite lookupProp_setProp, String.eqb_refl. reflexivity.
    + intros fs' E'. unfold loadPredictions. rewrite E'. reflexivity.
  - intros Hs loaded' shared' Hpush. unfold pushPrediction in Hpush. rewrite Hs in Hpush.
    destruct (ld_state loaded); try discriminate Hpush.
    destruct (Js.lookupProp "predictions" props); try discriminate Hpush.
    injection Hpush as _ <-. reflexivity.
Qed.

(** A file that holds a configuration only, read when the module is
    fresh: the stored window of 24 hours is kept and the cooldown is the
    default of 6.  The state shares the predictions of the defaults: once
    a prediction is pushed into it, a call that finds no file gives that
    prediction and not an empty list.  A file written with a
    [predictions] key does not share. *)
Lemma loadPredictions_fills_in_defaults_witness :
  let fs : gmap string Js.text :=
    {[ PREDICTIONS_PATH := Js.Json (Js.VObj StoreScenario.configOnly) ]} in
  let loaded := loadPredictions [] fs in
  Js.getProp (Js.getProp (ld_state loaded) "config") "verificationWindowHours"
  = Js.VNum 24
  /\ Js.getProp (Js.getProp (ld_state loaded) "config") "cooldownHours" = Js.VNum 6
  /\ Js.getProp (ld_state loaded) "schemaVersion" = Js.VNum 1
  /\ ld_shares loaded = true
  /\ (exists loaded',
        pushPrediction StoreScenario.pushed loaded [] = Some (loaded', [StoreScenario.pushed]))
  /\ Js.getProp (ld_state (loadPredictions [StoreScenario.pushed] ∅)) "predictions"
     = Js.VArr [StoreScenario.pushed]
  /\ ld_shares
       (loadPredictions []
          {[ PREDICTIONS_PATH := Js.Json (Js.VObj StoreScenario.olderDocument) ]})
     = false.
Proof.
  cbv zeta.
  destruct (loadPredictions_fills_in_defaults []
              {[ PREDICTIONS_PATH := Js.Json (Js.VObj StoreScenario.configOnly) ]})
    as (_ & _ & _ & _ & Hobj & Hpush).
  destruct (Hobj StoreScenario.configOnly eq_refl) as (Hshares & Hfill).
  assert (Hnd : NoDup (fst <$> StoreScenario.configOnly)).
  { apply (bool_decide_unpack _). vm_compute. exact I. }
  destruct (Hfill Hnd) as (Hkey & _ & Hcfg).
  assert (Hcnd : NoDup (fst <$> [ ("verificationWindowHours", Js.VNum 24) ])).
  { apply (bool_decide_unpack _). vm_compute. exact I. }
  split; [apply (Hcfg _ eq_refl Hcnd "verificationWindowHours")|].
  split; [apply (Hcfg _ eq_refl Hcnd "cooldownHours")|].
  split; [apply (Hkey "schemaVersion"); discriminate|].
  split; [exact Hshares|].
  destruct (proj1 (Hpush StoreScenario.pushed) Hshares) as (loaded' & Hp & _ & Hlater).
  split; [exists loaded'; exact Hp|].
  split; [apply (Hlater ∅); reflexivity|].
  reflexivity.
Defined.

(* ===================================================================== *)
(** ** The mapping of the DONKI feed                                      *)
(* ===================================================================== *)

Lemma Math_max_spec (xs : list Q) (last : Q) :
  let m := Donki.Math_max xs last in
  (last <= m)%Q
  /\ Forall (fun x => (x <= m)%Q) xs
  /\ (m = last \/ In m xs).
Proof.
  induction xs as [|x xs (IHl & IHa & IHi)]; cbn [Donki.Math_max fold_right].
  - split; [apply Qle_refl|]. split; [constructor | left; reflexivity].
  - fold (Donki.Math_max xs last) in *.
    destruct (Js.ltb (Donki.Math_max xs last) x) eqn:E.
    + apply ltb_true in E. split; [eapply Qle_trans; [exact IHl | apply Qlt_le_weak, E]|].
      split; [|right; left; reflexivity].
      constructor; [apply Qle_refl|].
      eapply Forall_impl; [exact IHa|]. intros y Hy. cbn beta in Hy.
      eapply Qle_trans; [exact Hy | apply Qlt_le_weak, E].
    + apply ltb_false in E. split; [exact IHl|].
      split; [|destruct IHi; [left | right; right]; assumption].
      constructor; [apply Qnot_lt_le, E | exact IHa].
Qed.

Lemma kpToGScale_G0 (kp : Q) :
  String.eqb (Donki.kpToGScale kp) "G0" = negb (Js.geb kp 5).
Proof.
  unfold Donki.kpToGScale.
  destruct (Js.geb kp 5) eqn:E5.
  - destruct (Js.geb kp 9), (Js.geb kp 8), (Js.geb kp 7), (Js.geb kp 6); reflexivity.
  - assert (forall t, (5 <= t)%Q -> Js.geb kp t = false) as Hlow.
    { intros t Ht. apply geb_false. intros L. apply geb_false in E5. apply E5.
      eapply Qle_trans; eassumption. }
    rewrite !Hlow by (unfold Qle; simpl; lia). reflexivity.
Qed.

(** X27.  Each storm record of the feed gives one storm, in order, with
    its id and start time.  Its Kp index is the largest observed Kp of
    the record, and 0 when there is no observation or all are negative:
    it is never below 0 and never below an observation.  Its G-scale is
    the scale of that index, G0 exactly when the index is below 5; such
    a storm is never matched by the verification of predictions. *)
Theorem storm_scale_follows_max_kp `{Host} (raw : list Donki.DONKIGSTRaw) :
  Forall2
    (fun r storm =>
       storm_id storm = Donki.gstID r
       /\ storm_startTime storm = Donki.raw_stormStartTime r
       /\ (0 <= storm_kpIndex storm)%Q
       /\ Forall (fun o => (Donki.kpIndex o <= storm_kpIndex storm)%Q) (Donki.allKpIndex r)
       /\ (storm_kpIndex storm = 0%Q
           \/ In (storm_kpIndex storm) (Donki.kpIndex <$> Donki.allKpIndex r))
       /\ (Donki.allKpIndex r = [] ->
           storm_kpIndex storm = 0%Q /\ storm_gScale storm = "G0")
       /\ storm_gScale storm = Donki.kpToGScale (storm_kpIndex storm)
       /\ String.eqb (storm_gScale storm) "G0" = negb (Js.geb (storm_kpIndex storm) 5)
       /\ forall start end_ acc,
            String.eqb (storm_gScale storm) "G0" = true ->
            Verify.stormStep start end_ acc storm = acc)
    raw (Donki.fetchGeomagneticStorms raw).
Proof.
  unfold Donki.fetchGeomagneticStorms.
  apply Forall2_fmap_r, Forall_Forall2_diag, Forall_true. intros r.
  cbn [storm_id storm_startTime storm_kpIndex storm_gScale].
  destruct (Math_max_spec (Donki.kpIndex <$> Donki.allKpIndex r) 0) as (H0 & Hall & Hin).
  split; [reflexivity|]. split; [reflexivity|]. split; [exact H0|].
  split.
  { apply List.Forall_forall. intros o Ho. rewrite List.Forall_forall in Hall.
    apply Hall. apply in_map_iff. exists o. auto. }
  split; [exact Hin|].
  split. { intros ->. split; reflexivity. }
  split; [reflexivity|].
  split; [apply kpToGScale_G0|].
  intros start end_ acc E. cbn [storm_gScale] in E. rewrite kpToGScale_G0 in E. apply negb_true_iff in E.
  unfold Verify.stormStep. cbn [storm_startTime storm_kpIndex]. rewrite E.
  destruct (Verify.outside _ _ _); reflexivity.
Qed.

(** X28.  A CME of the feed keeps its activity id.  Without an ENLIL run
    for Earth in the analysis read, it has no predicted Kp and no
    predicted arrival, and when it is evaluated as a new Earth-directed
    CME the alert is of urgency high, titled "Earth-Directed CME".  With
    such a run it is Earth-directed, and its predicted Kp is one of the
    four Kp values of the run (a missing one counting as 0) and at least
    each of them.  A speed of 0 and an empty arrival time are mapped to
    [null].  In the result of [fetchAllDONKI] every CME with an ENLIL run
    for Earth is among the Earth-directed ones, all of which are flagged
    Earth-directed and are CMEs of the feed. *)
Theorem cme_forecast_comes_from_enlil `{Host} (cme : Donki.DONKICMERaw) :
  let c := Donki.cmeOfRaw cme in
  cme_id c = Donki.raw_activityID cme
  /\ (Donki.enlilOf cme = None ->
      cme_predictedKp c = None /\ cme_predictedArrival c = None
      /\ forall cfg nowMs prevState,
          find (fun k => String.eqb (known_id k) (cme_id c)) (knownCMEs prevState) = None ->
          exists a, Alerts.cmeAlerts cfg nowMs prevState c = [a]
                    /\ alert_type a = "cme-earth" /\ alert_urgency a = high
                    /\ alert_title a = "Earth-Directed CME")
  /\ (forall e, Donki.enlilOf cme = Some e ->
      Donki.isEarthGB e = true /\ cme_isEarthDirected c = true
      /\ exists kp,
          cme_predictedKp c = Some kp
          /\ Forall (fun o => (Donki.orZero o <= kp)%Q)
                    [Donki.kp_18 e; Donki.kp_90 e; Donki.kp_135 e; Donki.kp_180 e]
          /\ In kp (Donki.orZero
                      <$> [Donki.kp_18 e; Donki.kp_90 e; Donki.kp_135 e; Donki.kp_180 e]))
  /\ (forall v, cme_speed c = Some v -> ~ (v == 0)%Q)
  /\ (forall v, cme_predictedArrival c = Some v -> v <> "")
  /\ forall cmes flares storms hss,
       let data := Donki.fetchAllDONKI cmes flares storms hss in
       (In cme cmes -> is_Some (Donki.enlilOf cme) ->
        In c (Donki.donki_earthDirectedCMEs data))
       /\ Forall (fun c' => cme_isEarthDirected c' = true /\ In c' (Donki.donki_cmes data))
                 (Donki.donki_earthDirectedCMEs data).
Proof.
  intros c. subst c.
  split; [reflexivity|].
  split.
  { intros He. unfold Donki.cmeOfRaw. rewrite He.
    cbn [cme_predictedKp cme_predictedArrival cme_id].
    split; [reflexivity|]. split; [reflexivity|].
    intros cfg nowMs prevState Hfind. unfold Alerts.cmeAlerts.
    cbn [cme_id cme_predictedKp]. rewrite Hfind. cbn [default].
    eexists. split; [reflexivity|]. repeat split. }
  split.
  { intros e He.
    assert (Hgb : Donki.isEarthGB e = true).
    { unfold Donki.enlilOf in He. destruct (Donki.analysisOf cme) as [a|]; [|discriminate].
      destruct (Donki.enlilList a) as [l|]; [|discriminate].
      apply find_some in He. apply He. }
    split; [exact Hgb|].
    unfold Donki.cmeOfRaw. rewrite He. cbn [cme_isEarthDirected cme_predictedKp].
    rewrite Hgb. split; [reflexivity|].
    eexists. split; [reflexivity|].
    destruct (Math_max_spec
                [Donki.orZero (Donki.kp_18 e); Donki.orZero (Donki.kp_90 e);
                 Donki.orZero (Donki.kp_135 e)] (Donki.orZero (Donki.kp_180 e)))
      as (Hl & Ha & Hi).
    cbv zeta in Hl, Ha, Hi.
    split.
    - inversion Ha as [|? ? H1 Ha1]; subst. inversion Ha1 as [|? ? H2 Ha2]; subst.
      inversion Ha2 as [|? ? H3 _]; subst.
      repeat constructor; assumption.
    - cbn [fmap list_fmap In] in *. destruct Hi as [->|[<-|[<-|[<-|[]]]]]; auto. }
  split.
  { intros v Hv E. unfold Donki.cmeOfRaw in Hv. cbn [cme_speed] in Hv.
    unfold Donki.numOrNull in Hv.
    destruct (Donki.analysisOf cme ≫= Donki.an_speed) as [q|]; cbn [Js.truthyNum] in Hv.
    - destruct (Qeq_bool q 0) eqn:Eq; cbn [negb] in Hv; [discriminate|].
      injection Hv as <-. apply Qeq_bool_iff in E. congruence.
    - discriminate. }
  split.
  { intros v Hv. unfold Donki.cmeOfRaw in Hv. cbn [cme_predictedArrival] in Hv.
    unfold Donki.strOrNull in Hv.
    destruct (Donki.enlilOf cme ≫= Donki.estimatedShockArrivalTime) as [s|];
      cbn [Js.truthyStr] in Hv; [|discriminate].
    destruct (String.eqb_spec s ""); cbn [negb] in Hv; [discriminate|].
    injection Hv as <-. assumption. }
  intros cmes flares storms hss data. subst data.
  unfold Donki.fetchAllDONKI. cbn [Donki.donki_earthDirectedCMEs Donki.donki_cmes].
  split.
  - intros Hin [e He]. apply filter_In. split.
    + unfold Donki.fetchCMEs. apply in_map_iff. exists cme. auto.
    + assert (Hgb : Donki.isEarthGB e = true).
      { unfold Donki.enlilOf in He. destruct (Donki.analysisOf cme) as [a|]; [|discriminate].
        destruct (Donki.enlilList a) as [l|]; [|discriminate].
        apply find_some in He. apply He. }
      unfold Donki.cmeOfRaw. rewrite He. cbn [cme_isEarthDirected]. rewrite Hgb.
      reflexivity.
  - apply List.Forall_forall. intros c' [Hin Hc]%filter_In. auto.
Qed.

(* ===================================================================== *)
(** ** The health display                                                 *)
(* ===================================================================== *)

Lemma Math_floor_div (a b : Z) :
  0 < b -> Js.Math_floor (inject_Z a / inject_Z b)%Q = a / b.
Proof.
  intros Hb. unfold Js.Math_floor.
  assert (E : (inject_Z a / inject_Z b == a # Z.to_pos b)%Q).
  { unfold Qeq, Qdiv, Qmult, Qinv, inject_Z.
    destruct b as [|p|p]; try lia. cbn [Qnum Qden Z.to_pos]. lia. }
  rewrite (Qfloor_comp _ _ E). unfold Qfloor.
  rewrite Z2Pos.id by lia. reflexivity.
Qed.

(** X29.  [formatAge] by the age of the timestamp in milliseconds: less
    than a minute, or a timestamp ahead of the clock, reads "just now";
    from a minute to an hour, the whole minutes, 1 to 59; from an hour to
    a day, the whole hours, 1 to 23; from a day on, the whole days.  The
    display is stale exactly when there is a last run and it is more than
    20 minutes old; its label then counts at least 20 minutes, and reads
    "never" only when there is no last run. *)
Theorem formatAge_bands `{Host} (nowMs : Z) (iso : string) :
  let age := nowMs - getTime iso in
  let label := CheckerHealth.formatAge nowMs iso in
  (age < 60000 -> label = "just now")
  /\ (60000 <= age < 3600000 ->
      label = Js.intToString (age / 60000) +:+ "m ago" /\ 1 <= age / 60000 <= 59)
  /\ (3600000 <= age < 86400000 ->
      label = Js.intToString (age / 3600000) +:+ "h ago" /\ 1 <= age / 3600000 <= 23)
  /\ (86400000 <= age ->
      label = Js.intToString (age / 86400000) +:+ "d ago" /\ 1 <= age / 86400000)
  /\ (CheckerHealth.isStale nowMs (Some iso) = true <-> iso <> "" /\ 1200000 < age)
  /\ (CheckerHealth.isStale nowMs (Some iso) = true ->
      CheckerHealth.lastCheck nowMs (Some iso) = label /\ 20 <= age / 60000)
  /\ CheckerHealth.isStale nowMs None = false
  /\ CheckerHealth.lastCheck nowMs None = "never".
Proof.
  intros age label.
  assert (Hmins : Js.Math_floor (CheckerHealth.getAgeMinutes nowMs iso) = age / 60000).
  { unfold CheckerHealth.getAgeMinutes. fold age.
    apply (Math_floor_div age 60000). lia. }
  assert (Hlabel : label
                   = if age / 60000 <? 1 then "just now"
                     else if age / 60000 <? 60 then Js.intToString (age / 60000) +:+ "m ago"
                     else if age / 60000 / 60 <? 24
                          then Js.intToString (age / 60000 / 60) +:+ "h ago"
                          else Js.intToString (age / 60000 / 60 / 24) +:+ "d ago").
  { subst label. unfold CheckerHealth.formatAge. cbv zeta. rewrite Hmins.
    change 60%Q with (inject_Z 60). change 24%Q with (inject_Z 24).
    rewrite (Math_floor_div (age / 60000) 60) by lia.
    rewrite (Math_floor_div (age / 60000 / 60) 24) by lia. reflexivity. }
  assert (Hh : age / 60000 / 60 = age / 3600000)
    by (rewrite Z.div_div by lia; reflexivity).
  assert (Hd : age / 60000 / 60 / 24 = age / 86400000)
    by (rewrite Hh, Z.div_div by lia; reflexivity).
  rewrite Hd, Hh in Hlabel.
  assert (Hstale : CheckerHealth.isStale nowMs (Some iso) = true
                   <-> iso <> "" /\ 1200000 < age).
  { unfold CheckerHealth.isStale. cbn [Js.truthyStr].
    destruct (String.eqb_spec iso "") as [->|Hne]; cbn [negb].
    - split; [discriminate | intros [N _]; contradiction].
    - rewrite gtb_true. unfold CheckerHealth.getAgeMinutes. fold age.
      change (1000 * 60)%Q with (60000 # 1).
      unfold Qlt, Qdiv, Qmult, Qinv, inject_Z. cbn [Qnum Qden Z.mul Pos.mul].
      split; [intros Hlt; split; [exact Hne | lia] | intros [_ Hlt]; lia]. }
  split.
  { intros Ha. rewrite Hlabel.
    assert (age / 60000 < 1) by (apply Z.div_lt_upper_bound; lia).
    destruct (Z.ltb_spec (age / 60000) 1); [reflexivity | lia]. }
  split.
  { intros [Hlo Hhi].
    assert (1 <= age / 60000) by (apply Z.div_le_lower_bound; lia).
    assert (age / 60000 < 60) by (apply Z.div_lt_upper_bound; lia).
    split; [|lia]. rewrite Hlabel.
    destruct (Z.ltb_spec (age / 60000) 1); [lia|].
    destruct (Z.ltb_spec (age / 60000) 60); [reflexivity | lia]. }
  split.
  { intros [Hlo Hhi].
    assert (60 <= age / 60000) by (apply Z.div_le_lower_bound; lia).
    assert (1 <= age / 3600000) by (apply Z.div_le_lower_bound; lia).
    assert (age / 3600000 < 24) by (apply Z.div_lt_upper_bound; lia).
    split; [|lia]. rewrite Hlabel.
    destruct (Z.ltb_spec (age / 60000) 1); [lia|].
    destruct (Z.ltb_spec (age / 60000) 60); [lia|].
    destruct (Z.ltb_spec (age / 3600000) 24); [reflexivity | lia]. }
  split.
  { intros Hlo.
    assert (60 <= age / 60000) by (apply Z.div_le_lower_bound; lia).
    assert (24 <= age / 3600000) by (apply Z.div_le_lower_bound; lia).
    assert (1 <= age / 86400000) by (apply Z.div_le_lower_bound; lia).
    split; [|lia]. rewrite Hlabel.
    destruct (Z.ltb_spec (age / 60000) 1); [lia|].
    destruct (Z.ltb_spec (age / 60000) 60); [lia|].
    destruct (Z.ltb_spec (age / 3600000) 24); [lia | reflexivity]. }
  split; [exact Hstale|].
  split.
  { intros Hs. apply Hstale in Hs as [Hne Hlt]. split.
    - unfold CheckerHealth.lastCheck. cbn [Js.truthyStr].
      destruct (String.eqb_spec iso ""); [contradiction | reflexivity].
    - apply Z.div_le_lower_bound; lia. }
  split; reflexivity.
Qed.

(** The last run was at 1000: 59 seconds later the label is "just now",
    25 minutes later it is "25m ago" and the display is stale, and 49
    hours later it is "2d ago". *)
Lemma formatAge_bands_witness :
  CheckerHealth.formatAge (H := RefHost.host) 60000 "1000" = "just now"
  /\ CheckerHealth.formatAge (H := RefHost.host) 1501000 "1000" = "25m ago"
  /\ CheckerHealth.isStale (H := RefHost.host) 1501000 (Some "1000") = true
  /\ CheckerHealth.formatAge (H := RefHost.host) 176401000 "1000" = "2d ago".
Proof.
  split.
  { apply (proj1 (formatAge_bands (H := RefHost.host) 60000 "1000")). reflexivity. }
  split; [vm_compute; reflexivity|].
  split; [vm_compute; reflexivity|].
  vm_compute. reflexivity.
Defined.
